(** * Delta synchronisation core and epoch tracker: a shallow embedding

    The two TypeScript classes [DeltaManager] (ordering, gap fill, connection
    state machine, acknowledgement scheduler) and [EpochTracker] (with its
    redemption variant) are embedded as pure functions over explicit state.

    Conventions of the embedding:
    - a JavaScript [number] holding a sequence number, a counter or a delay in
      milliseconds is a [Z];
    - [undefined]/[null] on an optional field is [None];
    - every synchronous stretch of code (a method body, an event handler, the
      part of an async function between two awaits) is one function on the
      manager's state; what the JavaScript runtime holds for the manager in
      between (armed timers, pending promises, emitted events) is kept in the
      [rt_] fields of the same record;
    - an exception is a value: a function that can throw returns a [Completion]. *)

From Stdlib Require Import ZArith List String Bool Lia.
Import ListNotations.
Open Scope string_scope.
Open Scope list_scope.
Open Scope Z_scope.

(** ** Protocol definitions used by both classes *)

Inductive ConnectionMode := ModeRead | ModeWrite.

Definition ConnectionMode_eqb (a b : ConnectionMode) : bool :=
  match a, b with
  | ModeRead, ModeRead | ModeWrite, ModeWrite => true
  | _, _ => false
  end.

(** [MessageType] of the protocol; the system types are the ones whose payload
    the server inspects. *)
Inductive MessageType :=
  | NoOp | ClientJoin | ClientLeave | Propose | Reject | Operation
  | OtherType (name : string).

Definition MessageType_isNoOp (t : MessageType) : bool :=
  match t with NoOp => true | _ => false end.

(** Modelled from the spec: [isSystemType] comes from the core-utils package,
    which is not part of the sources; the spec lists the system-typed messages
    as join, leave, propose, reject and noop. *)
Definition isSystemType (t : MessageType) : bool :=
  match t with
  | NoOp | ClientJoin | ClientLeave | Propose | Reject => true
  | Operation | OtherType _ => false
  end.

(** A value of type [any] passed to [submit] as message contents. *)
Inductive JsAny :=
  | AnyNull
  | AnyString (s : string)
  | AnyObject (repr : string).

(** The text [JSON.stringify c], kept symbolic. *)
Inductive JsonText := stringify (c : JsAny).

(** [ISequencedDocumentMessage] *)
Module Seq.
Record t := mk {
  sequenceNumber : Z;
  minimumSequenceNumber : Z;
  clientId : string;
  clientSequenceNumber : Z;
  type : MessageType;
  contents : option string
}.
End Seq.

(** [IDocumentMessage] and, with [data], [IDocumentSystemMessage] *)
Module Doc.
Record t := mk {
  clientSequenceNumber : Z;
  referenceSequenceNumber : Z;
  type : MessageType;
  contents : option JsonText;
  data : option JsonText
}.
End Doc.

Record ISignalMessage := { signalClientId : string; signalContent : string }.

(** Values caught by a [catch] clause or passed as the [error] of an event:
    [any] in the source. Only what the manager inspects is kept. *)
Inductive JsError :=
  | ErrUndefined
  | ErrNull
  | ErrPrimitive (text : string)
  | ErrObject (canRetry : option bool) (retryAfterSeconds : option Z).

(** Truthiness of a caught value, as tested by [if (error)]. *)
Definition truthy_error (e : JsError) : bool :=
  match e with
  | ErrUndefined | ErrNull => false
  | ErrPrimitive text => negb (String.eqb text EmptyString)
  | ErrObject _ _ => true
  end.

(** What a function that may throw completes with. *)
Inductive Completion (A E : Type) :=
  | Normal (a : A)
  | Throw (e : E).
Arguments Normal {A E} a.
Arguments Throw {A E} e.

(** ** The delta manager *)

Module DeltaManager.

Definition MaxReconnectDelay : Z := 8000.
Definition InitialReconnectDelay : Z := 1000.
Definition MissingFetchDelay : Z := 100.
Definition MaxFetchDelay : Z := 10000.
Definition MaxBatchDeltas : Z := 2000.
Definition AckTimerDelay : Z := 100.

(** [ImmediateNoOpResponse = ""]: anything other than null. *)
Definition ImmediateNoOpResponse : JsAny := AnyString EmptyString.

(** [Browser] of the protocol definitions. *)
Definition Browser : string := "browser".

(** [canRetryOnError]: always retry unless told otherwise. *)
Definition canRetryOnError (error : JsError) : bool :=
  match error with
  | ErrNull => true                        (* error === null *)
  | ErrUndefined | ErrPrimitive _ => true   (* typeof error !== "object" *)
  | ErrObject None _ => true                (* error.canRetry === undefined *)
  | ErrObject (Some b) _ => b               (* error.canRetry *)
  end.

Inductive retryFor := DELTASTREAM | DELTASTORAGE.

(** Modelled from the spec: the [DeltaQueue] class is not part of the sources.
    The spec describes a FIFO queue with pause, resume and clear; the worker
    that drains it is not modelled, so a queue is the list of items pushed and
    not yet cleared, with its pause flag. *)
Record DeltaQueue (T : Type) := { items : list T; paused : bool }.
Arguments items {T} _.
Arguments paused {T} _.

Definition push {T} (x : T) (q : DeltaQueue T) : DeltaQueue T :=
  {| items := items q ++ [x]; paused := paused q |}.
Definition clear {T} (q : DeltaQueue T) : DeltaQueue T :=
  {| items := []; paused := paused q |}.
Definition systemPause {T} (q : DeltaQueue T) : DeltaQueue T :=
  {| items := items q; paused := true |}.
Definition systemResume {T} (q : DeltaQueue T) : DeltaQueue T :=
  {| items := items q; paused := false |}.

(** [IConnectionDetails], the fields the manager reads. *)
Record IConnectionDetails := {
  detailsClientId : string;
  detailsMode : option ConnectionMode;
  initialMessages : list Seq.t;
  initialSignals : list ISignalMessage
}.

(** A [DeltaConnection] object; [connId] stands for its identity, which
    [reconnectOnError] compares with [!==]. *)
Record DeltaConnection := { connId : positive; details : IConnectionDetails }.

(** Events the manager emits to its listeners. *)
Inductive Event :=
  | EvConnect (d : IConnectionDetails)
  | EvDisconnect (reason : string)
  | EvError (e : JsError)
  | EvSubmitOp (m : Doc.t)
  | EvPrepareSend (batch : list Doc.t)
  | EvCaughtUp
  | EvAllSentOpsAckd
  | EvProcessTime
  | EvConnectionDelay (delay : Z).

(** Events sent to the telemetry logger. *)
Record TelemetryEvent := { eventName : string; props : list (string * Z) }.

(** A call of [getDeltas] that has been started. *)
Record GetDeltasCall := {
  telemetryEventSuffix : string;
  fromInitial : Z;
  to : option Z
}.

(** What [connectCore] leaves pending: a [DeltaConnection.connect] promise, or
    the wait before the next rung of the ladder. *)
Inductive PendingConnect :=
  | Connecting (reason : string) (delay : Z) (mode : ConnectionMode)
  | Waiting (reason : string) (delayNext : Z) (mode : ConnectionMode).

(** How a [Deferred<IConnectionDetails>] was settled. *)
Inductive Settlement :=
  | Resolved (d : IConnectionDetails)
  | Rejected (e : JsError)
  | RejectedClosed.     (* new Error("Container closed") *)

(** The fields of the class, then (prefixed [rt_]) what the runtime holds:
    armed timers with their delay, the next fresh object identity, the events
    emitted and logged so far, the [getDeltas] calls started, the connection
    attempts pending, the deferreds settled, the connections closed, and
    whether [removeAllListeners()] has run. *)
Record DeltaManager := {
  clientType : string;
  systemConnectionMode : ConnectionMode;
  reconnect : bool;
  connectionMode : ConnectionMode;
  pending : list Seq.t;
  fetching : bool;
  inQuorum : bool;
  updateSequenceNumberTimer : option positive;
  minSequenceNumber : Z;
  lastQueuedSequenceNumber : Z;
  baseSequenceNumber : Z;
  initSequenceNumber : Z;
  inbound : DeltaQueue Seq.t;
  outbound : DeltaQueue (list Doc.t);
  inboundSignal : DeltaQueue ISignalMessage;
  connecting : option positive;
  connection : option DeltaConnection;
  clientSequenceNumber : Z;
  clientSequenceNumberObserved : Z;
  closed : bool;
  handler : option string;
  messageBuffer : list Doc.t;
  duplicateMsgCount : Z;
  connectRepeatCount : Z;
  deltaStorageDelay : option Z;
  deltaStreamDelay : option Z;
  collabWindowMax : Z;
  rt_timers : list (positive * Z);
  rt_nextId : positive;
  rt_emitted : list Event;
  rt_telemetry : list TelemetryEvent;
  rt_getDeltas : list GetDeltasCall;
  rt_attempts : list PendingConnect;
  rt_settled : list (positive * Settlement);
  rt_closedConnections : list positive;
  rt_listenersRemoved : bool
}.

Definition set_connectionMode (v : ConnectionMode) (s : DeltaManager) : DeltaManager :=
  {| clientType := clientType s; systemConnectionMode := systemConnectionMode s;
     reconnect := reconnect s; connectionMode := v; pending := pending s;
     fetching := fetching s; inQuorum := inQuorum s;
     updateSequenceNumberTimer := updateSequenceNumberTimer s;
     minSequenceNumber := minSequenceNumber s;
     lastQueuedSequenceNumber := lastQueuedSequenceNumber s;
     baseSequenceNumber := baseSequenceNumber s; initSequenceNumber := initSequenceNumber s;
     inbound := inbound s; outbound := outbound s; inboundSignal := inboundSignal s;
     connecting := connecting s; connection := connection s;
     clientSequenceNumber := clientSequenceNumber s;
     clientSequenceNumberObserved := clientSequenceNumberObserved s; closed := closed s;
     handler := handler s; messageBuffer := messageBuffer s;
     duplicateMsgCount := duplicateMsgCount s; connectRepeatCount := connectRepeatCount s;
     deltaStorageDelay := deltaStorageDelay s; deltaStreamDelay := deltaStreamDelay s;
     collabWindowMax := collabWindowMax s; rt_timers := rt_timers s; rt_nextId := rt_nextId s;
     rt_emitted := rt_emitted s; rt_telemetry := rt_telemetry s;
     rt_getDeltas := rt_getDeltas s; rt_attempts := rt_attempts s; rt_settled := rt_settled s;
     rt_closedConnections := rt_closedConnections s;
     rt_listenersRemoved := rt_listenersRemoved s |}.

Definition set_pending (v : list Seq.t) (s : DeltaManager) : DeltaManager :=
  {| clientType := clientType s; systemConnectionMode := systemConnectionMode s;
     reconnect := reconnect s; connectionMode := connectionMode s; pending := v;
     fetching := fetching s; inQuorum := inQuorum s;
     updateSequenceNumberTimer := updateSequenceNumberTimer s;
     minSequenceNumber := minSequenceNumber s;
     lastQueuedSequenceNumber := lastQueuedSequenceNumber s;
     baseSequenceNumber := baseSequenceNumber s; initSequenceNumber := initSequenceNumber s;
     inbound := inbound s; outbound := outbound s; inboundSignal := inboundSignal s;
     connecting := connecting s; connection := connection s;
     clientSequenceNumber := clientSequenceNumber s;
     clientSequenceNumberObserved := clientSequenceNumberObserved s; closed := closed s;
     handler := handler s; messageBuffer := messageBuffer s;
     duplicateMsgCount := duplicateMsgCount s; connectRepeatCount := connectRepeatCount s;
     deltaStorageDelay := deltaStorageDelay s; deltaStreamDelay := deltaStreamDelay s;
     collabWindowMax := collabWindowMax s; rt_timers := rt_timers s; rt_nextId := rt_nextId s;
     rt_emitted := rt_emitted s; rt_telemetry := rt_telemetry s;
     rt_getDeltas := rt_getDeltas s; rt_attempts := rt_attempts s; rt_settled := rt_settled s;
     rt_closedConnections := rt_closedConnections s;
     rt_listenersRemoved := rt_listenersRemoved s |}.

Definition set_fetching (v : bool) (s : DeltaManager) : DeltaManager :=
  {| clientType := clientType s; systemConnectionMode := systemConnectionMode s;
     reconnect := reconnect s; connectionMode := connectionMode s; pending := pending s;
     fetching := v; inQuorum := inQuorum s;
     updateSequenceNumberTimer := updateSequenceNumberTimer s;
     minSequenceNumber := minSequenceNumber s;
     lastQueuedSequenceNumber := lastQueuedSequenceNumber s;
     baseSequenceNumber := baseSequenceNumber s; initSequenceNumber := initSequenceNumber s;
     inbound := inbound s; outbound := outbound s; inboundSignal := inboundSignal s;
     connecting := connecting s; connection := connection s;
     clientSequenceNumber := clientSequenceNumber s;
     clientSequenceNumberObserved := clientSequenceNumberObserved s; closed := closed s;
     handler := handler s; messageBuffer := messageBuffer s;
     duplicateMsgCount := duplicateMsgCount s; connectRepeatCount := connectRepeatCount s;
     deltaStorageDelay := deltaStorageDelay s; deltaStreamDelay := deltaStreamDelay s;
     collabWindowMax := collabWindowMax s; rt_timers := rt_timers s; rt_nextId := rt_nextId s;
     rt_emitted := rt_emitted s; rt_telemetry := rt_telemetry s;
     rt_getDeltas := rt_getDeltas s; rt_attempts := rt_attempts s; rt_settled := rt_settled s;
     rt_closedConnections := rt_closedConnections s;
     rt_listenersRemoved := rt_listenersRemoved s |}.

Definition set_inQuorum (v : bool) (s : DeltaManager) : DeltaManager :=
  {| clientType := clientType s; systemConnectionMode := systemConnectionMode s;
     reconnect := reconnect s; connectionMode := connectionMode s; pending := pending s;
     fetching := fetching s; inQuorum := v;
     updateSequenceNumberTimer := updateSequenceNumberTimer s;
     minSequenceNumber := minSequenceNumber s;
     lastQueuedSequenceNumber := lastQueuedSequenceNumber s;
     baseSequenceNumber := baseSequenceNumber s; initSequenceNumber := initSequenceNumber s;
     inbound := inbound s; outbound := outbound s; inboundSignal := inboundSignal s;
     connecting := connecting s; connection := connection s;
     clientSequenceNumber := clientSequenceNumber s;
     clientSequenceNumberObserved := clientSequenceNumberObserved s; closed := closed s;
     handler := handler s; messageBuffer := messageBuffer s;
     duplicateMsgCount := duplicateMsgCount s; connectRepeatCount := connectRepeatCount s;
     deltaStorageDelay := deltaStorageDelay s; deltaStreamDelay := deltaStreamDelay s;
     collabWindowMax := collabWindowMax s; rt_timers := rt_timers s; rt_nextId := rt_nextId s;
     rt_emitted := rt_emitted s; rt_telemetry := rt_telemetry s;
     rt_getDeltas := rt_getDeltas s; rt_attempts := rt_attempts s; rt_settled := rt_settled s;
     rt_closedConnections := rt_closedConnections s;
     rt_listenersRemoved := rt_listenersRemoved s |}.

Definition set_updateSequenceNumberTimer (v : option positive) (s : DeltaManager) : DeltaManager :=
  {| clientType := clientType s; systemConnectionMode := systemConnectionMode s;
     reconnect := reconnect s; connectionMode := connectionMode s; pending := pending s;
     fetching := fetching s; inQuorum := inQuorum s; updateSequenceNumberTimer := v;
     minSequenceNumber := minSequenceNumber s;
     lastQueuedSequenceNumber := lastQueuedSequenceNumber s;
     baseSequenceNumber := baseSequenceNumber s; initSequenceNumber := initSequenceNumber s;
     inbound := inbound s; outbound := outbound s; inboundSignal := inboundSignal s;
     connecting := connecting s; connection := connection s;
     clientSequenceNumber := clientSequenceNumber s;
     clientSequenceNumberObserved := clientSequenceNumberObserved s; closed := closed s;
     handler := handler s; messageBuffer := messageBuffer s;
     duplicateMsgCount := duplicateMsgCount s; connectRepeatCount := connectRepeatCount s;
     deltaStorageDelay := deltaStorageDelay s; deltaStreamDelay := deltaStreamDelay s;
     collabWindowMax := collabWindowMax s; rt_timers := rt_timers s; rt_nextId := rt_nextId s;
     rt_emitted := rt_emitted s; rt_telemetry := rt_telemetry s;
     rt_getDeltas := rt_getDeltas s; rt_attempts := rt_attempts s; rt_settled := rt_settled s;
     rt_closedConnections := rt_closedConnections s;
     rt_listenersRemoved := rt_listenersRemoved s |}.

Definition set_minSequenceNumber (v : Z) (s : DeltaManager) : DeltaManager :=
  {| clientType := clientType s; systemConnectionMode := systemConnectionMode s;
     reconnect := reconnect s; connectionMode := connectionMode s; pending := pending s;
     fetching := fetching s; inQuorum := inQuorum s;
     updateSequenceNumberTimer := updateSequenceNumberTimer s; minSequenceNumber := v;
     lastQueuedSequenceNumber := lastQueuedSequenceNumber s;
     baseSequenceNumber := baseSequenceNumber s; initSequenceNumber := initSequenceNumber s;
     inbound := inbound s; outbound := outbound s; inboundSignal := inboundSignal s;
     connecting := connecting s; connection := connection s;
     clientSequenceNumber := clientSequenceNumber s;
     clientSequenceNumberObserved := clientSequenceNumberObserved s; closed := closed s;
     handler := handler s; messageBuffer := messageBuffer s;
     duplicateMsgCount := duplicateMsgCount s; connectRepeatCount := connectRepeatCount s;
     deltaStorageDelay := deltaStorageDelay s; deltaStreamDelay := deltaStreamDelay s;
     collabWindowMax := collabWindowMax s; rt_timers := rt_timers s; rt_nextId := rt_nextId s;
     rt_emitted := rt_emitted s; rt_telemetry := rt_telemetry s;
     rt_getDeltas := rt_getDeltas s; rt_attempts := rt_attempts s; rt_settled := rt_settled s;
     rt_closedConnections := rt_closedConnections s;
     rt_listenersRemoved := rt_listenersRemoved s |}.

Definition set_lastQueuedSequenceNumber (v : Z) (s : DeltaManager) : DeltaManager :=
  {| clientType := clientType s; systemConnectionMode := systemConnectionMode s;
     reconnect := reconnect s; connectionMode := connectionMode s; pending := pending s;
     fetching := fetching s; inQuorum := inQuorum s;
     updateSequenceNumberTimer := updateSequenceNumberTimer s;
     minSequenceNumber := minSequenceNumber s; lastQueuedSequenceNumber := v;
     baseSequenceNumber := baseSequenceNumber s; initSequenceNumber := initSequenceNumber s;
     inbound := inbound s; outbound := outbound s; inboundSignal := inboundSignal s;
     connecting := connecting s; connection := connection s;
     clientSequenceNumber := clientSequenceNumber s;
     clientSequenceNumberObserved := clientSequenceNumberObserved s; closed := closed s;
     handler := handler s; messageBuffer := messageBuffer s;
     duplicateMsgCount := duplicateMsgCount s; connectRepeatCount := connectRepeatCount s;
     deltaStorageDelay := deltaStorageDelay s; deltaStreamDelay := deltaStreamDelay s;
     collabWindowMax := collabWindowMax s; rt_timers := rt_timers s; rt_nextId := rt_nextId s;
     rt_emitted := rt_emitted s; rt_telemetry := rt_telemetry s;
     rt_getDeltas := rt_getDeltas s; rt_attempts := rt_attempts s; rt_settled := rt_settled s;
     rt_closedConnections := rt_closedConnections s;
     rt_listenersRemoved := rt_listenersRemoved s |}.

Definition set_baseSequenceNumber (v : Z) (s : DeltaManager) : DeltaManager :=
  {| clientType := clientType s; systemConnectionMode := systemConnectionMode s;
     reconnect := reconnect s; connectionMode := connectionMode s; pending := pending s;
     fetching := fetching s; inQuorum := inQuorum s;
     updateSequenceNumberTimer := updateSequenceNumberTimer s;
     minSequenceNumber := minSequenceNumber s;
     lastQueuedSequenceNumber := lastQueuedSequenceNumber s; baseSequenceNumber := v;
     initSequenceNumber := initSequenceNumber s; inbound := inbound s; outbound := outbound s;
     inboundSignal := inboundSignal s; connecting := connecting s; connection := connection s;
     clientSequenceNumber := clientSequenceNumber s;
     clientSequenceNumberObserved := clientSequenceNumberObserved s; closed := closed s;
     handler := handler s; messageBuffer := messageBuffer s;
     duplicateMsgCount := duplicateMsgCount s; connectRepeatCount := connectRepeatCount s;
     deltaStorageDelay := deltaStorageDelay s; deltaStreamDelay := deltaStreamDelay s;
     collabWindowMax := collabWindowMax s; rt_timers := rt_timers s; rt_nextId := rt_nextId s;
     rt_emitted := rt_emitted s; rt_telemetry := rt_telemetry s;
     rt_getDeltas := rt_getDeltas s; rt_attempts := rt_attempts s; rt_settled := rt_settled s;
     rt_closedConnections := rt_closedConnections s;
     rt_listenersRemoved := rt_listenersRemoved s |}.

Definition set_initSequenceNumber (v : Z) (s : DeltaManager) : DeltaManager :=
  {| clientType := clientType s; systemConnectionMode := systemConnectionMode s;
     reconnect := reconnect s; connectionMode := connectionMode s; pending := pending s;
     fetching := fetching s; inQuorum := inQuorum s;
     updateSequenceNumberTimer := updateSequenceNumberTimer s;
     minSequenceNumber := minSequenceNumber s;
     lastQueuedSequenceNumber := lastQueuedSequenceNumber s;
     baseSequenceNumber := baseSequenceNumber s; initSequenceNumber := v; inbound := inbound s;
     outbound := outbound s; inboundSignal := inboundSignal s; connecting := connecting s;
     connection := connection s; clientSequenceNumber := clientSequenceNumber s;
     clientSequenceNumberObserved := clientSequenceNumberObserved s; closed := closed s;
     handler := handler s; messageBuffer := messageBuffer s;
     duplicateMsgCount := duplicateMsgCount s; connectRepeatCount := connectRepeatCount s;
     deltaStorageDelay := deltaStorageDelay s; deltaStreamDelay := deltaStreamDelay s;
     collabWindowMax := collabWindowMax s; rt_timers := rt_timers s; rt_nextId := rt_nextId s;
     rt_emitted := rt_emitted s; rt_telemetry := rt_telemetry s;
     rt_getDeltas := rt_getDeltas s; rt_attempts := rt_attempts s; rt_settled := rt_settled s;
     rt_closedConnections := rt_closedConnections s;
     rt_listenersRemoved := rt_listenersRemoved s |}.

Definition set_inbound (v : DeltaQueue Seq.t) (s : DeltaManager) : DeltaManager :=
  {| clientType := clientType s; systemConnectionMode := systemConnectionMode s;
     reconnect := reconnect s; connectionMode := connectionMode s; pending := pending s;
     fetching := fetching s; inQuorum := inQuorum s;
     updateSequenceNumberTimer := updateSequenceNumberTimer s;
     minSequenceNumber := minSequenceNumber s;
     lastQueuedSequenceNumber := lastQueuedSequenceNumber s;
     baseSequenceNumber := baseSequenceNumber s; initSequenceNumber := initSequenceNumber s;
     inbound := v; outbound := outbound s; inboundSignal := inboundSignal s;
     connecting := connecting s; connection := connection s;
     clientSequenceNumber := clientSequenceNumber s;
     clientSequenceNumberObserved := clientSequenceNumberObserved s; closed := closed s;
     handler := handler s; messageBuffer := messageBuffer s;
     duplicateMsgCount := duplicateMsgCount s; connectRepeatCount := connectRepeatCount s;
     deltaStorageDelay := deltaStorageDelay s; deltaStreamDelay := deltaStreamDelay s;
     collabWindowMax := collabWindowMax s; rt_timers := rt_timers s; rt_nextId := rt_nextId s;
     rt_emitted := rt_emitted s; rt_telemetry := rt_telemetry s;
     rt_getDeltas := rt_getDeltas s; rt_attempts := rt_attempts s; rt_settled := rt_settled s;
     rt_closedConnections := rt_closedConnections s;
     rt_listenersRemoved := rt_listenersRemoved s |}.

Definition set_outbound (v : DeltaQueue (list Doc.t)) (s : DeltaManager) : DeltaManager :=
  {| clientType := clientType s; systemConnectionMode := systemConnectionMode s;
     reconnect := reconnect s; connectionMode := connectionMode s; pending := pending s;
     fetching := fetching s; inQuorum := inQuorum s;
     updateSequenceNumberTimer := updateSequenceNumberTimer s;
     minSequenceNumber := minSequenceNumber s;
     lastQueuedSequenceNumber := lastQueuedSequenceNumber s;
     baseSequenceNumber := baseSequenceNumber s; initSequenceNumber := initSequenceNumber s;
     inbound := inbound s; outbound := v; inboundSignal := inboundSignal s;
     connecting := connecting s; connection := connection s;
     clientSequenceNumber := clientSequenceNumber s;
     clientSequenceNumberObserved := clientSequenceNumberObserved s; closed := closed s;
     handler := handler s; messageBuffer := messageBuffer s;
     duplicateMsgCount := duplicateMsgCount s; connectRepeatCount := connectRepeatCount s;
     deltaStorageDelay := deltaStorageDelay s; deltaStreamDelay := deltaStreamDelay s;
     collabWindowMax := collabWindowMax s; rt_timers := rt_timers s; rt_nextId := rt_nextId s;
     rt_emitted := rt_emitted s; rt_telemetry := rt_telemetry s;
     rt_getDeltas := rt_getDeltas s; rt_attempts := rt_attempts s; rt_settled := rt_settled s;
     rt_closedConnections := rt_closedConnections s;
     rt_listenersRemoved := rt_listenersRemoved s |}.

Definition set_inboundSignal (v : DeltaQueue ISignalMessage) (s : DeltaManager) : DeltaManager :=
  {| clientType := clientType s; systemConnectionMode := systemConnectionMode s;
     reconnect := reconnect s; connectionMode := connectionMode s; pending := pending s;
     fetching := fetching s; inQuorum := inQuorum s;
     updateSequenceNumberTimer := updateSequenceNumberTimer s;
     minSequenceNumber := minSequenceNumber s;
     lastQueuedSequenceNumber := lastQueuedSequenceNumber s;
     baseSequenceNumber := baseSequenceNumber s; initSequenceNumber := initSequenceNumber s;
     inbound := inbound s; outbound := outbound s; inboundSignal := v;
     connecting := connecting s; connection := connection s;
     clientSequenceNumber := clientSequenceNumber s;
     clientSequenceNumberObserved := clientSequenceNumberObserved s; closed := closed s;
     handler := handler s; messageBuffer := messageBuffer s;
     duplicateMsgCount := duplicateMsgCount s; connectRepeatCount := connectRepeatCount s;
     deltaStorageDelay := deltaStorageDelay s; deltaStreamDelay := deltaStreamDelay s;
     collabWindowMax := collabWindowMax s; rt_timers := rt_timers s; rt_nextId := rt_nextId s;
     rt_emitted := rt_emitted s; rt_telemetry := rt_telemetry s;
     rt_getDeltas := rt_getDeltas s; rt_attempts := rt_attempts s; rt_settled := rt_settled s;
     rt_closedConnections := rt_closedConnections s;
     rt_listenersRemoved := rt_listenersRemoved s |}.

Definition set_connecting (v : option positive) (s : DeltaManager) : DeltaManager :=
  {| clientType := clientType s; systemConnectionMode := systemConnectionMode s;
     reconnect := reconnect s; connectionMode := connectionMode s; pending := pending s;
     fetching := fetching s; inQuorum := inQuorum s;
     updateSequenceNumberTimer := updateSequenceNumberTimer s;
     minSequenceNumber := minSequenceNumber s;
     lastQueuedSequenceNumber := lastQueuedSequenceNumber s;
     baseSequenceNumber := baseSequenceNumber s; initSequenceNumber := initSequenceNumber s;
     inbound := inbound s; outbound := outbound s; inboundSignal := inboundSignal s;
     connecting := v; connection := connection s;
     clientSequenceNumber := clientSequenceNumber s;
     clientSequenceNumberObserved := clientSequenceNumberObserved s; closed := closed s;
     handler := handler s; messageBuffer := messageBuffer s;
     duplicateMsgCount := duplicateMsgCount s; connectRepeatCount := connectRepeatCount s;
     deltaStorageDelay := deltaStorageDelay s; deltaStreamDelay := deltaStreamDelay s;
     collabWindowMax := collabWindowMax s; rt_timers := rt_timers s; rt_nextId := rt_nextId s;
     rt_emitted := rt_emitted s; rt_telemetry := rt_telemetry s;
     rt_getDeltas := rt_getDeltas s; rt_attempts := rt_attempts s; rt_settled := rt_settled s;
     rt_closedConnections := rt_closedConnections s;
     rt_listenersRemoved := rt_listenersRemoved s |}.

Definition set_connection (v : option DeltaConnection) (s : DeltaManager) : DeltaManager :=
  {| clientType := clientType s; systemConnectionMode := systemConnectionMode s;
     reconnect := reconnect s; connectionMode := connectionMode s; pending := pending s;
     fetching := fetching s; inQuorum := inQuorum s;
     updateSequenceNumberTimer := updateSequenceNumberTimer s;
     minSequenceNumber := minSequenceNumber s;
     lastQueuedSequenceNumber := lastQueuedSequenceNumber s;
     baseSequenceNumber := baseSequenceNumber s; initSequenceNumber := initSequenceNumber s;
     inbound := inbound s; outbound := outbound s; inboundSignal := inboundSignal s;
     connecting := connecting s; connection := v;
     clientSequenceNumber := clientSequenceNumber s;
     clientSequenceNumberObserved := clientSequenceNumberObserved s; closed := closed s;
     handler := handler s; messageBuffer := messageBuffer s;
     duplicateMsgCount := duplicateMsgCount s; connectRepeatCount := connectRepeatCount s;
     deltaStorageDelay := deltaStorageDelay s; deltaStreamDelay := deltaStreamDelay s;
     collabWindowMax := collabWindowMax s; rt_timers := rt_timers s; rt_nextId := rt_nextId s;
     rt_emitted := rt_emitted s; rt_telemetry := rt_telemetry s;
     rt_getDeltas := rt_getDeltas s; rt_attempts := rt_attempts s; rt_settled := rt_settled s;
     rt_closedConnections := rt_closedConnections s;
     rt_listenersRemoved := rt_listenersRemoved s |}.

Definition set_clientSequenceNumber (v : Z) (s : DeltaManager) : DeltaManager :=
  {| clientType := clientType s; systemConnectionMode := systemConnectionMode s;
     reconnect := reconnect s; connectionMode := connectionMode s; pending := pending s;
     fetching := fetching s; inQuorum := inQuorum s;
     updateSequenceNumberTimer := updateSequenceNumberTimer s;
     minSequenceNumber := minSequenceNumber s;
     lastQueuedSequenceNumber := lastQueuedSequenceNumber s;
     baseSequenceNumber := baseSequenceNumber s; initSequenceNumber := initSequenceNumber s;
     inbound := inbound s; outbound := outbound s; inboundSignal := inboundSignal s;
     connecting := connecting s; connection := connection s; clientSequenceNumber := v;
     clientSequenceNumberObserved := clientSequenceNumberObserved s; closed := closed s;
     handler := handler s; messageBuffer := messageBuffer s;
     duplicateMsgCount := duplicateMsgCount s; connectRepeatCount := connectRepeatCount s;
     deltaStorageDelay := deltaStorageDelay s; deltaStreamDelay := deltaStreamDelay s;
     collabWindowMax := collabWindowMax s; rt_timers := rt_timers s; rt_nextId := rt_nextId s;
     rt_emitted := rt_emitted s; rt_telemetry := rt_telemetry s;
     rt_getDeltas := rt_getDeltas s; rt_attempts := rt_attempts s; rt_settled := rt_settled s;
     rt_closedConnections := rt_closedConnections s;
     rt_listenersRemoved := rt_listenersRemoved s |}.

Definition set_clientSequenceNumberObserved (v : Z) (s : DeltaManager) : DeltaManager :=
  {| clientType := clientType s; systemConnectionMode := systemConnectionMode s;
     reconnect := reconnect s; connectionMode := connectionMode s; pending := pending s;
     fetching := fetching s; inQuorum := inQuorum s;
     updateSequenceNumberTimer := updateSequenceNumberTimer s;
     minSequenceNumber := minSequenceNumber s;
     lastQueuedSequenceNumber := lastQueuedSequenceNumber s;
     baseSequenceNumber := baseSequenceNumber s; initSequenceNumber := initSequenceNumber s;
     inbound := inbound s; outbound := outbound s; inboundSignal := inboundSignal s;
     connecting := connecting s; connection := connection s;
     clientSequenceNumber := clientSequenceNumber s; clientSequenceNumberObserved := v;
     closed := closed s; handler := handler s; messageBuffer := messageBuffer s;
     duplicateMsgCount := duplicateMsgCount s; connectRepeatCount := connectRepeatCount s;
     deltaStorageDelay := deltaStorageDelay s; deltaStreamDelay := deltaStreamDelay s;
     collabWindowMax := collabWindowMax s; rt_timers := rt_timers s; rt_nextId := rt_nextId s;
     rt_emitted := rt_emitted s; rt_telemetry := rt_telemetry s;
     rt_getDeltas := rt_getDeltas s; rt_attempts := rt_attempts s; rt_settled := rt_settled s;
     rt_closedConnections := rt_closedConnections s;
     rt_listenersRemoved := rt_listenersRemoved s |}.

Definition set_closed (v : bool) (s : DeltaManager) : DeltaManager :=
  {| clientType := clientType s; systemConnectionMode := systemConnectionMode s;
     reconnect := reconnect s; connectionMode := connectionMode s; pending := pending s;
     fetching := fetching s; inQuorum := inQuorum s;
     updateSequenceNumberTimer := updateSequenceNumberTimer s;
     minSequenceNumber := minSequenceNumber s;
     lastQueuedSequenceNumber := lastQueuedSequenceNumber s;
     baseSequenceNumber := baseSequenceNumber s; initSequenceNumber := initSequenceNumber s;
     inbound := inbound s; outbound := outbound s; inboundSignal := inboundSignal s;
     connecting := connecting s; connection := connection s;
     clientSequenceNumber := clientSequenceNumber s;
     clientSequenceNumberObserved := clientSequenceNumberObserved s; closed := v;
     handler := handler s; messageBuffer := messageBuffer s;
     duplicateMsgCount := duplicateMsgCount s; connectRepeatCount := connectRepeatCount s;
     deltaStorageDelay := deltaStorageDelay s; deltaStreamDelay := deltaStreamDelay s;
     collabWindowMax := collabWindowMax s; rt_timers := rt_timers s; rt_nextId := rt_nextId s;
     rt_emitted := rt_emitted s; rt_telemetry := rt_telemetry s;
     rt_getDeltas := rt_getDeltas s; rt_attempts := rt_attempts s; rt_settled := rt_settled s;
     rt_closedConnections := rt_closedConnections s;
     rt_listenersRemoved := rt_listenersRemoved s |}.

Definition set_handler (v : option string) (s : DeltaManager) : DeltaManager :=
  {| clientType := clientType s; systemConnectionMode := systemConnectionMode s;
     reconnect := reconnect s; connectionMode := connectionMode s; pending := pending s;
     fetching := fetching s; inQuorum := inQuorum s;
     updateSequenceNumberTimer := updateSequenceNumberTimer s;
     minSequenceNumber := minSequenceNumber s;
     lastQueuedSequenceNumber := lastQueuedSequenceNumber s;
     baseSequenceNumber := baseSequenceNumber s; initSequenceNumber := initSequenceNumber s;
     inbound := inbound s; outbound := outbound s; inboundSignal := inboundSignal s;
     connecting := connecting s; connection := connection s;
     clientSequenceNumber := clientSequenceNumber s;
     clientSequenceNumberObserved := clientSequenceNumberObserved s; closed := closed s;
     handler := v; messageBuffer := messageBuffer s; duplicateMsgCount := duplicateMsgCount s;
     connectRepeatCount := connectRepeatCount s; deltaStorageDelay := deltaStorageDelay s;
     deltaStreamDelay := deltaStreamDelay s; collabWindowMax := collabWindowMax s;
     rt_timers := rt_timers s; rt_nextId := rt_nextId s; rt_emitted := rt_emitted s;
     rt_telemetry := rt_telemetry s; rt_getDeltas := rt_getDeltas s;
     rt_attempts := rt_attempts s; rt_settled := rt_settled s;
     rt_closedConnections := rt_closedConnections s;
     rt_listenersRemoved := rt_listenersRemoved s |}.

Definition set_messageBuffer (v : list Doc.t) (s : DeltaManager) : DeltaManager :=
  {| clientType := clientType s; systemConnectionMode := systemConnectionMode s;
     reconnect := reconnect s; connectionMode := connectionMode s; pending := pending s;
     fetching := fetching s; inQuorum := inQuorum s;
     updateSequenceNumberTimer := updateSequenceNumberTimer s;
     minSequenceNumber := minSequenceNumber s;
     lastQueuedSequenceNumber := lastQueuedSequenceNumber s;
     baseSequenceNumber := baseSequenceNumber s; initSequenceNumber := initSequenceNumber s;
     inbound := inbound s; outbound := outbound s; inboundSignal := inboundSignal s;
     connecting := connecting s; connection := connection s;
     clientSequenceNumber := clientSequenceNumber s;
     clientSequenceNumberObserved := clientSequenceNumberObserved s; closed := closed s;
     handler := handler s; messageBuffer := v; duplicateMsgCount := duplicateMsgCount s;
     connectRepeatCount := connectRepeatCount s; deltaStorageDelay := deltaStorageDelay s;
     deltaStreamDelay := deltaStreamDelay s; collabWindowMax := collabWindowMax s;
     rt_timers := rt_timers s; rt_nextId := rt_nextId s; rt_emitted := rt_emitted s;
     rt_telemetry := rt_telemetry s; rt_getDeltas := rt_getDeltas s;
     rt_attempts := rt_attempts s; rt_settled := rt_settled s;
     rt_closedConnections := rt_closedConnections s;
     rt_listenersRemoved := rt_listenersRemoved s |}.

Definition set_duplicateMsgCount (v : Z) (s : DeltaManager) : DeltaManager :=
  {| clientType := clientType s; systemConnectionMode := systemConnectionMode s;
     reconnect := reconnect s; connectionMode := connectionMode s; pending := pending s;
     fetching := fetching s; inQuorum := inQuorum s;
     updateSequenceNumberTimer := updateSequenceNumberTimer s;
     minSequenceNumber := minSequenceNumber s;
     lastQueuedSequenceNumber := lastQueuedSequenceNumber s;
     baseSequenceNumber := baseSequenceNumber s; initSequenceNumber := initSequenceNumber s;
     inbound := inbound s; outbound := outbound s; inboundSignal := inboundSignal s;
     connecting := connecting s; connection := connection s;
     clientSequenceNumber := clientSequenceNumber s;
     clientSequenceNumberObserved := clientSequenceNumberObserved s; closed := closed s;
     handler := handler s; messageBuffer := messageBuffer s; duplicateMsgCount := v;
     connectRepeatCount := connectRepeatCount s; deltaStorageDelay := deltaStorageDelay s;
     deltaStreamDelay := deltaStreamDelay s; collabWindowMax := collabWindowMax s;
     rt_timers := rt_timers s; rt_nextId := rt_nextId s; rt_emitted := rt_emitted s;
     rt_telemetry := rt_telemetry s; rt_getDeltas := rt_getDeltas s;
     rt_attempts := rt_attempts s; rt_settled := rt_settled s;
     rt_closedConnections := rt_closedConnections s;
     rt_listenersRemoved := rt_listenersRemoved s |}.

Definition set_connectRepeatCount (v : Z) (s : DeltaManager) : DeltaManager :=
  {| clientType := clientType s; systemConnectionMode := systemConnectionMode s;
     reconnect := reconnect s; connectionMode := connectionMode s; pending := pending s;
     fetching := fetching s; inQuorum := inQuorum s;
     updateSequenceNumberTimer := updateSequenceNumberTimer s;
     minSequenceNumber := minSequenceNumber s;
     lastQueuedSequenceNumber := lastQueuedSequenceNumber s;
     baseSequenceNumber := baseSequenceNumber s; initSequenceNumber := initSequenceNumber s;
     inbound := inbound s; outbound := outbound s; inboundSignal := inboundSignal s;
     connecting := connecting s; connection := connection s;
     clientSequenceNumber := clientSequenceNumber s;
     clientSequenceNumberObserved := clientSequenceNumberObserved s; closed := closed s;
     handler := handler s; messageBuffer := messageBuffer s;
     duplicateMsgCount := duplicateMsgCount s; connectRepeatCount := v;
     deltaStorageDelay := deltaStorageDelay s; deltaStreamDelay := deltaStreamDelay s;
     collabWindowMax := collabWindowMax s; rt_timers := rt_timers s; rt_nextId := rt_nextId s;
     rt_emitted := rt_emitted s; rt_telemetry := rt_telemetry s;
     rt_getDeltas := rt_getDeltas s; rt_attempts := rt_attempts s; rt_settled := rt_settled s;
     rt_closedConnections := rt_closedConnections s;
     rt_listenersRemoved := rt_listenersRemoved s |}.

Definition set_deltaStorageDelay (v : option Z) (s : DeltaManager) : DeltaManager :=
  {| clientType := clientType s; systemConnectionMode := systemConnectionMode s;
     reconnect := reconnect s; connectionMode := connectionMode s; pending := pending s;
     fetching := fetching s; inQuorum := inQuorum s;
     updateSequenceNumberTimer := updateSequenceNumberTimer s;
     minSequenceNumber := minSequenceNumber s;
     lastQueuedSequenceNumber := lastQueuedSequenceNumber s;
     baseSequenceNumber := baseSequenceNumber s; initSequenceNumber := initSequenceNumber s;
     inbound := inbound s; outbound := outbound s; inboundSignal := inboundSignal s;
     connecting := connecting s; connection := connection s;
     clientSequenceNumber := clientSequenceNumber s;
     clientSequenceNumberObserved := clientSequenceNumberObserved s; closed := closed s;
     handler := handler s; messageBuffer := messageBuffer s;
     duplicateMsgCount := duplicateMsgCount s; connectRepeatCount := connectRepeatCount s;
     deltaStorageDelay := v; deltaStreamDelay := deltaStreamDelay s;
     collabWindowMax := collabWindowMax s; rt_timers := rt_timers s; rt_nextId := rt_nextId s;
     rt_emitted := rt_emitted s; rt_telemetry := rt_telemetry s;
     rt_getDeltas := rt_getDeltas s; rt_attempts := rt_attempts s; rt_settled := rt_settled s;
     rt_closedConnections := rt_closedConnections s;
     rt_listenersRemoved := rt_listenersRemoved s |}.

Definition set_deltaStreamDelay (v : option Z) (s : DeltaManager) : DeltaManager :=
  {| clientType := clientType s; systemConnectionMode := systemConnectionMode s;
     reconnect := reconnect s; connectionMode := connectionMode s; pending := pending s;
     fetching := fetching s; inQuorum := inQuorum s;
     updateSequenceNumberTimer := updateSequenceNumberTimer s;
     minSequenceNumber := minSequenceNumber s;
     lastQueuedSequenceNumber := lastQueuedSequenceNumber s;
     baseSequenceNumber := baseSequenceNumber s; initSequenceNumber := initSequenceNumber s;
     inbound := inbound s; outbound := outbound s; inboundSignal := inboundSignal s;
     connecting := connecting s; connection := connection s;
     clientSequenceNumber := clientSequenceNumber s;
     clientSequenceNumberObserved := clientSequenceNumberObserved s; closed := closed s;
     handler := handler s; messageBuffer := messageBuffer s;
     duplicateMsgCount := duplicateMsgCount s; connectRepeatCount := connectRepeatCount s;
     deltaStorageDelay := deltaStorageDelay s; deltaStreamDelay := v;
     collabWindowMax := collabWindowMax s; rt_timers := rt_timers s; rt_nextId := rt_nextId s;
     rt_emitted := rt_emitted s; rt_telemetry := rt_telemetry s;
     rt_getDeltas := rt_getDeltas s; rt_attempts := rt_attempts s; rt_settled := rt_settled s;
     rt_closedConnections := rt_closedConnections s;
     rt_listenersRemoved := rt_listenersRemoved s |}.

Definition set_collabWindowMax (v : Z) (s : DeltaManager) : DeltaManager :=
  {| clientType := clientType s; systemConnectionMode := systemConnectionMode s;
     reconnect := reconnect s; connectionMode := connectionMode s; pending := pending s;
     fetching := fetching s; inQuorum := inQuorum s;
     updateSequenceNumberTimer := updateSequenceNumberTimer s;
     minSequenceNumber := minSequenceNumber s;
     lastQueuedSequenceNumber := lastQueuedSequenceNumber s;
     baseSequenceNumber := baseSequenceNumber s; initSequenceNumber := initSequenceNumber s;
     inbound := inbound s; outbound := outbound s; inboundSignal := inboundSignal s;
     connecting := connecting s; connection := connection s;
     clientSequenceNumber := clientSequenceNumber s;
     clientSequenceNumberObserved := clientSequenceNumberObserved s; closed := closed s;
     handler := handler s; messageBuffer := messageBuffer s;
     duplicateMsgCount := duplicateMsgCount s; connectRepeatCount := connectRepeatCount s;
     deltaStorageDelay := deltaStorageDelay s; deltaStreamDelay := deltaStreamDelay s;
     collabWindowMax := v; rt_timers := rt_timers s; rt_nextId := rt_nextId s;
     rt_emitted := rt_emitted s; rt_telemetry := rt_telemetry s;
     rt_getDeltas := rt_getDeltas s; rt_attempts := rt_attempts s; rt_settled := rt_settled s;
     rt_closedConnections := rt_closedConnections s;
     rt_listenersRemoved := rt_listenersRemoved s |}.

Definition set_rt_timers (v : list (positive * Z)) (s : DeltaManager) : DeltaManager :=
  {| clientType := clientType s; systemConnectionMode := systemConnectionMode s;
     reconnect := reconnect s; connectionMode := connectionMode s; pending := pending s;
     fetching := fetching s; inQuorum := inQuorum s;
     updateSequenceNumberTimer := updateSequenceNumberTimer s;
     minSequenceNumber := minSequenceNumber s;
     lastQueuedSequenceNumber := lastQueuedSequenceNumber s;
     baseSequenceNumber := baseSequenceNumber s; initSequenceNumber := initSequenceNumber s;
     inbound := inbound s; outbound := outbound s; inboundSignal := inboundSignal s;
     connecting := connecting s; connection := connection s;
     clientSequenceNumber := clientSequenceNumber s;
     clientSequenceNumberObserved := clientSequenceNumberObserved s; closed := closed s;
     handler := handler s; messageBuffer := messageBuffer s;
     duplicateMsgCount := duplicateMsgCount s; connectRepeatCount := connectRepeatCount s;
     deltaStorageDelay := deltaStorageDelay s; deltaStreamDelay := deltaStreamDelay s;
     collabWindowMax := collabWindowMax s; rt_timers := v; rt_nextId := rt_nextId s;
     rt_emitted := rt_emitted s; rt_telemetry := rt_telemetry s;
     rt_getDeltas := rt_getDeltas s; rt_attempts := rt_attempts s; rt_settled := rt_settled s;
     rt_closedConnections := rt_closedConnections s;
     rt_listenersRemoved := rt_listenersRemoved s |}.

Definition set_rt_nextId (v : positive) (s : DeltaManager) : DeltaManager :=
  {| clientType := clientType s; systemConnectionMode := systemConnectionMode s;
     reconnect := reconnect s; connectionMode := connectionMode s; pending := pending s;
     fetching := fetching s; inQuorum := inQuorum s;
     updateSequenceNumberTimer := updateSequenceNumberTimer s;
     minSequenceNumber := minSequenceNumber s;
     lastQueuedSequenceNumber := lastQueuedSequenceNumber s;
     baseSequenceNumber := baseSequenceNumber s; initSequenceNumber := initSequenceNumber s;
     inbound := inbound s; outbound := outbound s; inboundSignal := inboundSignal s;
     connecting := connecting s; connection := connection s;
     clientSequenceNumber := clientSequenceNumber s;
     clientSequenceNumberObserved := clientSequenceNumberObserved s; closed := closed s;
     handler := handler s; messageBuffer := messageBuffer s;
     duplicateMsgCount := duplicateMsgCount s; connectRepeatCount := connectRepeatCount s;
     deltaStorageDelay := deltaStorageDelay s; deltaStreamDelay := deltaStreamDelay s;
     collabWindowMax := collabWindowMax s; rt_timers := rt_timers s; rt_nextId := v;
     rt_emitted := rt_emitted s; rt_telemetry := rt_telemetry s;
     rt_getDeltas := rt_getDeltas s; rt_attempts := rt_attempts s; rt_settled := rt_settled s;
     rt_closedConnections := rt_closedConnections s;
     rt_listenersRemoved := rt_listenersRemoved s |}.

Definition set_rt_emitted (v : list Event) (s : DeltaManager) : DeltaManager :=
  {| clientType := clientType s; systemConnectionMode := systemConnectionMode s;
     reconnect := reconnect s; connectionMode := connectionMode s; pending := pending s;
     fetching := fetching s; inQuorum := inQuorum s;
     updateSequenceNumberTimer := updateSequenceNumberTimer s;
     minSequenceNumber := minSequenceNumber s;
     lastQueuedSequenceNumber := lastQueuedSequenceNumber s;
     baseSequenceNumber := baseSequenceNumber s; initSequenceNumber := initSequenceNumber s;
     inbound := inbound s; outbound := outbound s; inboundSignal := inboundSignal s;
     connecting := connecting s; connection := connection s;
     clientSequenceNumber := clientSequenceNumber s;
     clientSequenceNumberObserved := clientSequenceNumberObserved s; closed := closed s;
     handler := handler s; messageBuffer := messageBuffer s;
     duplicateMsgCount := duplicateMsgCount s; connectRepeatCount := connectRepeatCount s;
     deltaStorageDelay := deltaStorageDelay s; deltaStreamDelay := deltaStreamDelay s;
     collabWindowMax := collabWindowMax s; rt_timers := rt_timers s; rt_nextId := rt_nextId s;
     rt_emitted := v; rt_telemetry := rt_telemetry s; rt_getDeltas := rt_getDeltas s;
     rt_attempts := rt_attempts s; rt_settled := rt_settled s;
     rt_closedConnections := rt_closedConnections s;
     rt_listenersRemoved := rt_listenersRemoved s |}.

Definition set_rt_telemetry (v : list TelemetryEvent) (s : DeltaManager) : DeltaManager :=
  {| clientType := clientType s; systemConnectionMode := systemConnectionMode s;
     reconnect := reconnect s; connectionMode := connectionMode s; pending := pending s;
     fetching := fetching s; inQuorum := inQuorum s;
     updateSequenceNumberTimer := updateSequenceNumberTimer s;
     minSequenceNumber := minSequenceNumber s;
     lastQueuedSequenceNumber := lastQueuedSequenceNumber s;
     baseSequenceNumber := baseSequenceNumber s; initSequenceNumber := initSequenceNumber s;
     inbound := inbound s; outbound := outbound s; inboundSignal := inboundSignal s;
     connecting := connecting s; connection := connection s;
     clientSequenceNumber := clientSequenceNumber s;
     clientSequenceNumberObserved := clientSequenceNumberObserved s; closed := closed s;
     handler := handler s; messageBuffer := messageBuffer s;
     duplicateMsgCount := duplicateMsgCount s; connectRepeatCount := connectRepeatCount s;
     deltaStorageDelay := deltaStorageDelay s; deltaStreamDelay := deltaStreamDelay s;
     collabWindowMax := collabWindowMax s; rt_timers := rt_timers s; rt_nextId := rt_nextId s;
     rt_emitted := rt_emitted s; rt_telemetry := v; rt_getDeltas := rt_getDeltas s;
     rt_attempts := rt_attempts s; rt_settled := rt_settled s;
     rt_closedConnections := rt_closedConnections s;
     rt_listenersRemoved := rt_listenersRemoved s |}.

Definition set_rt_getDeltas (v : list GetDeltasCall) (s : DeltaManager) : DeltaManager :=
  {| clientType := clientType s; systemConnectionMode := systemConnectionMode s;
     reconnect := reconnect s; connectionMode := connectionMode s; pending := pending s;
     fetching := fetching s; inQuorum := inQuorum s;
     updateSequenceNumberTimer := updateSequenceNumberTimer s;
     minSequenceNumber := minSequenceNumber s;
     lastQueuedSequenceNumber := lastQueuedSequenceNumber s;
     baseSequenceNumber := baseSequenceNumber s; initSequenceNumber := initSequenceNumber s;
     inbound := inbound s; outbound := outbound s; inboundSignal := inboundSignal s;
     connecting := connecting s; connection := connection s;
     clientSequenceNumber := clientSequenceNumber s;
     clientSequenceNumberObserved := clientSequenceNumberObserved s; closed := closed s;
     handler := handler s; messageBuffer := messageBuffer s;
     duplicateMsgCount := duplicateMsgCount s; connectRepeatCount := connectRepeatCount s;
     deltaStorageDelay := deltaStorageDelay s; deltaStreamDelay := deltaStreamDelay s;
     collabWindowMax := collabWindowMax s; rt_timers := rt_timers s; rt_nextId := rt_nextId s;
     rt_emitted := rt_emitted s; rt_telemetry := rt_telemetry s; rt_getDeltas := v;
     rt_attempts := rt_attempts s; rt_settled := rt_settled s;
     rt_closedConnections := rt_closedConnections s;
     rt_listenersRemoved := rt_listenersRemoved s |}.

Definition set_rt_attempts (v : list PendingConnect) (s : DeltaManager) : DeltaManager :=
  {| clientType := clientType s; systemConnectionMode := systemConnectionMode s;
     reconnect := reconnect s; connectionMode := connectionMode s; pending := pending s;
     fetching := fetching s; inQuorum := inQuorum s;
     updateSequenceNumberTimer := updateSequenceNumberTimer s;
     minSequenceNumber := minSequenceNumber s;
     lastQueuedSequenceNumber := lastQueuedSequenceNumber s;
     baseSequenceNumber := baseSequenceNumber s; initSequenceNumber := initSequenceNumber s;
     inbound := inbound s; outbound := outbound s; inboundSignal := inboundSignal s;
     connecting := connecting s; connection := connection s;
     clientSequenceNumber := clientSequenceNumber s;
     clientSequenceNumberObserved := clientSequenceNumberObserved s; closed := closed s;
     handler := handler s; messageBuffer := messageBuffer s;
     duplicateMsgCount := duplicateMsgCount s; connectRepeatCount := connectRepeatCount s;
     deltaStorageDelay := deltaStorageDelay s; deltaStreamDelay := deltaStreamDelay s;
     collabWindowMax := collabWindowMax s; rt_timers := rt_timers s; rt_nextId := rt_nextId s;
     rt_emitted := rt_emitted s; rt_telemetry := rt_telemetry s;
     rt_getDeltas := rt_getDeltas s; rt_attempts := v; rt_settled := rt_settled s;
     rt_closedConnections := rt_closedConnections s;
     rt_listenersRemoved := rt_listenersRemoved s |}.

Definition set_rt_settled (v : list (positive * Settlement)) (s : DeltaManager) : DeltaManager :=
  {| clientType := clientType s; systemConnectionMode := systemConnectionMode s;
     reconnect := reconnect s; connectionMode := connectionMode s; pending := pending s;
     fetching := fetching s; inQuorum := inQuorum s;
     updateSequenceNumberTimer := updateSequenceNumberTimer s;
     minSequenceNumber := minSequenceNumber s;
     lastQueuedSequenceNumber := lastQueuedSequenceNumber s;
     baseSequenceNumber := baseSequenceNumber s; initSequenceNumber := initSequenceNumber s;
     inbound := inbound s; outbound := outbound s; inboundSignal := inboundSignal s;
     connecting := connecting s; connection := connection s;
     clientSequenceNumber := clientSequenceNumber s;
     clientSequenceNumberObserved := clientSequenceNumberObserved s; closed := closed s;
     handler := handler s; messageBuffer := messageBuffer s;
     duplicateMsgCount := duplicateMsgCount s; connectRepeatCount := connectRepeatCount s;
     deltaStorageDelay := deltaStorageDelay s; deltaStreamDelay := deltaStreamDelay s;
     collabWindowMax := collabWindowMax s; rt_timers := rt_timers s; rt_nextId := rt_nextId s;
     rt_emitted := rt_emitted s; rt_telemetry := rt_telemetry s;
     rt_getDeltas := rt_getDeltas s; rt_attempts := rt_attempts s; rt_settled := v;
     rt_closedConnections := rt_closedConnections s;
     rt_listenersRemoved := rt_listenersRemoved s |}.

Definition set_rt_closedConnections (v : list positive) (s : DeltaManager) : DeltaManager :=
  {| clientType := clientType s; systemConnectionMode := systemConnectionMode s;
     reconnect := reconnect s; connectionMode := connectionMode s; pending := pending s;
     fetching := fetching s; inQuorum := inQuorum s;
     updateSequenceNumberTimer := updateSequenceNumberTimer s;
     minSequenceNumber := minSequenceNumber s;
     lastQueuedSequenceNumber := lastQueuedSequenceNumber s;
     baseSequenceNumber := baseSequenceNumber s; initSequenceNumber := initSequenceNumber s;
     inbound := inbound s; outbound := outbound s; inboundSignal := inboundSignal s;
     connecting := connecting s; connection := connection s;
     clientSequenceNumber := clientSequenceNumber s;
     clientSequenceNumberObserved := clientSequenceNumberObserved s; closed := closed s;
     handler := handler s; messageBuffer := messageBuffer s;
     duplicateMsgCount := duplicateMsgCount s; connectRepeatCount := connectRepeatCount s;
     deltaStorageDelay := deltaStorageDelay s; deltaStreamDelay := deltaStreamDelay s;
     collabWindowMax := collabWindowMax s; rt_timers := rt_timers s; rt_nextId := rt_nextId s;
     rt_emitted := rt_emitted s; rt_telemetry := rt_telemetry s;
     rt_getDeltas := rt_getDeltas s; rt_attempts := rt_attempts s; rt_settled := rt_settled s;
     rt_closedConnections := v;
     rt_listenersRemoved := rt_listenersRemoved s |}.

Definition set_rt_listenersRemoved (v : bool) (s : DeltaManager) : DeltaManager :=
  {| clientType := clientType s; systemConnectionMode := systemConnectionMode s;
     reconnect := reconnect s; connectionMode := connectionMode s; pending := pending s;
     fetching := fetching s; inQuorum := inQuorum s;
     updateSequenceNumberTimer := updateSequenceNumberTimer s;
     minSequenceNumber := minSequenceNumber s;
     lastQueuedSequenceNumber := lastQueuedSequenceNumber s;
     baseSequenceNumber := baseSequenceNumber s; initSequenceNumber := initSequenceNumber s;
     inbound := inbound s; outbound := outbound s; inboundSignal := inboundSignal s;
     connecting := connecting s; connection := connection s;
     clientSequenceNumber := clientSequenceNumber s;
     clientSequenceNumberObserved := clientSequenceNumberObserved s; closed := closed s;
     handler := handler s; messageBuffer := messageBuffer s;
     duplicateMsgCount := duplicateMsgCount s; connectRepeatCount := connectRepeatCount s;
     deltaStorageDelay := deltaStorageDelay s; deltaStreamDelay := deltaStreamDelay s;
     collabWindowMax := collabWindowMax s; rt_timers := rt_timers s; rt_nextId := rt_nextId s;
     rt_emitted := rt_emitted s; rt_telemetry := rt_telemetry s;
     rt_getDeltas := rt_getDeltas s; rt_attempts := rt_attempts s; rt_settled := rt_settled s;
     rt_closedConnections := rt_closedConnections s;
     rt_listenersRemoved := v |}.

(** *** Events, telemetry, timers and deferreds *)

Definition emit (e : Event) (s : DeltaManager) : DeltaManager :=
  set_rt_emitted (rt_emitted s ++ [e]) s.

Definition sendTelemetryEvent (name : string) (ps : list (string * Z))
    (s : DeltaManager) : DeltaManager :=
  set_rt_telemetry (rt_telemetry s ++ [{| eventName := name; props := ps |}]) s.

(** [setTimeout(callback, delay)]: a fresh handle, armed. The only timer the
    manager arms through [setTimeout] is the acknowledgement timer, so the
    callback is not stored: it is [ackTimerCallback] below. *)
Definition setTimeout (delay : Z) (s : DeltaManager) : positive * DeltaManager :=
  let h := rt_nextId s in
  (h, set_rt_nextId (Pos.succ h) (set_rt_timers (rt_timers s ++ [(h, delay)]) s)).

Definition clearTimeout (h : positive) (s : DeltaManager) : DeltaManager :=
  set_rt_timers (filter (fun t => negb (Pos.eqb (fst t) h)) (rt_timers s)) s.

Definition settle (d : positive) (o : Settlement) (s : DeltaManager) : DeltaManager :=
  set_rt_settled (rt_settled s ++ [(d, o)]) s.

Definition closeConnection (c : DeltaConnection) (s : DeltaManager) : DeltaManager :=
  set_rt_closedConnections (rt_closedConnections s ++ [connId c]) s.

(** *** Getters *)

(** [get active()] *)
Definition active (s : DeltaManager) : bool :=
  inQuorum s && ConnectionMode_eqb (connectionMode s) ModeWrite.

Definition updateQuorumJoin (s : DeltaManager) : DeltaManager := set_inQuorum true s.
Definition updateQuorumLeave (s : DeltaManager) : DeltaManager := set_inQuorum false s.

(** *** Outbound path *)

(** [stopSequenceNumberUpdate] *)
Definition stopSequenceNumberUpdate (s : DeltaManager) : DeltaManager :=
  let s :=
    match updateSequenceNumberTimer s with
    | Some h => clearTimeout h s
    | None => s
    end in
  set_updateSequenceNumberTimer None s.

(** [flush] *)
Definition flush (s : DeltaManager) : DeltaManager :=
  match messageBuffer s with
  | [] => s
  | _ :: _ =>
      let s := emit (EvPrepareSend (messageBuffer s)) s in
      let s := set_outbound (push (messageBuffer s) (outbound s)) s in
      set_messageBuffer [] s
  end.

(** [createOutboundMessage]: for a system type the contents move to [data]. *)
Definition createOutboundMessage (type : MessageType) (coreMessage : Doc.t) : Doc.t :=
  if isSystemType type then
    {| Doc.clientSequenceNumber := Doc.clientSequenceNumber coreMessage;
       Doc.referenceSequenceNumber := Doc.referenceSequenceNumber coreMessage;
       Doc.type := Doc.type coreMessage;
       Doc.contents := None;
       Doc.data := Doc.contents coreMessage |}
  else coreMessage.

(** [coreMessage] as [createOutboundMessage] leaves it: the function assigns
    [coreMessage.contents = null] in place for a system type. *)
Definition coreMessageAfter (type : MessageType) (coreMessage : Doc.t) : Doc.t :=
  if isSystemType type then
    {| Doc.clientSequenceNumber := Doc.clientSequenceNumber coreMessage;
       Doc.referenceSequenceNumber := Doc.referenceSequenceNumber coreMessage;
       Doc.type := Doc.type coreMessage;
       Doc.contents := None;
       Doc.data := None |}
  else coreMessage.

(** [submit(type, contents, batch)]; returns the client sequence number. The
    [metadata] and [traces] fields of the message are not kept. *)
Definition submit (type : MessageType) (contents : JsAny) (batch : bool)
    (s : DeltaManager) : Z * DeltaManager :=
  let s := set_clientSequenceNumber (clientSequenceNumber s + 1) s in
  let message :=
    {| Doc.clientSequenceNumber := clientSequenceNumber s;
       Doc.referenceSequenceNumber := baseSequenceNumber s;
       Doc.type := type;
       Doc.contents := Some (stringify contents);
       Doc.data := None |} in
  let outboundMessage := createOutboundMessage type message in
  let s := stopSequenceNumberUpdate s in
  let s := emit (EvSubmitOp (coreMessageAfter type message)) s in
  let s :=
    if negb batch then
      let s := flush s in
      let s := set_messageBuffer (messageBuffer s ++ [outboundMessage]) s in
      flush s
    else set_messageBuffer (messageBuffer s ++ [outboundMessage]) s in
  (Doc.clientSequenceNumber outboundMessage, s).

(** *** Acknowledgement scheduler *)

(** [scheduleSequenceNumberUpdate(message, immediateNoOp)] *)
Definition scheduleSequenceNumberUpdate (message : Seq.t) (immediateNoOp : bool)
    (s : DeltaManager) : DeltaManager :=
  if negb (active s) then stopSequenceNumberUpdate s
  else if immediateNoOp then
    let s := stopSequenceNumberUpdate s in
    snd (submit NoOp ImmediateNoOpResponse false s)
  else if MessageType_isNoOp (Seq.type message) then s
  else
    match updateSequenceNumberTimer s with
    | None =>
        let '(h, s) := setTimeout AckTimerDelay s in
        set_updateSequenceNumberTimer (Some h) s
    | Some _ => s
    end.

(** The result a handler passes to the callback of [process]. *)
Record IProcessMessageResult := {
  resultError : option JsError;
  immediateNoOp : option bool
}.

Definition MessageType_isClientLeave (t : MessageType) : bool :=
  match t with ClientLeave => true | _ => false end.

(** The test before [message.contents = JSON.parse(message.contents)] and
    whether the call throws: [Seq.contents] is the contents when they are a
    string, [jsonParses text] tells whether [JSON.parse] accepts [text]. *)
Definition contentsFailToParse (jsonParses : string -> bool) (message : Seq.t) : bool :=
  match Seq.contents message with
  | Some text =>
      negb (String.eqb text EmptyString)
      && negb (MessageType_isClientLeave (Seq.type message))
      && negb (jsonParses text)
  | None => false
  end.

(** [processMessage(message, callback)], with the result the handler calls
    back with. [JSON.parse] is the platform's and is given as [jsonParses].
    The completion is what reaches [callback] (or the [catch] of the queue's
    worker); a [SyntaxError] and a failed assertion are [Error] objects. The
    parsed contents and the traces are not kept. *)
Definition processMessage (jsonParses : string -> bool) (message : Seq.t)
    (result : IProcessMessageResult)
    (s : DeltaManager) : Completion unit JsError * DeltaManager :=
  let s :=
    match connection s with
    | Some c =>
        if String.eqb (detailsClientId (details c)) (Seq.clientId message) then
          let s := set_clientSequenceNumberObserved (Seq.clientSequenceNumber message) s in
          if Seq.clientSequenceNumber message =? clientSequenceNumber s
          then emit EvAllSentOpsAckd s else s
        else s
    | None => s
    end in
  if contentsFailToParse jsonParses message then (Throw (ErrObject None None), s)
  else if negb (minSequenceNumber s <=? Seq.minimumSequenceNumber message) then
    (Throw (ErrObject None None), s)
  else
    let s := set_minSequenceNumber (Seq.minimumSequenceNumber message) s in
    if negb (Seq.sequenceNumber message =? baseSequenceNumber s + 1) then
      (Throw (ErrObject None None), s)
    else
      let s := set_baseSequenceNumber (Seq.sequenceNumber message) s in
      let msnDistance := baseSequenceNumber s - minSequenceNumber s in
      let s :=
        if collabWindowMax s + 20 <? msnDistance then
          let s := set_collabWindowMax msnDistance s in
          sendTelemetryEvent "MSNWindow" [("value", msnDistance)] s
        else s in
      match resultError result with
      | Some error =>
          if truthy_error error then (Throw error, s)
          else
            let s :=
              scheduleSequenceNumberUpdate message
                (match immediateNoOp result with Some true => true | _ => false end) s in
            (Normal tt, emit EvProcessTime s)
      | None =>
          let s :=
            scheduleSequenceNumberUpdate message
              (match immediateNoOp result with Some true => true | _ => false end) s in
          (Normal tt, emit EvProcessTime s)
      end.

(** The callback given to [setTimeout] by [scheduleSequenceNumberUpdate]. *)
Definition ackTimerCallback (s : DeltaManager) : DeltaManager :=
  let s := set_updateSequenceNumberTimer None s in
  if active s then snd (submit NoOp AnyNull false s) else s.

Definition armed (h : positive) (s : DeltaManager) : bool :=
  existsb (fun t => Pos.eqb (fst t) h) (rt_timers s).

(** The runtime fires the armed timer [h]: it leaves the list of armed timers
    and its callback runs. *)
Definition fireTimer (h : positive) (s : DeltaManager) : option DeltaManager :=
  if armed h s then Some (ackTimerCallback (clearTimeout h s)) else None.

(** *** Ordering *)

(** The call [this.getDeltas(suffix, from, to)] made by [fetchMissingDeltas];
    the call runs up to its first await and stays pending. *)
Definition startGetDeltas (suffix : string) (from : Z) (to : option Z)
    (s : DeltaManager) : DeltaManager :=
  set_rt_getDeltas
    (rt_getDeltas s ++
       [{| telemetryEventSuffix := suffix; fromInitial := from; to := to |}]) s.

(** [fetchMissingDeltas(telemetryEventSuffix, from, to)] *)
Definition fetchMissingDeltas (suffix : string) (from : Z) (to : option Z)
    (s : DeltaManager) : DeltaManager :=
  if fetching s then s
  else if closed s then sendTelemetryEvent "fetchMissingDeltasClosedConnection" [] s
  else
    let s := set_fetching true s in
    startGetDeltas suffix from to s.

(** [handleOutOfOrderMessage(message)] *)
Definition handleOutOfOrderMessage (message : Seq.t) (s : DeltaManager) : DeltaManager :=
  if Seq.sequenceNumber message <=? lastQueuedSequenceNumber s then
    let s := set_duplicateMsgCount (duplicateMsgCount s + 1) s in
    sendTelemetryEvent "DuplicateMessage"
      [("lastQueued", lastQueuedSequenceNumber s);
       ("sequenceNumber", Seq.sequenceNumber message);
       ("totalDuplicateMessages", duplicateMsgCount s)] s
  else
    let s := set_pending (pending s ++ [message]) s in
    fetchMissingDeltas "OutOfOrderMessage" (lastQueuedSequenceNumber s)
      (Some (Seq.sequenceNumber message)) s.

(** The body of the [for] loop of [enqueueMessages]. *)
Definition enqueueMessage (message : Seq.t) (s : DeltaManager) : DeltaManager :=
  if negb (Seq.sequenceNumber message =? lastQueuedSequenceNumber s + 1) then
    handleOutOfOrderMessage message s
  else
    let s := set_lastQueuedSequenceNumber (Seq.sequenceNumber message) s in
    set_inbound (push message (inbound s)) s.

(** [enqueueMessages(messages)] *)
Definition enqueueMessages (messages : list Seq.t) (s : DeltaManager) : DeltaManager :=
  match handler s with
  | None => set_pending (pending s ++ messages) s
  | Some _ => fold_left (fun s message => enqueueMessage message s) messages s
  end.

(** [Array.prototype.sort] with the comparator [a.sequenceNumber - b.sequenceNumber]:
    a stable sort, so messages of equal sequence number keep their order.
    The messages are inserted from the last one back, each before the
    messages it does not follow. *)
Fixpoint insertBySequenceNumber (m : Seq.t) (l : list Seq.t) : list Seq.t :=
  match l with
  | [] => [m]
  | x :: rest =>
      if Seq.sequenceNumber m <=? Seq.sequenceNumber x then m :: l
      else x :: insertBySequenceNumber m rest
  end.

Definition sortBySequenceNumber (l : list Seq.t) : list Seq.t :=
  fold_right (fun m acc => insertBySequenceNumber m acc) [] l.

(** [catchUp(telemetryEventSuffix, messages)] *)
Definition catchUp (suffix : string) (messages : list Seq.t)
    (s : DeltaManager) : DeltaManager :=
  let s :=
    sendTelemetryEvent ("CatchUp_" ++ suffix)%string
      [("messageCount", Z.of_nat (List.length messages));
       ("pendingCount", Z.of_nat (List.length (pending s)))] s in
  let s := enqueueMessages messages s in
  match handler s with
  | Some _ =>
      let pendingSorted := sortBySequenceNumber (pending s) in
      let s := set_pending [] s in
      enqueueMessages pendingSorted s
  | None => s
  end.

(** The [then] callback of the [getDeltas] promise in [fetchMissingDeltas]. *)
Definition onGetDeltasResolved (suffix : string) (messages : list Seq.t)
    (s : DeltaManager) : DeltaManager :=
  let s := set_fetching false s in
  let s := emit EvCaughtUp s in
  catchUp suffix messages s.

(** [attachOpHandler(minSequenceNumber, sequenceNumber, handler, resume)]: the
    sequence numbers are assigned before the assertion on the handler. *)
Definition attachOpHandler (minSeq seq : Z) (h : string) (resume : bool)
    (s : DeltaManager) : Completion unit string * DeltaManager :=
  let s := set_initSequenceNumber seq s in
  let s := set_baseSequenceNumber seq s in
  let s := set_minSequenceNumber minSeq s in
  let s := set_lastQueuedSequenceNumber seq s in
  match handler s with
  | Some _ => (Throw "AssertionError", s)
  | None =>
      let s := set_handler (Some h) s in
      if resume then
        let s := set_inbound (systemResume (inbound s)) s in
        let s := set_inboundSignal (systemResume (inboundSignal s)) s in
        match pending s with
        | _ :: _ => (Normal tt, catchUp "DocumentOpen" [] s)
        | [] => (Normal tt, fetchMissingDeltas "DocumentOpen" seq None s)
        end
      else (Normal tt, s)
  end.
(** *** Closing *)

(** The listeners of the manager's events are its owner's: the manager
    registers none on itself. The owner is taken to listen to the manager
    from its construction on, so the listeners are missing only on a closed
    manager whose [close()] has removed them. *)
Definition hasListeners (s : DeltaManager) : bool :=
  negb (closed s && rt_listenersRemoved s).

(** [removeAllListeners()] *)
Definition removeAllListeners (s : DeltaManager) : DeltaManager :=
  set_rt_listenersRemoved true s.

(** [close()] *)
Definition close (s : DeltaManager) : DeltaManager :=
  let s := set_closed true s in
  let s := stopSequenceNumberUpdate s in
  let s :=
    match connection s with
    | Some c => set_connection None (closeConnection c s)
    | None => s
    end in
  let s :=
    match connecting s with
    | Some d => set_connecting None (settle d RejectedClosed s)
    | None => s
    end in
  let s := set_inbound (clear (inbound s)) s in
  let s := set_outbound (clear (outbound s)) s in
  let s := set_inboundSignal (clear (inboundSignal s)) s in
  let s := set_inbound (systemPause (inbound s)) s in
  let s := set_inboundSignal (systemPause (inboundSignal s)) s in
  let s := set_pending [] s in
  removeAllListeners s.

(** [this.emit("error", error)]: an [EventEmitter] whose "error" event has
    no listener throws instead of emitting. It throws the error itself when
    that is an [Error], and an [Error] wrapping it otherwise; the embedding
    does not tell the two apart. *)
Definition emitError (error : JsError) (s : DeltaManager)
    : Completion unit JsError * DeltaManager :=
  if hasListeners s then (Normal tt, emit (EvError error) s)
  else (Throw error, s).

(** [closeOnConnectionError(error)]: when [emit] throws, [close()] is not
    reached. *)
Definition closeOnConnectionError (error : JsError) (s : DeltaManager)
    : Completion unit JsError * DeltaManager :=
  let s :=
    match connecting s with
    | Some d => set_connecting None (settle d (Rejected error) s)
    | None => s
    end in
  if truthy_error error then
    match emitError error s with
    | (Normal _, s) => (Normal tt, close s)
    | (Throw e, s) => (Throw e, s)
    end
  else (Normal tt, close s).

(** *** Connection controller *)

(** [emitDelayInfo(retryEndpoint, delay)] *)
Definition emitDelayInfo (retryEndpoint : retryFor) (delay : Z)
    (s : DeltaManager) : DeltaManager :=
  let s :=
    match retryEndpoint with
    | DELTASTORAGE => set_deltaStorageDelay (Some delay) s
    | DELTASTREAM => set_deltaStreamDelay (Some delay) s
    end in
  match deltaStreamDelay s, deltaStorageDelay s with
  | Some stream, Some storage =>
      if negb (stream =? 0) && negb (storage =? 0) then
        let delayTime := Z.max storage stream in
        if 0 <=? delayTime then emit (EvConnectionDelay delayTime) s else s
      else s
  | _, _ => s
  end.

(** [connectCore(reason, delay, mode)] up to the call of
    [DeltaConnection.connect], whose promise stays pending. The start time
    taken from [performanceNow] is not kept. *)
Definition connectCore (reason : string) (delay : Z) (mode : ConnectionMode)
    (s : DeltaManager) : DeltaManager :=
  if closed s then s
  else
    let s := set_connectRepeatCount (connectRepeatCount s + 1) s in
    set_rt_attempts (rt_attempts s ++ [Connecting reason delay mode]) s.

(** What [connect] returns: the promise of the [connecting] deferred, or (the
    promise resolved with) the details of the live connection. *)
Inductive ConnectReturn :=
  | PromiseOf (d : positive)
  | DetailsOf (d : IConnectionDetails).

(** [connect(reason)] *)
Definition connect (reason : string) (s : DeltaManager)
    : Completion ConnectReturn string * DeltaManager :=
  if closed s then (Throw "AssertionError", s)
  else
    match connecting s with
    | Some d =>
        match connection s with
        | Some _ => (Throw "AssertionError", s)
        | None => (Normal (PromiseOf d), s)
        end
    | None =>
        match connection s with
        | Some c => (Normal (DetailsOf (details c)), s)
        | None =>
            let d := rt_nextId s in
            let s := set_rt_nextId (Pos.succ d) s in
            let s := set_connecting (Some d) s in
            let s := connectCore reason InitialReconnectDelay (connectionMode s) s in
            (Normal (PromiseOf d), s)
        end
    end.

(** [enqueInitalSignals] *)
Definition enqueInitalSignals (signals : list ISignalMessage)
    (s : DeltaManager) : DeltaManager :=
  fold_left (fun s signal => set_inboundSignal (push signal (inboundSignal s)) s) signals s.

(** [enqueInitalOps]; the content cache is not kept. *)
Definition enqueInitalOps (messages : list Seq.t) (s : DeltaManager) : DeltaManager :=
  match messages with
  | _ :: _ => catchUp "InitalOps" messages s
  | [] => s
  end.

Definition processInitialMessages (messages : list Seq.t)
    (signals : list ISignalMessage) (s : DeltaManager) : DeltaManager :=
  enqueInitalSignals signals (enqueInitalOps messages s).

(** The success callback of [DeltaConnection.connect(...).then] in
    [connectCore]. *)
Definition onConnected (c : DeltaConnection) (s : DeltaManager) : DeltaManager :=
  let s := set_connection (Some c) s in
  let s :=
    set_connectionMode
      (match detailsMode (details c) with Some m => m | None => ModeWrite end) s in
  let s := set_outbound (systemResume (outbound s)) s in
  let s := emitDelayInfo DELTASTREAM (-1) s in
  let s := set_clientSequenceNumber 0 s in
  let s := set_clientSequenceNumberObserved 0 s in
  let s :=
    if 1 <? connectRepeatCount s then
      sendTelemetryEvent "MultipleDeltaConnectionFailures"
        [("attempts", connectRepeatCount s)] s
    else s in
  let s := set_connectRepeatCount 0 s in
  let s :=
    match connecting s with
    | Some d => set_connecting None (settle d (Resolved (details c)) s)
    | None => s
    end in
  let s := emit (EvConnect (details c)) s in
  processInitialMessages (initialMessages (details c)) (initialSignals (details c)) s.

(** The failure callback of the same promise. What [closeOnConnectionError]
    throws leaves the callback for the runtime; the manager stays as the
    throw left it. *)
Definition onConnectFailed (reason : string) (delay : Z) (mode : ConnectionMode)
    (error : JsError) (s : DeltaManager) : DeltaManager :=
  if negb (canRetryOnError error) then snd (closeOnConnectionError error s)
  else
    let s :=
      if connectRepeatCount s =? 1 then
        sendTelemetryEvent "DeltaConnectionFailureToConnect" [("delay", delay)] s
      else s in
    let delayNext :=
      match error with
      | ErrObject _ (Some retryAfter) => retryAfter
      | _ => Z.min (delay * 2) MaxReconnectDelay
      end in
    let s := emitDelayInfo DELTASTREAM delayNext s in
    set_rt_attempts (rt_attempts s ++ [Waiting reason delayNext mode]) s.

(** [reconnectOnError(reason, connection, mode, error)]; it runs in a
    listener of the connection, so what [closeOnConnectionError] throws goes
    to the connection's emitter and the manager stays as the throw left it. *)
Definition reconnectOnError (reason : string) (c : DeltaConnection)
    (mode : ConnectionMode) (error : JsError) (s : DeltaManager) : DeltaManager :=
  match connection s with
  | Some current =>
      if Pos.eqb (connId c) (connId current) then
        let s := set_connection None s in
        let s := set_connectionMode ModeRead s in
        let s := set_outbound (systemPause (outbound s)) s in
        let s := set_outbound (clear (outbound s)) s in
        let s := emit (EvDisconnect reason) s in
        let s := closeConnection c s in
        if negb (String.eqb (clientType s) Browser) || negb (reconnect s)
           || closed s || negb (canRetryOnError error)
        then snd (closeOnConnectionError error s)
        else
          let s := sendTelemetryEvent "DeltaConnectionReconnect" [] s in
          connectCore reason InitialReconnectDelay mode s
      else s
  | None => s
  end.

(** The listeners [connectCore] registers on a connection. *)
Definition onOp (messages : list Seq.t) (s : DeltaManager) : DeltaManager :=
  enqueueMessages messages s.

Definition onSignal (message : ISignalMessage) (s : DeltaManager) : DeltaManager :=
  set_inboundSignal (push message (inboundSignal s)) s.

Definition onNack (c : DeltaConnection) (target : Z) (s : DeltaManager) : DeltaManager :=
  let nackReason :=
    if target =? -1 then "Reconnecting to start writing" else "Reconnecting on nack" in
  reconnectOnError nackReason c ModeWrite ErrUndefined s.

Definition onDisconnect (c : DeltaConnection) (disconnectReason : string)
    (s : DeltaManager) : DeltaManager :=
  reconnectOnError ("Reconnecting on disconnect: " ++ disconnectReason)%string c
    (systemConnectionMode s) ErrUndefined s.

Definition onError (c : DeltaConnection) (error : JsError)
    (s : DeltaManager) : DeltaManager :=
  let s := sendTelemetryEvent "DeltaConnectionError" [] s in
  reconnectOnError "Reconnecting on error" c (systemConnectionMode s) error s.

(** *** What the runtime does with a pending connection attempt *)

Fixpoint removeNth {A} (i : nat) (l : list A) : list A :=
  match i, l with
  | _, [] => []
  | O, _ :: rest => rest
  | S j, x :: rest => x :: removeNth j rest
  end.

(** The [i]-th pending attempt resolves with a new connection. *)
Definition attemptSucceeds (i : nat) (d : IConnectionDetails)
    (s : DeltaManager) : option DeltaManager :=
  match nth_error (rt_attempts s) i with
  | Some (Connecting _ _ _) =>
      let c := {| connId := rt_nextId s; details := d |} in
      let s := set_rt_nextId (Pos.succ (rt_nextId s)) s in
      let s := set_rt_attempts (removeNth i (rt_attempts s)) s in
      Some (onConnected c s)
  | _ => None
  end.

(** The [i]-th pending attempt rejects with [error]. *)
Definition attemptFails (i : nat) (error : JsError)
    (s : DeltaManager) : option DeltaManager :=
  match nth_error (rt_attempts s) i with
  | Some (Connecting reason delay mode) =>
      let s := set_rt_attempts (removeNth i (rt_attempts s)) s in
      Some (onConnectFailed reason delay mode error s)
  | _ => None
  end.

(** The wait of the [i]-th pending item, [waitForConnectedState(delayNext)],
    is over: [connectCore] runs again. *)
Definition waitElapses (i : nat) (s : DeltaManager) : option DeltaManager :=
  match nth_error (rt_attempts s) i with
  | Some (Waiting reason delayNext mode) =>
      let s := set_rt_attempts (removeNth i (rt_attempts s)) s in
      Some (connectCore reason delayNext mode s)
  | _ => None
  end.

(** The manager as its constructor leaves it. *)
Definition new (clientType : string) (clientMode : ConnectionMode) (reconnect : bool)
    : DeltaManager :=
  {| clientType := clientType;
     systemConnectionMode := clientMode;
     reconnect := reconnect;
     connectionMode := ModeWrite;
     pending := [];
     fetching := false;
     inQuorum := false;
     updateSequenceNumberTimer := None;
     minSequenceNumber := 0;
     lastQueuedSequenceNumber := 0;
     baseSequenceNumber := 0;
     initSequenceNumber := 0;
     inbound := {| items := []; paused := true |};
     outbound := {| items := []; paused := true |};
     inboundSignal := {| items := []; paused := true |};
     connecting := None;
     connection := None;
     clientSequenceNumber := 0;
     clientSequenceNumberObserved := 0;
     closed := false;
     handler := None;
     messageBuffer := [];
     duplicateMsgCount := 0;
     connectRepeatCount := 0;
     deltaStorageDelay := None;
     deltaStreamDelay := None;
     collabWindowMax := 30;
     rt_timers := [];
     rt_nextId := 1%positive;
     rt_emitted := [];
     rt_telemetry := [];
     rt_getDeltas := [];
     rt_attempts := [];
     rt_settled := [];
     rt_closedConnections := [];
     rt_listenersRemoved := false |}.
(** *** Delta storage fetcher *)

(** The local variables of [getDeltas] that live across iterations. *)
Record GetDeltasLocals := { retry : Z; from : Z; allDeltas : list Seq.t }.

(** What the awaits inside the [try] block of one iteration produce:
    [await this.deltaStorageP] rejects (before [canRetry = true]), or
    [await deltaStorage.get(from, fetchTo)] rejects, or it returns a batch. *)
Inductive StorageOutcome :=
  | ConnectToStorageRejects (error : JsError)
  | GetRejects (error : JsError)
  | GetReturns (deltas : list Seq.t).

Definition maxFetchTo (l : GetDeltasLocals) : Z := from l + MaxBatchDeltas.

Definition fetchTo (to : option Z) (l : GetDeltasLocals) : Z :=
  match to with
  | None => maxFetchTo l
  | Some t => Z.min (maxFetchTo l) t
  end.

(** [deltasRetrievedLast > 0 ? deltas[deltasRetrievedLast - 1].sequenceNumber : from] *)
Definition lastFetchOf (deltas : list Seq.t) (from : Z) : Z :=
  last (map Seq.sequenceNumber deltas) from.

(** How the [try] block ends when it does not throw: with the [return], or by
    falling out of it with [from = lastFetch]. *)
Inductive TryEnd :=
  | TryReturns (result : list Seq.t)
  | TryCompletes (deltasRetrievedLast : Z) (l : GetDeltasLocals).

(** The [try] block. A throw carries the value of [canRetry] at that point
    and the error. *)
Definition tryBlock (to : option Z) (l : GetDeltasLocals) (o : StorageOutcome)
    (s : DeltaManager) : Completion TryEnd (bool * JsError) * DeltaManager :=
  match o with
  | ConnectToStorageRejects error => (Throw (false, error), s)
  | GetRejects error => (Throw (true, error), s)
  | GetReturns deltas =>
      let all := allDeltas l ++ deltas in
      let deltasRetrievedLast := Z.of_nat (List.length deltas) in
      let lastFetch := lastFetchOf deltas (from l) in
      if match to with
         | None => lastFetch <? maxFetchTo l - 1
         | Some t => t - 1 <=? lastFetch
         end
      then
        let s :=
          sendTelemetryEvent "GetDeltas_end"
            [("lastFetch", lastFetch); ("totalDeltas", Z.of_nat (List.length all));
             ("retries", retry l)] s in
        let s := emitDelayInfo DELTASTORAGE (-1) s in
        (Normal (TryReturns all), s)
      else
        (Normal (TryCompletes deltasRetrievedLast
                   {| retry := retry l; from := lastFetch; allDeltas := all |}), s)
  end.

(** How one iteration ends: the function returns, or it awaits
    [waitForConnectedState(delay)] before the next test of the loop. *)
Inductive IterationEnd :=
  | Returns (result : list Seq.t)
  | Sleeps (delay : Z) (l : GetDeltasLocals).

(** The statements after the [try] statement. *)
Definition afterTry (l : GetDeltasLocals) (deltasRetrievedLast : Z) (success : bool)
    (retryAfter : Z) (s : DeltaManager) : IterationEnd * DeltaManager :=
  let retry := if deltasRetrievedLast =? 0 then retry l + 1 else 0 in
  let delay :=
    if 0 <=? retryAfter then retryAfter
    else Z.min MaxFetchDelay
           (if negb (retry =? 0) then MissingFetchDelay * 2 ^ retry else 0) in
  let s :=
    sendTelemetryEvent "GetDeltas_progress"
      [("delay", delay); ("deltasRetrievedLast", deltasRetrievedLast);
       ("deltasRetrievedTotal", Z.of_nat (List.length (allDeltas l)));
       ("replayFrom", from l); ("retry", retry);
       ("success", if success then 1 else 0)] s in
  let s := emitDelayInfo DELTASTORAGE delay s in
  (Sleeps delay {| retry := retry; from := from l; allDeltas := allDeltas l |}, s).

(** One iteration of the [while] loop: the locals [deltasRetrievedLast = 0],
    [success = true], [canRetry = false] and [retryAfter = 0] are initialised,
    the [try] statement runs with its [catch] clause, then the statements after
    it. A [Throw] is an exception leaving the loop body, and so the function:
    what [closeOnConnectionError] throws inside the [catch] clause. *)
Definition getDeltasIteration (to : option Z) (l : GetDeltasLocals)
    (o : StorageOutcome) (s : DeltaManager)
    : Completion IterationEnd JsError * DeltaManager :=
  match tryBlock to l o s with
  | (Normal (TryReturns result), s) => (Normal (Returns result), s)
  | (Normal (TryCompletes deltasRetrievedLast l), s) =>
      let '(e, s) := afterTry l deltasRetrievedLast true 0 s in
      (Normal e, s)
  | (Throw (canRetry, error), s) =>
      let s :=
        sendTelemetryEvent "GetDeltas_Error"
          [("fetchTo", fetchTo to l); ("from", from l); ("retry", retry l + 1)] s in
      if negb canRetry || negb (canRetryOnError error) then
        match closeOnConnectionError error s with
        | (Normal _, s) => (Normal (Returns []), s)
        | (Throw e, s) => (Throw e, s)
        end
      else
        let retryAfter :=
          match error with
          | ErrObject _ (Some retryAfterSeconds) => retryAfterSeconds
          | _ => 0
          end in
        let '(e, s) := afterTry l 0 false retryAfter s in
        (Normal e, s)
  end.

(** The promise of an async function. *)
Inductive PromiseState (A : Type) :=
  | Pending
  | Fulfilled (a : A)
  | RejectedWith (e : JsError).
Arguments Pending {A}.
Arguments Fulfilled {A} a.
Arguments RejectedWith {A} e.

(** One round of the loop as the environment plays it: the outcome of the
    awaits in the [try] block, and whether [close()] ran while the function
    was suspended on them, or on the wait after them. *)
Record Round := {
  closedWhileFetching : bool;
  outcome : StorageOutcome;
  closedWhileSleeping : bool
}.

(** The [while (!this.closed)] loop over the rounds the environment supplies;
    [Pending] when the function is suspended and no round is left. *)
Fixpoint getDeltasLoop (to : option Z) (script : list Round) (l : GetDeltasLocals)
    (s : DeltaManager) : PromiseState (list Seq.t) * DeltaManager :=
  if closed s then
    let s := sendTelemetryEvent "GetDeltasClosedConnection" [] s in
    let s := emitDelayInfo DELTASTORAGE (-1) s in
    (Fulfilled [], s)
  else
    match script with
    | [] => (Pending, s)
    | r :: rest =>
        let s := if closedWhileFetching r then close s else s in
        match getDeltasIteration to l (outcome r) s with
        | (Normal (Returns result), s) => (Fulfilled result, s)
        | (Normal (Sleeps _ l), s) =>
            let s := if closedWhileSleeping r then close s else s in
            getDeltasLoop to rest l s
        | (Throw e, s) => (RejectedWith e, s)
        end
    end.

(** [getDeltas(telemetryEventSuffix, fromInitial, to)] *)
Definition getDeltas (suffix : string) (fromInitial : Z) (to : option Z)
    (script : list Round) (s : DeltaManager)
    : PromiseState (list Seq.t) * DeltaManager :=
  let s :=
    sendTelemetryEvent ("GetDeltas_" ++ suffix)%string [("from", fromInitial)] s in
  getDeltasLoop to script {| retry := 0; from := fromInitial; allDeltas := [] |} s.

(** *** Transitions of the manager

    The calls of the public methods and the callbacks the runtime invokes, as
    one step relation; [Reachable] are the states a manager can be in. *)
Inductive Step : DeltaManager -> DeltaManager -> Prop :=
  | StepAttach minSeq seq h resume s :
      Step s (snd (attachOpHandler minSeq seq h resume s))
  | StepQuorumJoin s : Step s (updateQuorumJoin s)
  | StepQuorumLeave s : Step s (updateQuorumLeave s)
  | StepConnect reason s : Step s (snd (connect reason s))
  | StepFlush s : Step s (flush s)
  | StepSubmit type contents batch s : Step s (snd (submit type contents batch s))
  | StepClose s : Step s (close s)
  | StepProcessMessage jsonParses message result s :
      Step s (snd (processMessage jsonParses message result s))
  | StepProcessed message immediateNoOp s :
      Step s (scheduleSequenceNumberUpdate message immediateNoOp s)
  | StepTimer h s s' : fireTimer h s = Some s' -> Step s s'
  | StepConnected i d s s' : attemptSucceeds i d s = Some s' -> Step s s'
  | StepConnectFailed i error s s' : attemptFails i error s = Some s' -> Step s s'
  | StepWaited i s s' : waitElapses i s = Some s' -> Step s s'
  | StepOp messages s : connection s <> None -> Step s (onOp messages s)
  | StepSignal message s : connection s <> None -> Step s (onSignal message s)
  | StepNack c target s : Step s (onNack c target s)
  | StepDisconnect c reason s : Step s (onDisconnect c reason s)
  | StepError c error s : Step s (onError c error s)
  | StepDeltas suffix messages s : Step s (onGetDeltasResolved suffix messages s)
  | StepGetDeltasIteration to l o s :
      Step s (snd (getDeltasIteration to l o s))
  | StepGetDeltasClosed s :
      closed s = true -> Step s (snd (getDeltasLoop None [] {| retry := 0; from := 0; allDeltas := [] |} s)).

Inductive Reachable : DeltaManager -> Prop :=
  | ReachNew clientType clientMode reconnect :
      Reachable (new clientType clientMode reconnect)
  | ReachStep s s' : Reachable s -> Step s s' -> Reachable s'.

(** *** Observations used in the statements *)

(** The acknowledgement timer as the manager and the runtime see it. *)
Definition timerPart (s : DeltaManager) : list (positive * Z) * option positive :=
  (rt_timers s, updateSequenceNumberTimer s).

(** The armed timers are exactly the one the manager holds a handle of. *)
Definition timersConsistent (s : DeltaManager) : Prop :=
  rt_timers s =
    match updateSequenceNumberTimer s with
    | Some h => [(h, AckTimerDelay)]
    | None => []
    end.

(** What [submit] leaves behind: the client sequence number counter, the
    message buffer and the batches on the outbound queue. *)
Definition submitted (s : DeltaManager) : Z * list Doc.t * list (list Doc.t) :=
  (clientSequenceNumber s, messageBuffer s, items (outbound s)).

(** The message [submit(MessageType.NoOp, contents)] puts on the outbound
    queue when the counter stands at [csn - 1]. *)
Definition noOpMessage (csn ref : Z) (contents : JsAny) : Doc.t :=
  {| Doc.clientSequenceNumber := csn;
     Doc.referenceSequenceNumber := ref;
     Doc.type := NoOp;
     Doc.contents := None;
     Doc.data := Some (stringify contents) |}.

(** *** Runs of several calls, used in the statements *)

(** The sequence numbers of [l] are [start], [start + 1], ... *)
Fixpoint consecutive (start : Z) (l : list Seq.t) : Prop :=
  match l with
  | [] => True
  | m :: rest => Seq.sequenceNumber m = start /\ consecutive (start + 1) rest
  end.

(** The sequence numbers of [l] never decrease. *)
Fixpoint ascending (l : list Seq.t) : Prop :=
  match l with
  | [] => True
  | m :: rest =>
      Forall (fun m' => Seq.sequenceNumber m <= Seq.sequenceNumber m') rest
      /\ ascending rest
  end.

(** No pending message could be queued next: each one is beyond
    [lastQueuedSequenceNumber + 1]. *)
Definition onlyGapsPending (s : DeltaManager) : Prop :=
  Forall (fun p => Seq.sequenceNumber p > lastQueuedSequenceNumber s + 1) (pending s).

(** A call on the outbound side of the manager. *)
Inductive OutboundCall :=
  | CallSubmit (type : MessageType) (contents : JsAny) (batch : bool)
  | CallFlush.

Definition outboundCall (c : OutboundCall) (s : DeltaManager) : DeltaManager :=
  match c with
  | CallSubmit type contents batch => snd (submit type contents batch s)
  | CallFlush => flush s
  end.

Definition runOutbound (calls : list OutboundCall) (s : DeltaManager) : DeltaManager :=
  fold_left (fun s c => outboundCall c s) calls s.

Definition isSubmit (c : OutboundCall) : bool :=
  match c with CallSubmit _ _ _ => true | CallFlush => false end.

(** Every message handed to [submit] and not yet cleared, in the order the
    connection will see them: the batches of the outbound queue, then the
    message buffer. *)
Definition outboundStream (s : DeltaManager) : list Doc.t :=
  List.concat (items (outbound s)) ++ messageBuffer s.

(** The client sequence numbers of [l] are [start], [start + 1], ... *)
Fixpoint numbered (start : Z) (l : list Doc.t) : Prop :=
  match l with
  | [] => True
  | m :: rest => Doc.clientSequenceNumber m = start /\ numbered (start + 1) rest
  end.

(** One rung of the reconnect ladder: the first pending attempt fails with
    [error], and the wait that follows it elapses. *)
Definition failedRound (error : JsError) (s : DeltaManager) : option DeltaManager :=
  match attemptFails 0 error s with
  | Some s => waitElapses 0 s
  | None => None
  end.

Fixpoint failedRounds (n : nat) (error : JsError) (s : DeltaManager)
    : option DeltaManager :=
  match n with
  | O => Some s
  | S k =>
      match failedRound error s with
      | Some s => failedRounds k error s
      | None => None
      end
  end.

(** The [DeltaConnection.connect] calls that are pending. *)
Definition connectsPending (s : DeltaManager) : nat :=
  List.length
    (filter (fun p => match p with Connecting _ _ _ => true | Waiting _ _ _ => false end)
       (rt_attempts s)).

(** What the manager has started and whether it is closed. *)
Definition startedPart (s : DeltaManager) : bool * list GetDeltasCall * nat :=
  (closed s, rt_getDeltas s, connectsPending s).

(** The same with the pending attempts and waits themselves. *)
Definition runPart (s : DeltaManager)
    : bool * list GetDeltasCall * list PendingConnect :=
  (closed s, rt_getDeltas s, rt_attempts s).

(** What the inbound path of a closed manager leaves alone. *)
Definition quietPart (s : DeltaManager)
    : bool * list GetDeltasCall * list PendingConnect * option DeltaConnection
      * list Event :=
  (closed s, rt_getDeltas s, rt_attempts s, connection s, rt_emitted s).

(** The batches returned in the rounds of a script. *)
Definition batchOf (r : Round) : list Seq.t :=
  match outcome r with
  | GetReturns deltas => deltas
  | ConnectToStorageRejects _ | GetRejects _ => []
  end.

(** A round during which nobody closes the manager and whose failure, if any,
    can be retried. *)
Definition quietRound (r : Round) : bool :=
  negb (closedWhileFetching r) && negb (closedWhileSleeping r)
  && match outcome r with
     | GetReturns _ => true
     | GetRejects error => canRetryOnError error
     | ConnectToStorageRejects _ => false
     end.

(** Whether the batch of a round ends the call when the loop stands at
    [from]: the test of the [if] statement of the [try] block. *)
Definition endsCall (to : option Z) (from : Z) (r : Round) : bool :=
  match outcome r with
  | GetReturns deltas =>
      match to with
      | None => lastFetchOf deltas from <? from + MaxBatchDeltas - 1
      | Some t => t - 1 <=? lastFetchOf deltas from
      end
  | ConnectToStorageRejects _ | GetRejects _ => false
  end.

(** Where the loop stands after a round that did not end the call. *)
Definition fromAfter (from : Z) (r : Round) : Z :=
  match outcome r with
  | GetReturns deltas => lastFetchOf deltas from
  | ConnectToStorageRejects _ | GetRejects _ => from
  end.

(** The rounds of a script up to the first one that ends the call, that one
    included; [None] when no round of the script ends it. *)
Fixpoint roundsUsed (to : option Z) (from : Z) (script : list Round)
    : option (list Round) :=
  match script with
  | [] => None
  | r :: rest =>
      if endsCall to from r then Some [r]
      else
        match roundsUsed to (fromAfter from r) rest with
        | Some used => Some (r :: used)
        | None => None
        end
  end.

(** The sequence numbers [processMessage] keeps track of. *)
Definition trackPart (s : DeltaManager) : Z * Z :=
  (minSequenceNumber s, baseSequenceNumber s).

End DeltaManager.

(** ** The epoch tracker *)

Module EpochTracker.

Inductive FetchType :=
  | blob | createBlob | createFile | joinSession | ops | other | snapshotTree
  | treesLatest | uploadSummary | pushFetch | versions.

Definition FetchType_eqb (a b : FetchType) : bool :=
  match a, b with
  | blob, blob | createBlob, createBlob | createFile, createFile
  | joinSession, joinSession | ops, ops | other, other
  | snapshotTree, snapshotTree | treesLatest, treesLatest
  | uploadSummary, uploadSummary | pushFetch, pushFetch | versions, versions => true
  | _, _ => false
  end.

(** [OdspErrorType], the members the tracker meets. *)
Inductive OdspErrorType :=
  | epochVersionMismatch
  | throttlingError
  | otherErrorType (name : string).

Definition OdspErrorType_isEpochVersionMismatch (t : option OdspErrorType) : bool :=
  match t with Some epochVersionMismatch => true | _ => false end.

(** Modelled from the spec: the status code [fluidEpochMismatchError] is
    declared in the odsp-doclib-utils package, which is not part of the
    sources; the spec names the server's epoch error a 409. *)
Definition fluidEpochMismatchError : Z := 409.

(** The errors that travel through the tracker:
    - what the fetch helpers reject with, an object carrying [errorType],
      [statusCode] and [errorMessage];
    - what [throwOdspNetworkError(message, fluidEpochMismatchError)] throws;
    - [new ThrottlingError(errorMessage, retryAfter, statusCode)];
    - a failed [assert]. *)
Inductive TrackerError :=
  | NetworkError (errorType : option OdspErrorType) (statusCode : option Z)
      (errorMessage : option string)
  | EpochMismatchError (message : string)
  | ThrottlingError (errorMessage : option string) (retryAfter : Z) (statusCode : Z)
  | AssertionError (message : string).

(** [error.errorType] *)
Definition errorTypeOf (error : TrackerError) : option OdspErrorType :=
  match error with
  | NetworkError t _ _ => t
  | EpochMismatchError _ => Some epochVersionMismatch
  | ThrottlingError _ _ _ => Some throttlingError
  | AssertionError _ => None
  end.

(** [error.statusCode] *)
Definition statusCodeOf (error : TrackerError) : option Z :=
  match error with
  | NetworkError _ c _ => c
  | EpochMismatchError _ => Some fluidEpochMismatchError
  | ThrottlingError _ _ c => Some c
  | AssertionError _ => None
  end.

(** [error.errorMessage] *)
Definition errorMessageOf (error : TrackerError) : option string :=
  match error with
  | NetworkError _ _ m => m
  | EpochMismatchError m => Some m
  | ThrottlingError m _ _ => m
  | AssertionError _ => None
  end.

(** Truthiness of a [string | null | undefined]: a non-empty string. *)
Definition present (epoch : option string) : bool :=
  match epoch with
  | Some e => negb (String.eqb e EmptyString)
  | None => false
  end.

Definition epoch_eqb (a b : option string) : bool :=
  match a, b with
  | Some x, Some y => String.eqb x y
  | None, None => true
  | _, _ => false
  end.

(** [IFileEntry] and [ICacheEntry], by their keys. *)
Record IFileEntry := { docId : string; resolvedUrl : string }.

Definition IFileEntry_eqb (a b : IFileEntry) : bool :=
  String.eqb (docId a) (docId b) && String.eqb (resolvedUrl a) (resolvedUrl b).

Record ICacheEntry := { file : IFileEntry; entryType : string; key : string }.

(** A value stored in the persistent cache. *)
Record CachedValue := { valueFluidEpoch : option string; value : string }.

(** Events sent to the logger. *)
Inductive LogEvent :=
  | EpochLearnedFirstTime (epoch : string) (fetchType : FetchType) (fromCache : bool)
  | EpochVersionMismatch (clientEpoch : option string) (fetchType : FetchType)
      (fromCache : bool)
  | Coherency409.

(** The fields of [EpochTracker]; [persistedCache] is the content of the
    persistent cache behind the adapter, [logger] what was sent to the logger. *)
Record EpochTracker := {
  fluidEpoch : option string;
  fileEntry : option IFileEntry;
  persistedCache : list (ICacheEntry * CachedValue);
  logger : list LogEvent
}.

Definition set_fluidEpoch (v : option string) (t : EpochTracker) : EpochTracker :=
  {| fluidEpoch := v; fileEntry := fileEntry t;
     persistedCache := persistedCache t; logger := logger t |}.

Definition set_persistedCache (v : list (ICacheEntry * CachedValue))
    (t : EpochTracker) : EpochTracker :=
  {| fluidEpoch := fluidEpoch t; fileEntry := fileEntry t;
     persistedCache := v; logger := logger t |}.

Definition log (e : LogEvent) (t : EpochTracker) : EpochTracker :=
  {| fluidEpoch := fluidEpoch t; fileEntry := fileEntry t;
     persistedCache := persistedCache t; logger := logger t ++ [e] |}.

(** The setter [set fileEntry(fileEntry)] *)
Definition setFileEntry (f : option IFileEntry) (t : EpochTracker)
    : Completion unit TrackerError * EpochTracker :=
  match fileEntry t with
  | Some _ => (Throw (AssertionError "File Entry should be set only once"), t)
  | None =>
      match f with
      | None => (Throw (AssertionError "Passed file entry should not be undefined"), t)
      | Some _ =>
          (Normal tt,
           {| fluidEpoch := fluidEpoch t; fileEntry := f;
              persistedCache := persistedCache t; logger := logger t |})
      end
  end.

(** Modelled from the spec: [LocalPersistentCacheAdapter.removeEntries] is not
    part of the sources; the spec has it remove, en masse, the entries keyed by
    the file entry. *)
Definition removeEntries (f : IFileEntry) (t : EpochTracker) : EpochTracker :=
  set_persistedCache
    (filter (fun e => negb (IFileEntry_eqb (file (fst e)) f)) (persistedCache t)) t.

(** [checkForEpochErrorCore(epochFromResponse, message)] *)
Definition checkForEpochErrorCore (epochFromResponse : option string)
    (message : option string) (t : EpochTracker) : Completion unit TrackerError :=
  if present (fluidEpoch t) && present epochFromResponse
     && negb (epoch_eqb (fluidEpoch t) epochFromResponse)
  then
    Throw (EpochMismatchError
             (match message with Some m => m | None => "Epoch Mismatch" end))
  else Normal tt.

(** [validateEpochFromResponse(epochFromResponse, fetchType, fromCache)] of the
    base class. *)
Definition validateEpochFromResponse (epochFromResponse : option string)
    (fetchType : FetchType) (fromCache : bool) (t : EpochTracker)
    : Completion unit TrackerError * EpochTracker :=
  match checkForEpochErrorCore epochFromResponse None t with
  | Throw e => (Throw e, t)
  | Normal _ =>
      match epochFromResponse with
      | Some epoch =>
          if present epochFromResponse then
            let t :=
              match fluidEpoch t with
              | None => log (EpochLearnedFirstTime epoch fetchType fromCache) t
              | Some _ => t
              end in
            (Normal tt, set_fluidEpoch epochFromResponse t)
          else (Normal tt, t)
      | None => (Normal tt, t)
      end
  end.

(** [checkForEpochError(error, epochFromResponse, fetchType, fromCache)] *)
Definition checkForEpochError (error : TrackerError) (epochFromResponse : option string)
    (fetchType : FetchType) (fromCache : bool) (t : EpochTracker)
    : Completion unit TrackerError * EpochTracker :=
  if OdspErrorType_isEpochVersionMismatch (errorTypeOf error) then
    match checkForEpochErrorCore epochFromResponse (errorMessageOf error) t with
    | Throw epochError =>
        let t := log (EpochVersionMismatch (fluidEpoch t) fetchType fromCache) t in
        match fileEntry t with
        | None =>
            (Throw (AssertionError
                      "File Entry should be set to clear the cached entries!!"), t)
        | Some f =>
            let t := removeEntries f t in
            (Throw epochError, t)
        end
    | Normal _ =>
        let t := log Coherency409 t in
        (Throw (ThrottlingError (errorMessageOf error) 1000 429), t)
    end
  else (Normal tt, t).

(** What the rate-limited fetch helper produces: a rejection, or a response
    with its [x-fluid-epoch] header ([None] when the header is missing). *)
Inductive FetchReply (R : Type) :=
  | ReplyRejects (error : TrackerError)
  | ReplyResponse (epochHeader : option string) (content : R).
Arguments ReplyRejects {R} error.
Arguments ReplyResponse {R} epochHeader content.

(** The methods of the base class that call [this.validateEpochFromResponse],
    over the class of [this]: [T] is its state, [base] and [withBase] read and
    write the fields declared by [EpochTracker], [validate] is the method the
    call dispatches to. *)
Section Methods.
Context {T : Type}.
Variable base : T -> EpochTracker.
Variable withBase : EpochTracker -> T -> T.
Variable validate :
  option string -> FetchType -> bool -> T -> Completion unit TrackerError * T.

(** The [catch] clause shared by the fetch methods:
    [await this.checkForEpochError(...); throw error]. *)
Definition catchClause (error : TrackerError) (epochFromResponse : option string)
    (fetchType : FetchType) (fromCache : bool) (t : T) : TrackerError * T :=
  match checkForEpochError error epochFromResponse fetchType fromCache (base t) with
  | (Throw e, b) => (e, withBase b t)
  | (Normal _, b) => (error, withBase b t)
  end.

(** [fetchAndParseAsJSON] and [fetchResponse] from the reply of the helper
    on; adding the epoch to the request is not part of the embedding. *)
Definition fetchAndParseAsJSON {R} (fetchType : FetchType) (reply : FetchReply R)
    (t : T) : Completion R TrackerError * T :=
  match reply with
  | ReplyRejects error =>
      let '(e, t) := catchClause error None fetchType false t in
      (Throw e, t)
  | ReplyResponse epochFromResponse response =>
      match validate epochFromResponse fetchType false t with
      | (Normal _, t) => (Normal response, t)
      | (Throw error, t) =>
          let '(e, t) := catchClause error epochFromResponse fetchType false t in
          (Throw e, t)
      end
  end.

(** [fetchFromCache] from the value [persistedCache.get] returned on. *)
Definition fetchFromCache (fetchType : FetchType) (cached : option CachedValue)
    (t : T) : Completion (option string) TrackerError * T :=
  match cached with
  | Some v =>
      match validate (valueFluidEpoch v) fetchType true t with
      | (Normal _, t) => (Normal (Some (value v)), t)
      | (Throw error, t) =>
          let '(e, t) := catchClause error (valueFluidEpoch v) fetchType true t in
          (Throw e, t)
      end
  | None => (Normal None, t)
  end.

(** [validateEpochFromPush(details)] with [details.epoch] *)
Definition validateEpochFromPush (epoch : option string) (t : T)
    : Completion unit TrackerError * T :=
  match epoch with
  | None => (Throw (AssertionError "Connection details should contain epoch"), t)
  | Some _ =>
      match validate epoch pushFetch false t with
      | (Normal _, t) => (Normal tt, t)
      | (Throw error, t) =>
          let '(e, t) := catchClause error epoch pushFetch false t in
          (Throw e, t)
      end
  end.
End Methods.

(** The base class: [this] is an [EpochTracker]. *)
Definition baseFetchAndParseAsJSON {R} :=
  @fetchAndParseAsJSON EpochTracker (fun t => t) (fun b _ => b)
    validateEpochFromResponse R.

Definition baseFetchFromCache :=
  @fetchFromCache EpochTracker (fun t => t) (fun b _ => b) validateEpochFromResponse.

(** *** The redemption variant *)

(** Modelled from the spec: the [Deferred] class is declared in the
    common-utils package, which is not part of the sources. The spec has it a
    single-shot completion primitive: one producer resolves or rejects, and a
    completed deferred stays as it is. *)
Inductive Deferred :=
  | DeferredPending
  | DeferredResolved
  | DeferredRejected (error : TrackerError).

Definition isCompleted (d : Deferred) : bool :=
  match d with DeferredPending => false | _ => true end.

Definition resolve (d : Deferred) : Deferred :=
  match d with DeferredPending => DeferredResolved | _ => d end.

Definition reject (error : TrackerError) (d : Deferred) : Deferred :=
  match d with DeferredPending => DeferredRejected error | _ => d end.

(** [EpochTrackerWithRedemption]: the base fields and [treesLatestDeferral].
    The callback of [DeferralWithCallback] is never set in the sources, so
    [triggerCallbackAndAwaitPromise] awaits the deferred only. *)
Record EpochTrackerWithRedemption := {
  tracker : EpochTracker;
  treesLatestDeferral : Deferred
}.

Definition withTracker (b : EpochTracker) (t : EpochTrackerWithRedemption)
    : EpochTrackerWithRedemption :=
  {| tracker := b; treesLatestDeferral := treesLatestDeferral t |}.

Definition set_treesLatestDeferral (d : Deferred) (t : EpochTrackerWithRedemption)
    : EpochTrackerWithRedemption :=
  {| tracker := tracker t; treesLatestDeferral := d |}.

(** The override of [validateEpochFromResponse]. *)
Definition validateEpochFromResponseR (epochFromResponse : option string)
    (fetchType : FetchType) (fromCache : bool) (t : EpochTrackerWithRedemption)
    : Completion unit TrackerError * EpochTrackerWithRedemption :=
  match validateEpochFromResponse epochFromResponse fetchType fromCache (tracker t) with
  | (Throw e, b) => (Throw e, withTracker b t)
  | (Normal _, b) =>
      let t := withTracker b t in
      (Normal tt, set_treesLatestDeferral (resolve (treesLatestDeferral t)) t)
  end.

(** [super.fetchAndParseAsJSON] called on a redemption tracker. *)
Definition superFetchAndParseAsJSON {R} :=
  @fetchAndParseAsJSON EpochTrackerWithRedemption tracker withTracker
    validateEpochFromResponseR R.

(** Where a call of the overriding [fetchAndParseAsJSON] stands: suspended on
    the first request (with [completed], read at entry), suspended on the
    deferred, suspended on the repeated request, or settled. *)
Inductive CallState (R : Type) :=
  | AwaitingReply (completed : bool)
  | AwaitingDeferral
  | AwaitingRepeatedReply
  | Settled (result : Completion R TrackerError).
Arguments AwaitingReply {R} completed.
Arguments AwaitingDeferral {R}.
Arguments AwaitingRepeatedReply {R}.
Arguments Settled {R} result.

(** Requests a call in this state has outstanding. *)
Definition requestOutstanding {R} (c : CallState R) : bool :=
  match c with
  | AwaitingReply _ | AwaitingRepeatedReply => true
  | AwaitingDeferral | Settled _ => false
  end.

(** Entry of the call, up to the first await. *)
Definition enter {R} (t : EpochTrackerWithRedemption) : CallState R :=
  AwaitingReply (isCompleted (treesLatestDeferral t)).

(** [await this.treesLatestDeferral.triggerCallbackAndAwaitPromise()] and
    what follows it. *)
Definition awaitDeferral {R} (t : EpochTrackerWithRedemption) : CallState R :=
  match treesLatestDeferral t with
  | DeferredPending => AwaitingDeferral
  | DeferredResolved => AwaitingRepeatedReply
  | DeferredRejected error => Settled (Throw error)
  end.

(** The reply to the first request arrives: the [try] statement and, when its
    [catch] clause does not rethrow, the statements after it. *)
Definition onReply {R} (completed : bool) (fetchType : FetchType)
    (reply : FetchReply R) (t : EpochTrackerWithRedemption)
    : CallState R * EpochTrackerWithRedemption :=
  match superFetchAndParseAsJSON fetchType reply t with
  | (Normal response, t) => (Settled (Normal response), t)
  | (Throw error, t) =>
      let t :=
        if FetchType_eqb fetchType treesLatest then
          set_treesLatestDeferral (reject error (treesLatestDeferral t)) t
        else t in
      if negb (FetchType_eqb fetchType joinSession)
         || negb (match statusCodeOf error with Some c => c =? 404 | None => false end)
         || completed
      then (Settled (Throw error), t)
      else (awaitDeferral t, t)
  end.

(** The reply to the repeated request arrives:
    [return super.fetchAndParseAsJSON(...)]. *)
Definition onRepeatedReply {R} (fetchType : FetchType) (reply : FetchReply R)
    (t : EpochTrackerWithRedemption) : CallState R * EpochTrackerWithRedemption :=
  let '(result, t) := superFetchAndParseAsJSON fetchType reply t in
  (Settled result, t).

(** What reaches a suspended call. *)
Inductive CallEvent (R : Type) :=
  | Reply (reply : FetchReply R)
  | DeferralSettled.
Arguments Reply {R} reply.
Arguments DeferralSettled {R}.

(** One step of a call; an event the call is not waiting for leaves it as it
    is. The count is the number of requests the step sends. *)
Definition callStep {R} (fetchType : FetchType) (c : CallState R) (e : CallEvent R)
    (t : EpochTrackerWithRedemption)
    : CallState R * EpochTrackerWithRedemption * nat :=
  match c, e with
  | AwaitingReply completed, Reply reply =>
      let '(c', t) := onReply completed fetchType reply t in
      (c', t, if requestOutstanding c' then 1%nat else 0%nat)
  | AwaitingDeferral, DeferralSettled =>
      let c' := awaitDeferral t in
      (c', t, if requestOutstanding c' then 1%nat else 0%nat)
  | AwaitingRepeatedReply, Reply reply =>
      let '(c', t) := onRepeatedReply fetchType reply t in
      (c', t, 0%nat)
  | _, _ => (c, t, 0%nat)
  end.

(** A call from some state on: each event reaches the call after the other
    code of the page ([others]) has run on the tracker while the call was
    suspended. The count is the number of requests the call sends. *)
Fixpoint runCall {R} (fetchType : FetchType) (c : CallState R)
    (events : list ((EpochTrackerWithRedemption -> EpochTrackerWithRedemption)
                    * CallEvent R))
    (t : EpochTrackerWithRedemption)
    : CallState R * EpochTrackerWithRedemption * nat :=
  match events with
  | [] => (c, t, 0%nat)
  | (others, e) :: rest =>
      let '(c1, t1, n) := callStep fetchType c e (others t) in
      let '(c2, t2, m) := runCall fetchType c1 rest t1 in
      (c2, t2, (n + m)%nat)
  end.

End EpochTracker.

(** ** Calls on an epoch tracker, and the request it sends *)

Module EpochTrackerCalls.
Import Ascii EpochTracker.

(** [validateEpochFromPush] of the base class. *)
Definition baseValidateEpochFromPush :=
  @validateEpochFromPush EpochTracker (fun t => t) (fun b _ => b)
    validateEpochFromResponse.

(** A call of a public member of [EpochTracker], with what the environment
    answers to it: the file entry assigned, the epoch of the connection
    details, the value found in the cache, the reply of the fetch helper
    ([fetchAndParseAsJSON] and [fetchResponse] treat it alike). *)
Inductive TrackerCall :=
  | CallSetFileEntry (f : option IFileEntry)
  | CallValidateEpochFromPush (epoch : option string)
  | CallFetchFromCache (fetchType : FetchType) (cached : option CachedValue)
  | CallFetch (fetchType : FetchType) (reply : FetchReply string).

Definition trackerCall (c : TrackerCall) (t : EpochTracker) : EpochTracker :=
  match c with
  | CallSetFileEntry f => snd (setFileEntry f t)
  | CallValidateEpochFromPush epoch => snd (baseValidateEpochFromPush epoch t)
  | CallFetchFromCache fetchType cached => snd (baseFetchFromCache fetchType cached t)
  | CallFetch fetchType reply => snd (baseFetchAndParseAsJSON fetchType reply t)
  end.

Definition runTracker (calls : list TrackerCall) (t : EpochTracker) : EpochTracker :=
  fold_left (fun t c => trackerCall c t) calls t.

Definition isEpochLearned (e : LogEvent) : bool :=
  match e with EpochLearnedFirstTime _ _ _ => true | _ => false end.

(** How many times [EpochLearnedFirstTime] was logged. *)
Definition learnedCount (t : EpochTracker) : nat :=
  List.length (filter isEpochLearned (logger t)).

(** *** [addEpochInRequest]

    Strings are sequences of code units, so [String.length] is [.length]. *)

(** [s.split(separator)] for a separator that is not empty: [skip] code units
    of a separator just met are still to be passed, [piece] is the piece
    being read. *)
Fixpoint splitFrom (separator : string) (skip : nat) (piece : string) (s : string)
    : list string :=
  match s with
  | EmptyString => [piece]
  | String c rest =>
      match skip with
      | S k => splitFrom separator k piece rest
      | O =>
          if String.prefix separator s then
            piece :: splitFrom separator (String.length separator - 1) EmptyString rest
          else splitFrom separator 0 (piece ++ String c EmptyString)%string rest
      end
  end.

Definition split (separator : string) (s : string) : list string :=
  splitFrom separator 0 EmptyString s.

(** [s.substring(start)] *)
Definition substringFrom (start : nat) (s : string) : string :=
  String.substring start (String.length s - start) s.

Definition crlf : string := String "013"%char (String "010"%char EmptyString).

(** The fetch options the function reads and writes; [headers] keeps the
    order of the keys of the object. *)
Record FetchOptions := {
  body : option string;
  headers : list (string * string)
}.

(** [{ ...headers, [key]: value }] *)
Fixpoint spreadWith (key value : string) (headers : list (string * string))
    : list (string * string) :=
  match headers with
  | [] => [(key, value)]
  | (k, v) :: rest =>
      if String.eqb k key then (k, value) :: rest
      else (k, v) :: spreadWith key value rest
  end.

Section AddEpochInRequest.
(** [new URLSearchParams(queryString)], [append("epoch", epoch)] and
    [toString()] are the platform's; the function stands for the three. *)
Variable searchParamsWithEpoch : option string -> string -> string.

(** [addEpochInRequest(url, fetchOptions, addInBody)]; a [Throw] is the
    [TypeError] of [body.split] on a missing body. *)
Definition addEpochInRequest (url : string) (fetchOptions : FetchOptions)
    (addInBody : bool) (t : EpochTracker)
    : Completion (string * FetchOptions) string :=
  match fluidEpoch t with
  | Some epoch =>
      if addInBody then
        match body fetchOptions with
        | None => Throw "TypeError"
        | Some b =>
            let formBoundary := substringFrom 2 (hd EmptyString (split crlf b)) in
            let b := (b ++ crlf ++ "epoch=" ++ epoch ++ crlf)%string in
            let b := (b ++ crlf ++ "--" ++ formBoundary ++ "--")%string in
            Normal (url, {| body := Some b; headers := headers fetchOptions |})
        end
      else
        let pieces := split "?" url in
        let mainUrl := hd EmptyString pieces in
        let queryString := nth_error pieces 1 in
        let urlWithEpoch :=
          (mainUrl ++ "?" ++ searchParamsWithEpoch queryString epoch)%string in
        if (2048 <? String.length urlWithEpoch)%nat then
          Normal (url,
                  {| body := body fetchOptions;
                     headers := spreadWith "x-fluid-epoch" epoch (headers fetchOptions) |})
        else Normal (urlWithEpoch, fetchOptions)
  | None => Normal (url, fetchOptions)
  end.
End AddEpochInRequest.

(** A string without a carriage return. *)
Fixpoint noCarriageReturn (s : string) : bool :=
  match s with
  | EmptyString => true
  | String c rest => negb (Ascii.eqb c "013"%char) && noCarriageReturn rest
  end.

End EpochTrackerCalls.

(** ** The distributed set (packages/runtime/map/src/set.ts) *)

Module DistributedSet.

Section Values.
Context {T : Type}.
(** The equality of [Set.prototype.has] on the values. *)
Variable eqb : T -> T -> bool.

(** [emitter.emit(opName, previousValue, params)] *)
Record Op := { opName : string; previousValue : option T; params : T }.

(** A call of the [onAdd] or the [onDelete] listener. *)
Inductive Notification :=
  | OnAdd (value : T)
  | OnDelete (value : T).

(** A [DistributedSet]: the values of [internalSet] in insertion order, the
    ops handed to its emitter, and the calls of its listeners. *)
Record DistributedSet := {
  internalSet : list T;
  emitter : list Op;
  listeners : list Notification
}.

(** [internalSet.has(value)] *)
Definition has (value : T) (l : list T) : bool := existsb (eqb value) l.

(** [new Set(value)] *)
Definition newSet (value : list T) : list T :=
  fold_left (fun acc v => if has v acc then acc else acc ++ [v]) value [].

(** [new DistributedSet(emitter, value)] *)
Definition new (value : list T) : DistributedSet :=
  {| internalSet := newSet value; emitter := []; listeners := [] |}.

(** [add(value, submitEvent)] *)
Definition add (value : T) (submitEvent : bool) (s : DistributedSet) : DistributedSet :=
  if negb (has value (internalSet s)) then
    {| internalSet := internalSet s ++ [value];
       emitter :=
         if submitEvent
         then emitter s ++ [{| opName := "add"; previousValue := None; params := value |}]
         else emitter s;
       listeners := listeners s ++ [OnAdd value] |}
  else s.

(** [delete(value, submitEvent)] *)
Definition delete (value : T) (submitEvent : bool) (s : DistributedSet)
    : DistributedSet :=
  if has value (internalSet s) then
    {| internalSet := filter (fun x => negb (eqb value x)) (internalSet s);
       emitter :=
         if submitEvent
         then emitter s
              ++ [{| opName := "delete"; previousValue := Some value; params := value |}]
         else emitter s;
       listeners := listeners s ++ [OnDelete value] |}
  else s.

(** [entries()] *)
Definition entries (s : DistributedSet) : list T := internalSet s.

(** [DistributedSetFactory]: [load(emitter, raw = [])] and [store(value)]. *)
Definition load (raw : option (list T)) : DistributedSet :=
  new (match raw with Some r => r | None => [] end).

Definition store (value : DistributedSet) : list T := entries value.

(** [DistributedSetValueType.ops]: the [process] functions of the map, by
    name. *)
Definition ops (name : string)
    : option (DistributedSet -> T -> bool -> DistributedSet) :=
  if String.eqb name "add" then
    Some (fun (value : DistributedSet) (params : T) (local : bool) =>
            if local then value else add params false value)
  else if String.eqb name "delete" then
    Some (fun (value : DistributedSet) (params : T) (local : bool) =>
            if local then value else delete params false value)
  else None.

(** A call on a set: one of its methods, or the [process] of the operation
    registered under a name (a name without an operation reaches no code). *)
Inductive SetCall :=
  | CallAdd (value : T) (submitEvent : bool)
  | CallDelete (value : T) (submitEvent : bool)
  | CallProcess (name : string) (params : T) (local : bool).

Definition setCall (c : SetCall) (s : DistributedSet) : DistributedSet :=
  match c with
  | CallAdd value submitEvent => add value submitEvent s
  | CallDelete value submitEvent => delete value submitEvent s
  | CallProcess name params local =>
      match ops name with
      | Some process => process s params local
      | None => s
      end
  end.

Definition runSet (calls : list SetCall) (s : DistributedSet) : DistributedSet :=
  fold_left (fun s c => setCall c s) calls s.

(** The ops of one replica processed by another, as remote ops. *)
Definition processRemote (o : Op) (s : DistributedSet) : DistributedSet :=
  setCall (CallProcess (opName o) (params o) false) s.

Definition replay (l : list Op) (s : DistributedSet) : DistributedSet :=
  fold_left (fun s o => processRemote o s) l s.

(** A call that submits its change. *)
Definition isLocalChange (c : SetCall) : bool :=
  match c with
  | CallAdd _ submitEvent | CallDelete _ submitEvent => submitEvent
  | CallProcess _ _ _ => false
  end.

Definition isOnAdd (n : Notification) : bool :=
  match n with OnAdd _ => true | OnDelete _ => false end.

Definition isOnDelete (n : Notification) : bool :=
  match n with OnAdd _ => false | OnDelete _ => true end.

(** Two sets with the same values, in whatever order. *)
Definition sameValues (a b : DistributedSet) : Prop :=
  forall x, In x (entries a) <-> In x (entries b).
End Values.

Arguments Op : clear implicits.
Arguments Notification : clear implicits.
Arguments DistributedSet : clear implicits.
Arguments SetCall : clear implicits.

End DistributedSet.

(** ** The in-memory database (class [DB]) *)

Module Db.

(** A [Collection] object, by its identity; the class is declared in another
    file. [collections] is the [Map] in insertion order; [created] counts the
    collections constructed so far, so that the next one gets a new identity. *)
Record DB := {
  collections : list (string * positive);
  created : positive
}.

Definition new : DB := {| collections := []; created := 1%positive |}.

(** [collections.get(name)] *)
Fixpoint get (name : string) (m : list (string * positive)) : option positive :=
  match m with
  | [] => None
  | (k, v) :: rest => if String.eqb k name then Some v else get name rest
  end.

(** [collection(name)], with the collection it returns. *)
Definition collection (name : string) (db : DB) : positive * DB :=
  match get name (collections db) with
  | Some c => (c, db)
  | None =>
      let c := created db in
      (c, {| collections := collections db ++ [(name, c)];
             created := Pos.succ c |})
  end.

Definition run (names : list string) (db : DB) : DB :=
  fold_left (fun db name => snd (collection name db)) names db.

(** The collections of a database are below [created], one per name. *)
Definition wellFormed (db : DB) : Prop :=
  (forall n c, get n (collections db) = Some c -> (c < created db)%positive)
  /\ (forall n1 n2 c,
        get n1 (collections db) = Some c -> get n2 (collections db) = Some c -> n1 = n2).

End Db.

(** ** The gateway route that loads a document *)

Module Gateway.
Import Ascii.

(** [s.indexOf(c)] and [s.lastIndexOf(c)] for a string [c] of one code unit;
    [i] is the index of the first code unit of [s]. *)
Fixpoint indexOfFrom (c : Ascii.ascii) (i : Z) (s : string) : Z :=
  match s with
  | EmptyString => -1
  | String x rest => if Ascii.eqb x c then i else indexOfFrom c (i + 1) rest
  end.


Definition indexOf (c : Ascii.ascii) (s : string) : Z := indexOfFrom c 0 s.

(** [s.substring(start, end)] and [s.substring(start)] on indices in range. *)
Definition substring (start finish : Z) (s : string) : string :=
  String.substring (Z.to_nat start) (Z.to_nat (finish - start)) s.

Definition length (s : string) : Z := Z.of_nat (String.length s).




(** [rawPath] cut at its first slash: [documentId] and [path]. *)
Definition documentIdOf (rawPath : string) : string :=
  let slash := indexOf "/"%char rawPath in
  substring 0 (if negb (slash =? -1) then slash else length rawPath) rawPath.

Definition pathOf (rawPath : string) : string :=
  let slash := indexOf "/"%char rawPath in
  substring (if negb (slash =? -1) then slash else length rawPath) (length rawPath)
    rawPath.





(** The number of code units [c] in [s]. *)
Fixpoint occurrences (c : Ascii.ascii) (s : string) : nat :=
  match s with
  | EmptyString => 0%nat
  | String x rest => ((if Ascii.eqb x c then 1 else 0) + occurrences c rest)%nat
  end.

End Gateway.

(** ** Scenarios

    Concrete managers and trackers used to exercise the statements below. *)

Module Scenarios.
Import DeltaManager.

Definition someDetails : IConnectionDetails :=
  {| detailsClientId := "client-1"; detailsMode := Some ModeWrite;
     initialMessages := []; initialSignals := [] |}.

Definition op (seq : Z) : Seq.t :=
  Seq.mk seq 0 "client-2" seq Operation (Some "{}").

(** A browser client whose handler was attached with [resume = true]: the
    fetch started by [attachOpHandler] is in flight. *)
Definition attached : DeltaManager :=
  snd (attachOpHandler 0 0 "handler" true (new Browser ModeWrite true)).

(** A manager of the given client type after [connect] and a successful
    first attempt. *)
Definition connected (clientType : string) : DeltaManager :=
  let s := snd (connect "DocumentOpen" (new clientType ModeWrite true)) in
  match attemptSucceeds 0 someDetails s with
  | Some s => s
  | None => s
  end.

(** The connection of [connected]. *)
Definition liveConnection : DeltaConnection :=
  {| connId := 2%positive; details := someDetails |}.

(** A browser client, once connected, whose socket then disconnected: the
    reconnect attempt started by [reconnectOnError] is in flight. *)
Definition reconnecting : DeltaManager :=
  onDisconnect liveConnection "transport close" (connected Browser).

(** A connected browser client in the quorum. *)
Definition writer : DeltaManager := updateQuorumJoin (connected Browser).

(** A tracker that has learned epoch A, for a file with one cached entry. *)
Definition someFile : EpochTracker.IFileEntry :=
  {| EpochTracker.docId := "doc"; EpochTracker.resolvedUrl := "https://host/doc" |}.

Definition someCache : list (EpochTracker.ICacheEntry * EpochTracker.CachedValue) :=
  [({| EpochTracker.file := someFile; EpochTracker.entryType := "snapshot";
       EpochTracker.key := "latest" |},
    {| EpochTracker.valueFluidEpoch := Some "A"; EpochTracker.value := "tree" |})].

Definition learned : EpochTracker.EpochTracker :=
  {| EpochTracker.fluidEpoch := Some "A";
     EpochTracker.fileEntry := Some someFile;
     EpochTracker.persistedCache := someCache;
     EpochTracker.logger := [] |}.

(** A tracker that has not met a response yet. *)
Definition fresh : EpochTracker.EpochTracker :=
  {| EpochTracker.fluidEpoch := None;
     EpochTracker.fileEntry := Some someFile;
     EpochTracker.persistedCache := someCache;
     EpochTracker.logger := [] |}.

(** A redemption tracker whose [treesLatest] call has not completed. *)
Definition redeeming : EpochTracker.EpochTrackerWithRedemption :=
  {| EpochTracker.tracker := fresh;
     EpochTracker.treesLatestDeferral := EpochTracker.DeferredPending |}.

(** The error a server reports for an epoch mismatch, and a 404. *)
Definition serverEpochError : EpochTracker.TrackerError :=
  EpochTracker.NetworkError (Some EpochTracker.epochVersionMismatch) (Some 409)
    (Some "epoch changed").

Definition notFound : EpochTracker.TrackerError :=
  EpochTracker.NetworkError None (Some 404) (Some "not found").

End Scenarios.

(** ** Properties of the delta manager *)

Module DeltaManagerFacts.
Import DeltaManager.

(** *** Ordering of inbound messages *)

Lemma enqueueMessage_handler (m : Seq.t) (s : DeltaManager) :
  handler (enqueueMessage m s) = handler s.
Proof.
  unfold enqueueMessage, handleOutOfOrderMessage, fetchMissingDeltas.
  destruct (negb _); [| reflexivity].
  destruct (_ <=? _); [reflexivity |].
  cbn. destruct (fetching s); [reflexivity |].
  destruct (closed s); reflexivity.
Qed.

Lemma enqueueMessages_attached (messages : list Seq.t) (s : DeltaManager) (h : string) :
  handler s = Some h ->
  enqueueMessages messages s = fold_left (fun s m => enqueueMessage m s) messages s.
Proof. intros H. unfold enqueueMessages. now rewrite H. Qed.

Lemma enqueueMessages_cons (m : Seq.t) (rest : list Seq.t) (s : DeltaManager) (h : string) :
  handler s = Some h ->
  enqueueMessages (m :: rest) s = enqueueMessages rest (enqueueMessage m s).
Proof.
  intros H. unfold enqueueMessages.
  rewrite enqueueMessage_handler, H. reflexivity.
Qed.

(** The in-order case. *)
Lemma enqueueMessage_in_order (m : Seq.t) (s : DeltaManager) :
  Seq.sequenceNumber m = lastQueuedSequenceNumber s + 1 ->
  enqueueMessage m s =
    set_inbound (push m (inbound s))
      (set_lastQueuedSequenceNumber (Seq.sequenceNumber m) s).
Proof.
  intros H. unfold enqueueMessage.
  rewrite (proj2 (Z.eqb_eq _ _) H). reflexivity.
Qed.

(** The gap case. *)
Lemma enqueueMessage_gap (m : Seq.t) (s : DeltaManager) :
  Seq.sequenceNumber m > lastQueuedSequenceNumber s + 1 ->
  enqueueMessage m s =
    fetchMissingDeltas "OutOfOrderMessage" (lastQueuedSequenceNumber s)
      (Some (Seq.sequenceNumber m)) (set_pending (pending s ++ [m]) s).
Proof.
  intros H. unfold enqueueMessage, handleOutOfOrderMessage.
  destruct (Z.eqb_spec (Seq.sequenceNumber m) (lastQueuedSequenceNumber s + 1)); [lia |].
  destruct (Z.leb_spec (Seq.sequenceNumber m) (lastQueuedSequenceNumber s)); [lia |].
  reflexivity.
Qed.

(** The duplicate case. *)
Lemma enqueueMessage_duplicate (m : Seq.t) (s : DeltaManager) :
  Seq.sequenceNumber m <= lastQueuedSequenceNumber s ->
  enqueueMessage m s =
    sendTelemetryEvent "DuplicateMessage"
      [("lastQueued", lastQueuedSequenceNumber s);
       ("sequenceNumber", Seq.sequenceNumber m);
       ("totalDuplicateMessages", duplicateMsgCount s + 1)]
      (set_duplicateMsgCount (duplicateMsgCount s + 1) s).
Proof.
  intros H. unfold enqueueMessage, handleOutOfOrderMessage.
  destruct (Z.eqb_spec (Seq.sequenceNumber m) (lastQueuedSequenceNumber s + 1)); [lia |].
  destruct (Z.leb_spec (Seq.sequenceNumber m) (lastQueuedSequenceNumber s)); [| lia].
  reflexivity.
Qed.

(** What [fetchMissingDeltas] starts. *)
Lemma fetchMissingDeltas_starts (suffix : string) (from : Z) (to : option Z)
    (s : DeltaManager) :
  rt_getDeltas (fetchMissingDeltas suffix from to s) =
    if fetching s || closed s then rt_getDeltas s
    else rt_getDeltas s ++
           [{| telemetryEventSuffix := suffix; fromInitial := from; to := to |}].
Proof.
  unfold fetchMissingDeltas.
  destruct (fetching s); [reflexivity |].
  destruct (closed s); reflexivity.
Qed.

(** C1, as the code has it. With a handler attached, [enqueueMessages] passes
    the messages one by one, in order, to the loop body, and for every message
    exactly one of three cases applies, by its sequence number [seq] against
    [lastQueuedSequenceNumber]:
    - [seq = last + 1]: [lastQueuedSequenceNumber] becomes [seq] and the
      message is pushed onto the inbound queue;
    - [seq > last + 1]: the message is appended to [pending] and
      [fetchMissingDeltas] is called for the open range [(last, seq)]; that
      call starts a [getDeltas] fetch exactly when no fetch is already in
      flight and the manager is not closed, and otherwise starts nothing;
    - [seq <= last]: the message is dropped and the duplicate counter grows
      by one. *)
Theorem enqueueMessages_three_cases (messages : list Seq.t) (s0 : DeltaManager)
    (h : string) :
  handler s0 = Some h ->
  enqueueMessages messages s0 = fold_left (fun s m => enqueueMessage m s) messages s0
  /\ forall (m : Seq.t) (s : DeltaManager),
       let seq := Seq.sequenceNumber m in
       let last := lastQueuedSequenceNumber s in
       let s' := enqueueMessage m s in
       (seq = last + 1 ->
          lastQueuedSequenceNumber s' = seq
          /\ items (inbound s') = items (inbound s) ++ [m]
          /\ pending s' = pending s
          /\ duplicateMsgCount s' = duplicateMsgCount s
          /\ rt_getDeltas s' = rt_getDeltas s)
       /\ (seq > last + 1 ->
          pending s' = pending s ++ [m]
          /\ s' = fetchMissingDeltas "OutOfOrderMessage" last (Some seq)
                    (set_pending (pending s ++ [m]) s)
          /\ rt_getDeltas s' =
               (if fetching s || closed s then rt_getDeltas s
                else rt_getDeltas s ++
                       [{| telemetryEventSuffix := "OutOfOrderMessage";
                           fromInitial := last; to := Some seq |}])
          /\ lastQueuedSequenceNumber s' = last
          /\ items (inbound s') = items (inbound s)
          /\ duplicateMsgCount s' = duplicateMsgCount s)
       /\ (seq <= last ->
          duplicateMsgCount s' = duplicateMsgCount s + 1
          /\ pending s' = pending s
          /\ lastQueuedSequenceNumber s' = last
          /\ items (inbound s') = items (inbound s)
          /\ rt_getDeltas s' = rt_getDeltas s)
       /\ ((seq = last + 1 /\ ~ seq > last + 1 /\ ~ seq <= last)
           \/ (~ seq = last + 1 /\ seq > last + 1 /\ ~ seq <= last)
           \/ (~ seq = last + 1 /\ ~ seq > last + 1 /\ seq <= last)).
Proof.
  intros Hh. split; [exact (enqueueMessages_attached messages s0 h Hh) |].
  intros m s seq last s'. subst seq last s'.
  split; [| split; [| split]].
  - intros H. rewrite (enqueueMessage_in_order m s H). cbn. repeat split.
  - intros H. rewrite (enqueueMessage_gap m s H).
    repeat split.
    + unfold fetchMissingDeltas. cbn.
      destruct (fetching s); [reflexivity |]. destruct (closed s); reflexivity.
    + rewrite fetchMissingDeltas_starts. reflexivity.
    + unfold fetchMissingDeltas. cbn.
      destruct (fetching s); [reflexivity |]. destruct (closed s); reflexivity.
    + unfold fetchMissingDeltas. cbn.
      destruct (fetching s); [reflexivity |]. destruct (closed s); reflexivity.
    + unfold fetchMissingDeltas. cbn.
      destruct (fetching s); [reflexivity |]. destruct (closed s); reflexivity.
  - intros H. rewrite (enqueueMessage_duplicate m s H). cbn. repeat split.
  - lia.
Qed.

(** The theorem on a concrete run: an attached manager meets message 1 (in
    order), then 3 (a gap, while the initial fetch is in flight). *)
Lemma enqueueMessages_three_cases_witness :
  handler Scenarios.attached = Some "handler"
  /\ enqueueMessages [Scenarios.op 1; Scenarios.op 3] Scenarios.attached =
       fold_left (fun s m => enqueueMessage m s) [Scenarios.op 1; Scenarios.op 3]
         Scenarios.attached.
Proof.
  split; [reflexivity |].
  exact (proj1 (enqueueMessages_three_cases [Scenarios.op 1; Scenarios.op 3]
                  Scenarios.attached "handler" eq_refl)).
Defined.

(** C1 as stated fails: a handler is attached and message 2 arrives while
    [lastQueuedSequenceNumber] is 0, so it opens a gap; it is appended to
    [pending], but no fetch for the range (0, 2) is started, because the fetch
    begun by [attachOpHandler] is still in flight. *)
Lemma gap_message_while_fetching_starts_no_fetch :
  handler Scenarios.attached = Some "handler"
  /\ lastQueuedSequenceNumber Scenarios.attached = 0
  /\ Seq.sequenceNumber (Scenarios.op 2) > lastQueuedSequenceNumber Scenarios.attached + 1
  /\ pending (enqueueMessages [Scenarios.op 2] Scenarios.attached) = [Scenarios.op 2]
  /\ rt_getDeltas (enqueueMessages [Scenarios.op 2] Scenarios.attached) =
       rt_getDeltas Scenarios.attached
  /\ rt_getDeltas Scenarios.attached =
       [{| telemetryEventSuffix := "DocumentOpen"; fromInitial := 0; to := None |}].
Proof. vm_compute. repeat split. Qed.

(** *** The delta storage fetcher *)

Lemma close_closed (s : DeltaManager) : closed (close s) = true.
Proof.
  unfold close, stopSequenceNumberUpdate. cbn.
  destruct (updateSequenceNumberTimer s); cbn;
    destruct (connection s); cbn; destruct (connecting s); reflexivity.
Qed.

(** [closeOnConnectionError] throws exactly when it has an error to emit
    and the listeners are gone; otherwise it closes the manager. *)
Lemma closeOnConnectionError_cases (error : JsError) (s : DeltaManager) :
  closeOnConnectionError error s =
    if truthy_error error && negb (hasListeners s)
    then (Throw error,
          match connecting s with
          | Some d => set_connecting None (settle d (Rejected error) s)
          | None => s
          end)
    else (Normal tt,
          close (if truthy_error error
                 then emit (EvError error)
                        match connecting s with
                        | Some d => set_connecting None (settle d (Rejected error) s)
                        | None => s
                        end
                 else match connecting s with
                      | Some d => set_connecting None (settle d (Rejected error) s)
                      | None => s
                      end)).
Proof.
  unfold closeOnConnectionError, emitError. cbv zeta.
  assert (E : hasListeners match connecting s with
                           | Some d => set_connecting None (settle d (Rejected error) s)
                           | None => s
                           end = hasListeners s)
    by (destruct (connecting s); reflexivity).
  rewrite E.
  destruct (truthy_error error); cbn [andb]; [| reflexivity].
  destruct (hasListeners s); cbn [negb]; reflexivity.
Qed.

(** A manager that is not closed has listeners; [close] leaves none. *)
Lemma hasListeners_open (s : DeltaManager) :
  closed s = false -> hasListeners s = true.
Proof. unfold hasListeners. intros ->. reflexivity. Qed.

Lemma close_listenersRemoved (s : DeltaManager) : rt_listenersRemoved (close s) = true.
Proof. reflexivity. Qed.

Lemma close_removes_listeners (s : DeltaManager) : hasListeners (close s) = false.
Proof.
  unfold hasListeners. rewrite close_closed, close_listenersRemoved. reflexivity.
Qed.

Lemma hasListeners_closed (s : DeltaManager) :
  hasListeners s = false -> closed s = true.
Proof. unfold hasListeners. destruct (closed s); [reflexivity | discriminate]. Qed.

Lemma closeOnConnectionError_closed (error : JsError) (s : DeltaManager) :
  closed (snd (closeOnConnectionError error s)) = true.
Proof.
  rewrite closeOnConnectionError_cases.
  destruct (truthy_error error); cbn [andb]; [| apply close_closed].
  destruct (hasListeners s) eqn:E; cbn [negb snd]; [apply close_closed |].
  apply hasListeners_closed in E. destruct (connecting s); exact E.
Qed.

Lemma getDeltasLoop_closed (to : option Z) (script : list Round) (l : GetDeltasLocals)
    (s : DeltaManager) :
  closed s = true ->
  getDeltasLoop to script l s =
    (Fulfilled [],
     emitDelayInfo DELTASTORAGE (-1)
       (sendTelemetryEvent "GetDeltasClosedConnection" [] s)).
Proof. intros H. destruct script; cbn; rewrite H; reflexivity. Qed.

(** The iteration on a batch, by the test of the [if] statement. *)
Lemma getDeltasIteration_batch (to : option Z) (l : GetDeltasLocals)
    (deltas : list Seq.t) (s : DeltaManager) :
  fst (getDeltasIteration to l (GetReturns deltas) s) =
    if match to with
       | None => lastFetchOf deltas (from l) <? maxFetchTo l - 1
       | Some t => t - 1 <=? lastFetchOf deltas (from l)
       end
    then Normal (Returns (allDeltas l ++ deltas))
    else
      Normal
        (Sleeps 0
           {| retry := if Z.of_nat (List.length deltas) =? 0 then retry l + 1 else 0;
              from := lastFetchOf deltas (from l);
              allDeltas := allDeltas l ++ deltas |}).
Proof.
  unfold getDeltasIteration, tryBlock.
  destruct (match to with None => _ | Some t => _ end); reflexivity.
Qed.



(** The delay of an iteration that goes on, in all cases: [retryAfter] starts
    at 0 and is only overwritten by [error.retryAfterSeconds], so the
    exponential branch is taken only for a negative [retryAfterSeconds]. *)
Lemma afterTry_delay (l : GetDeltasLocals) (n : Z) (success : bool) (retryAfter : Z)
    (s : DeltaManager) :
  exists l',
    fst (afterTry l n success retryAfter s) =
      Sleeps (if 0 <=? retryAfter then retryAfter
              else Z.min MaxFetchDelay
                     (if negb (retry l' =? 0) then MissingFetchDelay * 2 ^ retry l' else 0))
             l'
    /\ retry l' = (if n =? 0 then retry l + 1 else 0).
Proof.
  exists {| retry := if n =? 0 then retry l + 1 else 0;
            from := from l; allDeltas := allDeltas l |}.
  split; reflexivity.
Qed.

(** The retry counter after an iteration on a batch that does not end the
    call: zero when the batch held a delta, one more otherwise. *)
Lemma getDeltasIteration_retry_counter (to : option Z) (l : GetDeltasLocals)
    (deltas : list Seq.t) (s : DeltaManager) (delay : Z) (l' : GetDeltasLocals) :
  fst (getDeltasIteration to l (GetReturns deltas) s) = Normal (Sleeps delay l') ->
  retry l' = match deltas with [] => retry l + 1 | _ :: _ => 0 end.
Proof.
  rewrite getDeltasIteration_batch.
  destruct (match to with None => _ | Some t => _ end); [discriminate |].
  intros H. injection H as _ <-. cbn [retry].
  destruct deltas; reflexivity.
Qed.

(** The counter on a bounded fetch of (0, 10) after four empty rounds: a
    batch of two deltas resets it. *)
Lemma getDeltasIteration_retry_counter_witness :
  retry {| retry := 0; from := 2; allDeltas := [Scenarios.op 1; Scenarios.op 2] |} =
    match [Scenarios.op 1; Scenarios.op 2] with
    | [] => retry {| retry := 4; from := 0; allDeltas := [] |} + 1
    | _ :: _ => 0
    end.
Proof.
  apply (getDeltasIteration_retry_counter (Some 10)
           {| retry := 4; from := 0; allDeltas := [] |}
           [Scenarios.op 1; Scenarios.op 2] Scenarios.attached 0).
  vm_compute. reflexivity.
Defined.

(** A caught error that carries a non-negative [retryAfterSeconds] (and can
    be retried) sets the delay. *)
Lemma getDeltasIteration_retryAfter (to : option Z) (l : GetDeltasLocals)
    (canRetry : option bool) (retryAfterSeconds : Z) (s : DeltaManager) :
  canRetryOnError (ErrObject canRetry (Some retryAfterSeconds)) = true ->
  0 <= retryAfterSeconds ->
  fst (getDeltasIteration to l
         (GetRejects (ErrObject canRetry (Some retryAfterSeconds))) s) =
    Normal (Sleeps retryAfterSeconds
              {| retry := retry l + 1; from := from l; allDeltas := allDeltas l |}).
Proof.
  intros Hc Hr. unfold getDeltasIteration, tryBlock.
  cbn [negb orb]. rewrite Hc. cbn [negb].
  unfold afterTry. cbn [fst Z.eqb].
  destruct (Z.leb_spec 0 retryAfterSeconds); [reflexivity | lia].
Qed.

(** A throttled fetch: the error asks for 5, the next attempt waits 5. *)
Lemma getDeltasIteration_retryAfter_witness :
  fst (getDeltasIteration None {| retry := 0; from := 0; allDeltas := [] |}
         (GetRejects (ErrObject None (Some 5))) Scenarios.attached) =
    Normal (Sleeps 5
              {| retry := retry {| retry := 0; from := 0; allDeltas := [] |} + 1;
                 from := from {| retry := 0; from := 0; allDeltas := [] |};
                 allDeltas := allDeltas {| retry := 0; from := 0; allDeltas := [] |} |}).
Proof.
  apply (getDeltasIteration_retryAfter None
           {| retry := 0; from := 0; allDeltas := [] |} None 5 Scenarios.attached).
  - reflexivity.
  - lia.
Defined.

(** C2, the code at the failing input. A bounded fetch of (0, 10) whose third
    batch in a row comes back empty (the retry counter goes from 2 to 3), with
    no error at all: the code sleeps 0 ms before the next attempt, where the
    claim has [min(10000, 100 * 2^3) = 800] ms. The same holds for a caught
    error without [retryAfterSeconds]. *)
Theorem getDeltas_backoff_delay_is_zero :
  fst (getDeltasIteration (Some 10) {| retry := 2; from := 0; allDeltas := [] |}
         (GetReturns []) Scenarios.attached)
    = Normal (Sleeps 0 {| retry := 3; from := 0; allDeltas := [] |})
  /\ fst (getDeltasIteration (Some 10) {| retry := 2; from := 0; allDeltas := [] |}
            (GetRejects (ErrObject None None)) Scenarios.attached)
    = Normal (Sleeps 0 {| retry := 3; from := 0; allDeltas := [] |})
  /\ Z.min MaxFetchDelay (MissingFetchDelay * 2 ^ 3) = 800.
Proof. repeat split. Qed.

(** Whatever the retry counter, an iteration that ends on an empty batch or
    on a retryable error without [retryAfterSeconds] sleeps 0 ms. *)
Lemma getDeltas_backoff_never_applies (to : option Z) (l : GetDeltasLocals)
    (canRetry : option bool) (s : DeltaManager) (delay : Z) (l' : GetDeltasLocals) :
  fst (getDeltasIteration to l (GetReturns []) s) = Normal (Sleeps delay l')
  \/ fst (getDeltasIteration to l (GetRejects (ErrObject canRetry None)) s)
       = Normal (Sleeps delay l') ->
  delay = 0 /\ retry l' = retry l + 1.
Proof.
  intros [H | H].
  - rewrite getDeltasIteration_batch in H.
    destruct (match to with None => _ | Some t => _ end); [discriminate |].
    injection H as <- <-. split; reflexivity.
  - unfold getDeltasIteration, tryBlock in H. cbn [negb orb] in H.
    destruct (negb (canRetryOnError (ErrObject canRetry None))).
    + destruct (closeOnConnectionError _ _) as [[u | e] s']; discriminate.
    + cbn in H. injection H as <- <-. split; reflexivity.
Qed.

(** C10, the code at the failing input. The manager is closed while the
    request to the delta storage is in flight ([close()] removes the
    listeners), and the request then fails with an error that cannot be
    retried: the [catch] clause calls [closeOnConnectionError], whose
    [emit("error", error)] finds no listener and throws, so the promise of
    [getDeltas] is rejected with the error where the claim has it resolve
    with the empty array. The same failure on a manager that was not closed
    in between does what the claim says: the manager is closed and the
    promise resolves with the empty array. *)
Theorem getDeltas_rejects_after_close :
  fst (getDeltas "DocumentOpen" 0 None
         [{| closedWhileFetching := true;
             outcome := GetRejects (ErrObject (Some false) None);
             closedWhileSleeping := false |}]
         Scenarios.attached)
  = RejectedWith (ErrObject (Some false) None)
  /\ fst (getDeltas "DocumentOpen" 0 None
            [{| closedWhileFetching := true;
                outcome := ConnectToStorageRejects (ErrObject None None);
                closedWhileSleeping := false |}]
            Scenarios.attached)
     = RejectedWith (ErrObject None None)
  /\ fst (getDeltas "DocumentOpen" 0 None
            [{| closedWhileFetching := false;
                outcome := GetRejects (ErrObject (Some false) None);
                closedWhileSleeping := false |}]
            Scenarios.attached)
     = Fulfilled []
  /\ closed (snd (getDeltas "DocumentOpen" 0 None
                    [{| closedWhileFetching := false;
                        outcome := GetRejects (ErrObject (Some false) None);
                        closedWhileSleeping := false |}]
                    Scenarios.attached))
     = true.
Proof. vm_compute. repeat split. Qed.

(** *** The connection controller *)

(** [reconnectOnError] on the manager's current connection. *)
Lemma reconnectOnError_current (reason : string) (c : DeltaConnection)
    (mode : ConnectionMode) (error : JsError) (s : DeltaManager) :
  connection s = Some c ->
  reconnectOnError reason c mode error s =
    let s1 := set_connection None s in
    let s2 := set_connectionMode ModeRead s1 in
    let s3 := set_outbound (systemPause (outbound s2)) s2 in
    let s4 := set_outbound (clear (outbound s3)) s3 in
    let s5 := emit (EvDisconnect reason) s4 in
    let s6 := closeConnection c s5 in
    if String.eqb (clientType s) Browser && reconnect s && negb (closed s)
       && canRetryOnError error
    then connectCore reason InitialReconnectDelay mode
           (sendTelemetryEvent "DeltaConnectionReconnect" [] s6)
    else snd (closeOnConnectionError error s6).
Proof.
  intros H. unfold reconnectOnError. rewrite H, Pos.eqb_refl. cbv zeta.
  change (clientType (closeConnection c _)) with (clientType s).
  change (reconnect (closeConnection c _)) with (reconnect s).
  change (closed (closeConnection c _)) with (closed s).
  destruct (String.eqb (clientType s) Browser), (reconnect s), (closed s),
    (canRetryOnError error); cbn [negb orb andb]; reflexivity.
Qed.

(** A connection that is not the current one is ignored. *)
Lemma reconnectOnError_stale (reason : string) (c : DeltaConnection)
    (mode : ConnectionMode) (error : JsError) (s : DeltaManager) :
  (forall current, connection s = Some current -> connId current <> connId c) ->
  reconnectOnError reason c mode error s = s.
Proof.
  intros H. unfold reconnectOnError.
  destruct (connection s) as [current |]; [| reflexivity].
  destruct (Pos.eqb_spec (connId c) (connId current)) as [E | E]; [| reflexivity].
  exfalso. apply (H current eq_refl). symmetry. exact E.
Qed.

(** An event of a connection the manager has already replaced: nothing
    happens. *)
Lemma reconnectOnError_stale_witness :
  reconnectOnError "Reconnecting on error"
    {| connId := 7; details := Scenarios.someDetails |} ModeWrite ErrUndefined
    (Scenarios.connected Browser)
  = Scenarios.connected Browser.
Proof.
  apply reconnectOnError_stale.
  intros current H.
  assert (E : connection (Scenarios.connected Browser) = Some Scenarios.liveConnection)
    by (vm_compute; reflexivity).
  rewrite E in H. injection H as <-. discriminate.
Defined.

Lemma close_fields (s : DeltaManager) :
  closed (close s) = true
  /\ connection (close s) = None
  /\ connectionMode (close s) = connectionMode s
  /\ paused (outbound (close s)) = paused (outbound s)
  /\ items (outbound (close s)) = []
  /\ rt_attempts (close s) = rt_attempts s
  /\ rt_emitted (close s) = rt_emitted s
  /\ rt_closedConnections (close s) =
       match connection s with
       | Some c => rt_closedConnections s ++ [connId c]
       | None => rt_closedConnections s
       end.
Proof.
  destruct s as [];
    match goal with
    | |- context [Build_DeltaManager _ _ _ _ _ _ _ ?t _ _ _ _ _ _ _ ?g ?c] =>
        destruct t, g, c
    end; repeat split.
Qed.

Lemma closeOnConnectionError_fields (error : JsError) (s : DeltaManager) :
  let s' := snd (closeOnConnectionError error s) in
  closed s' = true
  /\ (connection s = None -> connection s' = None)
  /\ connectionMode s' = connectionMode s
  /\ paused (outbound s') = paused (outbound s)
  /\ (items (outbound s) = [] -> items (outbound s') = [])
  /\ rt_attempts s' = rt_attempts s
  /\ (forall e, In e (rt_emitted s) -> In e (rt_emitted s'))
  /\ (forall x, In x (rt_closedConnections s) -> In x (rt_closedConnections s')).
Proof.
  cbv zeta. rewrite closeOnConnectionError_cases.
  destruct (truthy_error error) eqn:Et; cbn [andb].
  - destruct (hasListeners s) eqn:Ec; cbn [negb snd].
    + match goal with
      | |- context [close ?x] =>
          destruct (close_fields x) as (G1 & G2 & G3 & G4 & G5 & G6 & G7 & G8);
          rewrite G1, G2, G3, G4, G5, G6, G7, G8
      end.
      destruct (connecting s); cbn; destruct (connection s); repeat split; intros;
        try discriminate; repeat (apply in_or_app; left); assumption.
    + apply hasListeners_closed in Ec.
      destruct (connecting s); repeat split; auto.
  - cbn [snd].
    match goal with
    | |- context [close ?x] =>
        destruct (close_fields x) as (G1 & G2 & G3 & G4 & G5 & G6 & G7 & G8);
        rewrite G1, G2, G3, G4, G5, G6, G7, G8
    end.
    destruct (connecting s); cbn; destruct (connection s); repeat split; intros;
      try discriminate; try (apply in_or_app; left); assumption.
Qed.

Lemma connectCore_open (reason : string) (delay : Z) (mode : ConnectionMode)
    (s : DeltaManager) :
  closed s = false ->
  connectCore reason delay mode s =
    set_rt_attempts (rt_attempts s ++ [Connecting reason delay mode])
      (set_connectRepeatCount (connectRepeatCount s + 1) s).
Proof. intros H. unfold connectCore. rewrite H. reflexivity. Qed.

(** The state [reconnectOnError] reaches before it decides whether to
    reconnect. *)
Lemma reconnectOnError_observed (reason : string) (c : DeltaConnection)
    (mode : ConnectionMode) (error : JsError) (s : DeltaManager) :
  connection s = Some c ->
  exists s6,
    reconnectOnError reason c mode error s =
      (if String.eqb (clientType s) Browser && reconnect s && negb (closed s)
          && canRetryOnError error
       then connectCore reason InitialReconnectDelay mode
              (sendTelemetryEvent "DeltaConnectionReconnect" [] s6)
       else snd (closeOnConnectionError error s6))
    /\ connection s6 = None
    /\ connectionMode s6 = ModeRead
    /\ paused (outbound s6) = true
    /\ items (outbound s6) = []
    /\ rt_emitted s6 = rt_emitted s ++ [EvDisconnect reason]
    /\ rt_closedConnections s6 = rt_closedConnections s ++ [connId c]
    /\ closed s6 = closed s
    /\ rt_attempts s6 = rt_attempts s.
Proof.
  intros H. eexists. split.
  - rewrite (reconnectOnError_current reason c mode error s H). cbv zeta. reflexivity.
  - repeat split.
Qed.

(** C4, as the code has it. When the current connection emits [disconnect]
    or [error], the manager clears its connection reference, sets
    [connectionMode] to read, pauses and clears the outbound queue, emits
    [disconnect(reason)] and closes the underlying connection. It then starts
    the connect ladder again, at [InitialReconnectDelay] and in the system
    connection mode, exactly when the client type is [Browser], [reconnect] is
    enabled, the manager is not closed and [canRetryOnError(error)] holds;
    otherwise it closes the manager. *)
Theorem reconnect_on_disconnect_or_error (c : DeltaConnection) (s s' : DeltaManager)
    (disconnectReason reason : string) (error : JsError) :
  connection s = Some c ->
  (s' = onDisconnect c disconnectReason s
   /\ error = ErrUndefined
   /\ reason = ("Reconnecting on disconnect: " ++ disconnectReason)%string)
  \/ (s' = onError c error s /\ reason = "Reconnecting on error") ->
  let restart :=
    String.eqb (clientType s) Browser && reconnect s && negb (closed s)
    && canRetryOnError error in
  connection s' = None
  /\ connectionMode s' = ModeRead
  /\ paused (outbound s') = true
  /\ items (outbound s') = []
  /\ In (EvDisconnect reason) (rt_emitted s')
  /\ In (connId c) (rt_closedConnections s')
  /\ (restart = true ->
        closed s' = false
        /\ rt_attempts s' =
             rt_attempts s ++
               [Connecting reason InitialReconnectDelay (systemConnectionMode s)])
  /\ (restart = false -> closed s' = true /\ rt_attempts s' = rt_attempts s).
Proof.
  intros Hc Hs' restart.
  assert (Hr : exists s0,
             s' = reconnectOnError reason c (systemConnectionMode s) error s0
             /\ connection s0 = Some c /\ clientType s0 = clientType s
             /\ reconnect s0 = reconnect s /\ closed s0 = closed s
             /\ rt_attempts s0 = rt_attempts s).
  { destruct Hs' as [(-> & -> & ->) | (-> & ->)].
    - exists s. repeat split; assumption.
    - exists (sendTelemetryEvent "DeltaConnectionError" [] s). repeat split; assumption. }
  destruct Hr as (s0 & -> & Hc0 & Hct & Hre & Hcl & Hat).
  destruct (reconnectOnError_observed reason c (systemConnectionMode s) error s0 Hc0)
    as (s6 & -> & F1 & F2 & F3 & F4 & F5 & F6 & F7 & F8).
  subst restart. rewrite <- Hct, <- Hre, <- Hcl, <- Hat.
  generalize (systemConnectionMode s). intros mode.
  clear Hct Hre Hcl Hat Hc Hs' s.
  destruct (String.eqb (clientType s0) Browser && reconnect s0 && negb (closed s0)
            && canRetryOnError error) eqn:Hrestart.
  - assert (Hclosed : closed s0 = false).
    { destruct (closed s0); [| reflexivity].
      rewrite !andb_false_r in Hrestart. discriminate. }
    rewrite connectCore_open by (rewrite <- Hclosed, <- F7; reflexivity).
    cbn [connection connectionMode outbound rt_emitted rt_closedConnections closed
         rt_attempts set_rt_attempts set_connectRepeatCount sendTelemetryEvent
         set_rt_telemetry].
    rewrite F1, F2, F3, F4, F5, F6, F7, F8, Hclosed.
    repeat split; try discriminate.
    + apply in_or_app. right. left. reflexivity.
    + apply in_or_app. right. left. reflexivity.
  - destruct (closeOnConnectionError_fields error s6)
      as (G1 & G2 & G3 & G4 & G5 & G6 & G7 & G8).
    rewrite G1, G3, G4, G6, F2, F3, F8.
    repeat split; try discriminate.
    + exact (G2 F1).
    + exact (G5 F4).
    + apply G7. rewrite F5. apply in_or_app. right. left. reflexivity.
    + apply G8. rewrite F6. apply in_or_app. right. left. reflexivity.
Qed.

(** The theorem on a connected browser client whose socket disconnects. *)
Lemma reconnect_on_disconnect_or_error_witness :
  connection (Scenarios.connected Browser) = Some Scenarios.liveConnection
  /\ closed (onDisconnect Scenarios.liveConnection "transport close"
               (Scenarios.connected Browser)) = false
  /\ rt_attempts (onDisconnect Scenarios.liveConnection "transport close"
                    (Scenarios.connected Browser)) =
       rt_attempts (Scenarios.connected Browser) ++
         [Connecting "Reconnecting on disconnect: transport close"
            InitialReconnectDelay
            (systemConnectionMode (Scenarios.connected Browser))].
Proof.
  assert (H1 : connection (Scenarios.connected Browser) = Some Scenarios.liveConnection)
    by (vm_compute; reflexivity).
  assert (H2 : String.eqb (clientType (Scenarios.connected Browser)) Browser
               && reconnect (Scenarios.connected Browser)
               && negb (closed (Scenarios.connected Browser))
               && canRetryOnError ErrUndefined = true)
    by (vm_compute; reflexivity).
  split; [exact H1 |].
  pose proof (reconnect_on_disconnect_or_error Scenarios.liveConnection
                (Scenarios.connected Browser) _ "transport close" _ ErrUndefined H1
                (or_introl (conj eq_refl (conj eq_refl eq_refl)))) as H.
  cbv zeta in H.
  destruct H as (_ & _ & _ & _ & _ & _ & H & _).
  exact (H H2).
Defined.

(** C4 as stated fails: a client that is not a browser, with [reconnect]
    enabled, connected and not closed, sees its socket disconnect (no error
    object, so [canRetryOnError] holds); the manager does not restart the
    connect ladder, it closes. *)
Lemma disconnect_of_non_browser_client_closes :
  reconnect (Scenarios.connected "node") = true
  /\ closed (Scenarios.connected "node") = false
  /\ canRetryOnError ErrUndefined = true
  /\ connection (Scenarios.connected "node") = Some Scenarios.liveConnection
  /\ closed (onDisconnect Scenarios.liveConnection "transport close"
               (Scenarios.connected "node")) = true
  /\ rt_attempts (onDisconnect Scenarios.liveConnection "transport close"
                    (Scenarios.connected "node")) = [].
Proof. vm_compute. repeat split. Qed.

(** [connect] leaves everything but the deferred, the fresh identity and the
    pending attempts as it is, and never throws after the first assertion
    unless both [connecting] and [connection] are set. *)
Lemma connect_starts_attempt (reason : string) (s : DeltaManager) :
  closed s = false -> connecting s = None -> connection s = None ->
  connect reason s =
    (Normal (PromiseOf (rt_nextId s)),
     set_rt_attempts
       (rt_attempts s ++ [Connecting reason InitialReconnectDelay (connectionMode s)])
       (set_connectRepeatCount (connectRepeatCount s + 1)
          (set_connecting (Some (rt_nextId s))
             (set_rt_nextId (Pos.succ (rt_nextId s)) s)))).
Proof.
  intros Hc Hg Hn. unfold connect, connectCore. rewrite Hc, Hg, Hn. cbn.
  rewrite Hc. reflexivity.
Qed.

(** C9, as the code has it. [connect] after [close] fails its first
    assertion. While the deferred of an earlier [connect] is pending
    ([connecting] is set), every further call returns that same promise and
    starts nothing. With a live connection and no such deferred, the call
    resolves with the connection's details and starts nothing. Only with
    neither does the call create the deferred and start an attempt, at
    [InitialReconnectDelay] and in the current connection mode. So [connect]
    starts an attempt only when [connecting] and [connection] are both unset;
    an attempt started by [reconnectOnError] sets neither, and a [connect]
    made while it is pending starts another one. *)
Theorem connect_cases (reason : string) (s : DeltaManager) :
  (closed s = true -> connect reason s = (Throw "AssertionError", s))
  /\ (forall d,
        closed s = false -> connecting s = Some d -> connection s = None ->
        connect reason s = (Normal (PromiseOf d), s))
  /\ (forall c,
        closed s = false -> connecting s = None -> connection s = Some c ->
        connect reason s = (Normal (DetailsOf (details c)), s))
  /\ (closed s = false -> connecting s = None -> connection s = None ->
        fst (connect reason s) = Normal (PromiseOf (rt_nextId s))
        /\ connecting (snd (connect reason s)) = Some (rt_nextId s)
        /\ rt_attempts (snd (connect reason s)) =
             rt_attempts s ++
               [Connecting reason InitialReconnectDelay (connectionMode s)])
  /\ (rt_attempts (snd (connect reason s)) <> rt_attempts s ->
        closed s = false /\ connecting s = None /\ connection s = None).
Proof.
  split; [| split; [| split; [| split]]].
  - intros H. unfold connect. now rewrite H.
  - intros d Hc Hg Hn. unfold connect. now rewrite Hc, Hg, Hn.
  - intros c Hc Hg Hn. unfold connect. now rewrite Hc, Hg, Hn.
  - intros Hc Hg Hn. rewrite (connect_starts_attempt reason s Hc Hg Hn).
    repeat split.
  - unfold connect.
    destruct (closed s); [intros H; now elim H |].
    destruct (connecting s) as [d |].
    + destruct (connection s); intros H; now elim H.
    + destruct (connection s); [intros H; now elim H |]. repeat split.
Qed.

(** The theorem on a fresh manager ([connect] starts the first attempt), and
    on the manager it leaves (a second [connect] returns the same promise). *)
Lemma connect_cases_witness :
  rt_attempts (snd (connect "DocumentOpen" (new Browser ModeWrite true))) =
    rt_attempts (new Browser ModeWrite true) ++
      [Connecting "DocumentOpen" InitialReconnectDelay
         (connectionMode (new Browser ModeWrite true))]
  /\ connect "again" (snd (connect "DocumentOpen" (new Browser ModeWrite true))) =
       (Normal (PromiseOf 1%positive),
        snd (connect "DocumentOpen" (new Browser ModeWrite true))).
Proof.
  split.
  - destruct (connect_cases "DocumentOpen" (new Browser ModeWrite true))
      as (_ & _ & _ & H & _).
    exact (proj2 (proj2 (H eq_refl eq_refl eq_refl))).
  - assert (H1 : closed (snd (connect "DocumentOpen" (new Browser ModeWrite true)))
                 = false) by (vm_compute; reflexivity).
    assert (H2 : connecting (snd (connect "DocumentOpen" (new Browser ModeWrite true)))
                 = Some 1%positive) by (vm_compute; reflexivity).
    assert (H3 : connection (snd (connect "DocumentOpen" (new Browser ModeWrite true)))
                 = None) by (vm_compute; reflexivity).
    destruct (connect_cases "again"
                (snd (connect "DocumentOpen" (new Browser ModeWrite true))))
      as (_ & H & _).
    exact (H 1%positive H1 H2 H3).
Defined.

Lemma reconnecting_reachable : Reachable Scenarios.reconnecting.
Proof.
  unfold Scenarios.reconnecting.
  eapply ReachStep; [| apply StepDisconnect].
  assert (H : attemptSucceeds 0 Scenarios.someDetails
                (snd (connect "DocumentOpen" (new Browser ModeWrite true)))
              = Some (Scenarios.connected Browser)) by (vm_compute; reflexivity).
  eapply ReachStep; [| exact (StepConnected _ _ _ _ H)].
  eapply ReachStep; [| apply StepConnect].
  apply ReachNew.
Qed.

(** C9 as stated fails. A browser client was connected and its socket
    disconnected; the manager (a reachable state, not closed) has the
    reconnect attempt of [reconnectOnError] in flight. A call of [connect]
    now does not return a promise of that attempt: it creates a new deferred
    and starts a second attempt next to the first. *)
Lemma connect_during_reconnect_starts_second_attempt :
  Reachable Scenarios.reconnecting
  /\ closed Scenarios.reconnecting = false
  /\ rt_attempts Scenarios.reconnecting =
       [Connecting "Reconnecting on disconnect: transport close" 1000 ModeWrite]
  /\ fst (connect "Resume" Scenarios.reconnecting) = Normal (PromiseOf 3%positive)
  /\ rt_attempts (snd (connect "Resume" Scenarios.reconnecting)) =
       [Connecting "Reconnecting on disconnect: transport close" 1000 ModeWrite;
        Connecting "Resume" 1000 ModeRead].
Proof.
  split; [exact reconnecting_reachable |]. vm_compute. repeat split.
Qed.

(** *** The acknowledgement scheduler *)

Lemma timersConsistent_frame (s s' : DeltaManager) :
  timerPart s' = timerPart s -> timersConsistent s -> timersConsistent s'.
Proof.
  unfold timerPart, timersConsistent. intros H. injection H as -> ->. exact id.
Qed.

Lemma timersConsistent_stopped (s : DeltaManager) :
  timerPart s = ([], None) -> timersConsistent s.
Proof. unfold timerPart, timersConsistent. intros H. injection H as -> ->. reflexivity. Qed.

Lemma fold_left_timerPart {A} (f : DeltaManager -> A -> DeltaManager) (l : list A) :
  (forall s x, timerPart (f s x) = timerPart s) ->
  forall s, timerPart (fold_left f l s) = timerPart s.
Proof.
  intros Hf. induction l as [| x rest IH]; intros s; [reflexivity |].
  cbn [fold_left]. rewrite IH. apply Hf.
Qed.

(** Naming the state bound by the outermost [let] of the goal, so that a
    chain of statements is followed one statement at a time. *)
Ltac name_let y :=
  lazymatch goal with
  | |- context [let x := ?a in _] =>
      set (y := a);
      lazymatch goal with
      | |- context G [let x := y in @?b x] =>
          let t := eval cbv beta in (b y) in
          let g := context G [t] in
          change g
      end
  end.

Lemma emitDelayInfo_timerPart (e : retryFor) (delay : Z) (s : DeltaManager) :
  timerPart (emitDelayInfo e delay s) = timerPart s.
Proof.
  unfold emitDelayInfo. destruct e; cbn.
  - destruct (deltaStorageDelay s) as [b |]; [| reflexivity].
    destruct (negb (delay =? 0) && negb (b =? 0)); [| reflexivity].
    destruct (0 <=? Z.max b delay); reflexivity.
  - destruct (deltaStreamDelay s) as [a |]; [| reflexivity].
    destruct (negb (a =? 0) && negb (delay =? 0)); [| reflexivity].
    destruct (0 <=? Z.max delay a); reflexivity.
Qed.

Lemma fetchMissingDeltas_timerPart (suffix : string) (from : Z) (to : option Z)
    (s : DeltaManager) :
  timerPart (fetchMissingDeltas suffix from to s) = timerPart s.
Proof.
  unfold fetchMissingDeltas. destruct (fetching s); [reflexivity |].
  destruct (closed s); reflexivity.
Qed.

Lemma enqueueMessage_timerPart (s : DeltaManager) (m : Seq.t) :
  timerPart (enqueueMessage m s) = timerPart s.
Proof.
  unfold enqueueMessage, handleOutOfOrderMessage.
  destruct (negb _); [| reflexivity].
  destruct (_ <=? _); [reflexivity |].
  rewrite fetchMissingDeltas_timerPart. reflexivity.
Qed.

Lemma enqueueMessages_timerPart (messages : list Seq.t) (s : DeltaManager) :
  timerPart (enqueueMessages messages s) = timerPart s.
Proof.
  unfold enqueueMessages. destruct (handler s); [| reflexivity].
  apply fold_left_timerPart. intros s1 m. apply enqueueMessage_timerPart.
Qed.

Lemma catchUp_timerPart (suffix : string) (messages : list Seq.t) (s : DeltaManager) :
  timerPart (catchUp suffix messages s) = timerPart s.
Proof.
  unfold catchUp. cbv zeta.
  destruct (handler _).
  - rewrite enqueueMessages_timerPart.
    change (timerPart (set_pending [] ?x)) with (timerPart x).
    rewrite enqueueMessages_timerPart. reflexivity.
  - rewrite enqueueMessages_timerPart. reflexivity.
Qed.

Lemma attachOpHandler_timerPart (minSeq seq : Z) (h : string) (resume : bool)
    (s : DeltaManager) :
  timerPart (snd (attachOpHandler minSeq seq h resume s)) = timerPart s.
Proof.
  unfold attachOpHandler. cbv zeta.
  change (handler (set_lastQueuedSequenceNumber _ _)) with (handler s).
  destruct (handler s); [reflexivity |].
  destruct resume; [| reflexivity].
  change (pending (set_inboundSignal _ _)) with (pending s).
  destruct (pending s); cbn [snd].
  - rewrite fetchMissingDeltas_timerPart. reflexivity.
  - rewrite catchUp_timerPart. reflexivity.
Qed.

Lemma connectCore_timerPart (reason : string) (delay : Z) (mode : ConnectionMode)
    (s : DeltaManager) :
  timerPart (connectCore reason delay mode s) = timerPart s.
Proof. unfold connectCore. destruct (closed s); reflexivity. Qed.

Lemma connect_timerPart (reason : string) (s : DeltaManager) :
  timerPart (snd (connect reason s)) = timerPart s.
Proof.
  unfold connect. destruct (closed s); [reflexivity |].
  destruct (connecting s), (connection s); try reflexivity.
  cbn [snd]. rewrite connectCore_timerPart. reflexivity.
Qed.

Lemma flush_timerPart (s : DeltaManager) : timerPart (flush s) = timerPart s.
Proof. unfold flush. destruct (messageBuffer s); reflexivity. Qed.

Lemma stop_timerPart_eq (s : DeltaManager) :
  timerPart (stopSequenceNumberUpdate s) =
    (match updateSequenceNumberTimer s with
     | Some h => filter (fun t => negb (Pos.eqb (fst t) h)) (rt_timers s)
     | None => rt_timers s
     end, None).
Proof.
  unfold stopSequenceNumberUpdate. destruct (updateSequenceNumberTimer s); reflexivity.
Qed.

Lemma stop_timerPart (s : DeltaManager) :
  timersConsistent s -> timerPart (stopSequenceNumberUpdate s) = ([], None).
Proof.
  unfold timersConsistent. intros H. rewrite stop_timerPart_eq, H.
  destruct (updateSequenceNumberTimer s) as [h |]; [| reflexivity].
  cbn [filter fst]. rewrite Pos.eqb_refl. reflexivity.
Qed.

Lemma submit_timerPart (type : MessageType) (contents : JsAny) (batch : bool)
    (s : DeltaManager) :
  timerPart (snd (submit type contents batch s)) =
    timerPart (stopSequenceNumberUpdate s).
Proof.
  unfold submit. cbv zeta. cbn [snd].
  transitivity
    (timerPart (stopSequenceNumberUpdate
                  (set_clientSequenceNumber (clientSequenceNumber s + 1) s))).
  - destruct batch; cbn [negb].
    + reflexivity.
    + rewrite flush_timerPart.
      change (timerPart (set_messageBuffer ?b ?x)) with (timerPart x).
      rewrite flush_timerPart. reflexivity.
  - rewrite !stop_timerPart_eq. reflexivity.
Qed.

Lemma submit_stops (type : MessageType) (contents : JsAny) (batch : bool)
    (s : DeltaManager) :
  timersConsistent s -> timerPart (snd (submit type contents batch s)) = ([], None).
Proof. intros H. rewrite submit_timerPart. apply stop_timerPart, H. Qed.

Lemma schedule_timersConsistent (m : Seq.t) (immediateNoOp : bool) (s : DeltaManager) :
  timersConsistent s -> timersConsistent (scheduleSequenceNumberUpdate m immediateNoOp s).
Proof.
  intros H. unfold scheduleSequenceNumberUpdate.
  destruct (negb (active s)).
  { apply timersConsistent_stopped, stop_timerPart, H. }
  destruct immediateNoOp.
  { apply timersConsistent_stopped. rewrite submit_timerPart.
    apply stop_timerPart, timersConsistent_stopped, stop_timerPart, H. }
  destruct (MessageType_isNoOp (Seq.type m)); [exact H |].
  destruct (updateSequenceNumberTimer s) eqn:Ht; [exact H |].
  unfold timersConsistent in *. rewrite Ht in H. cbn. rewrite H. reflexivity.
Qed.

Lemma ackTimerCallback_timerPart (s : DeltaManager) :
  rt_timers s = [] -> timerPart (ackTimerCallback s) = ([], None).
Proof.
  intros H. unfold ackTimerCallback. cbv zeta.
  destruct (active _).
  - apply submit_stops. unfold timersConsistent. cbn. exact H.
  - unfold timerPart. cbn. rewrite H. reflexivity.
Qed.

Lemma fireTimer_timerPart (h : positive) (s s' : DeltaManager) :
  timersConsistent s -> fireTimer h s = Some s' -> timerPart s' = ([], None).
Proof.
  unfold fireTimer, armed, timersConsistent. intros H.
  destruct (existsb _ _) eqn:Ha; [| discriminate].
  intros E. injection E as <-.
  apply ackTimerCallback_timerPart.
  unfold clearTimeout. cbn. rewrite H in *.
  destruct (updateSequenceNumberTimer s) as [h0 |]; [| discriminate].
  cbn in *. rewrite orb_false_r in Ha. rewrite Ha. reflexivity.
Qed.

Lemma close_timerPart (s : DeltaManager) :
  timersConsistent s -> timerPart (close s) = ([], None).
Proof.
  intros H. unfold close. cbv zeta.
  assert (Hs := stop_timerPart (set_closed true s) H).
  set (s1 := stopSequenceNumberUpdate (set_closed true s)) in *.
  destruct (connection s1), (connecting _); exact Hs.
Qed.

Lemma closeOnConnectionError_timersConsistent (error : JsError) (s : DeltaManager) :
  timersConsistent s -> timersConsistent (snd (closeOnConnectionError error s)).
Proof.
  intros H. rewrite closeOnConnectionError_cases.
  destruct (truthy_error error && negb (hasListeners s)); cbn [snd].
  - destruct (connecting s); exact H.
  - apply timersConsistent_stopped, close_timerPart.
    destruct (truthy_error error), (connecting s); exact H.
Qed.

(** The state the [catch] clause of [getDeltas] leaves, thrown or not. *)
Lemma catch_close_state {A} (a : A) (error : JsError) (s : DeltaManager) :
  snd (match closeOnConnectionError error s with
       | (Normal _, s) => (@Normal A JsError a, s)
       | (Throw e, s) => (Throw e, s)
       end) = snd (closeOnConnectionError error s).
Proof. destruct (closeOnConnectionError error s) as [[u | e] s']; reflexivity. Qed.

Lemma processMessage_timersConsistent (jsonParses : string -> bool) (m : Seq.t)
    (result : IProcessMessageResult) (s : DeltaManager) :
  timersConsistent s -> timersConsistent (snd (processMessage jsonParses m result s)).
Proof.
  intros H. unfold processMessage. cbv zeta.
  set (s1 := match connection s with Some _ => _ | None => _ end).
  assert (H1 : timersConsistent s1).
  { subst s1. destruct (connection s); [| exact H].
    destruct (String.eqb _ _); [| exact H].
    destruct (_ =? _); exact H. }
  clearbody s1.
  destruct (contentsFailToParse jsonParses m); [exact H1 |].
  destruct (negb (minSequenceNumber s1 <=? _)); [exact H1 |].
  destruct (negb (_ =? _)); [exact H1 |].
  match goal with
  | |- context [scheduleSequenceNumberUpdate m ?b ?x] =>
      assert (H2 : timersConsistent x)
  end.
  { destruct (_ <? _); exact H1. }
  destruct (resultError result) as [error |].
  - destruct (truthy_error error); [exact H2 |].
    cbn [snd]. apply (schedule_timersConsistent m _ _ H2).
  - cbn [snd]. apply (schedule_timersConsistent m _ _ H2).
Qed.

Lemma enqueInitalSignals_timerPart (signals : list ISignalMessage) (s : DeltaManager) :
  timerPart (enqueInitalSignals signals s) = timerPart s.
Proof. unfold enqueInitalSignals. apply fold_left_timerPart. reflexivity. Qed.

Ltac frame_solve :=
  repeat first
    [ rewrite emitDelayInfo_timerPart
    | rewrite enqueInitalSignals_timerPart
    | rewrite catchUp_timerPart
    | match goal with
      | |- timerPart (match ?o with _ => _ end) = _ => destruct o
      end ];
  solve
    [ reflexivity
    | match goal with
      | H : timerPart ?y = ?r |- timerPart _ = ?r =>
          transitivity (timerPart y); [reflexivity | exact H]
      end ].

Ltac frame_step :=
  let y := fresh "st" in
  let H := fresh "Hst" in
  name_let y;
  lazymatch goal with
  | |- _ = timerPart ?s0 =>
      assert (H : timerPart y = timerPart s0) by (subst y; frame_solve)
  end;
  clearbody y.

Lemma onConnected_timerPart (c : DeltaConnection) (s : DeltaManager) :
  timerPart (onConnected c s) = timerPart s.
Proof.
  cbv beta delta [onConnected].
  repeat frame_step.
  cbv beta delta [processInitialMessages enqueInitalOps]. frame_solve.
Qed.

Lemma onConnectFailed_timersConsistent (reason : string) (delay : Z)
    (mode : ConnectionMode) (error : JsError) (s : DeltaManager) :
  timersConsistent s -> timersConsistent (onConnectFailed reason delay mode error s).
Proof.
  intros H. unfold onConnectFailed.
  destruct (negb (canRetryOnError error)).
  - apply closeOnConnectionError_timersConsistent, H.
  - cbv zeta. eapply timersConsistent_frame; [| exact H].
    change (timerPart (set_rt_attempts ?v ?x)) with (timerPart x).
    rewrite emitDelayInfo_timerPart.
    destruct (connectRepeatCount s =? 1); reflexivity.
Qed.

Lemma reconnectOnError_timersConsistent (reason : string) (c : DeltaConnection)
    (mode : ConnectionMode) (error : JsError) (s : DeltaManager) :
  timersConsistent s -> timersConsistent (reconnectOnError reason c mode error s).
Proof.
  intros H. unfold reconnectOnError.
  destruct (connection s) as [current |]; [| exact H].
  destruct (Pos.eqb _ _); [| exact H].
  cbv zeta.
  match goal with |- timersConsistent (if ?b then _ else _) => destruct b end.
  - apply closeOnConnectionError_timersConsistent, H.
  - eapply timersConsistent_frame; [| exact H].
    rewrite connectCore_timerPart. reflexivity.
Qed.

Lemma getDeltasIteration_timersConsistent (to : option Z) (l : GetDeltasLocals)
    (o : StorageOutcome) (s : DeltaManager) :
  timersConsistent s -> timersConsistent (snd (getDeltasIteration to l o s)).
Proof.
  intros H. unfold getDeltasIteration, tryBlock, afterTry.
  destruct o as [error | error | deltas].
  - cbn [negb orb fst snd]. rewrite catch_close_state.
    apply closeOnConnectionError_timersConsistent, H.
  - cbn [negb orb]. destruct (negb (canRetryOnError error)); cbn [snd].
    + rewrite catch_close_state. apply closeOnConnectionError_timersConsistent, H.
    + eapply timersConsistent_frame; [| exact H].
      rewrite emitDelayInfo_timerPart. reflexivity.
  - destruct (match to with None => _ | Some t => _ end); cbn [snd];
      (eapply timersConsistent_frame; [| exact H]);
      rewrite emitDelayInfo_timerPart; reflexivity.
Qed.

Lemma step_timersConsistent (s s' : DeltaManager) :
  Step s s' -> timersConsistent s -> timersConsistent s'.
Proof.
  intros Hstep H. destruct Hstep.
  - eapply timersConsistent_frame; [apply attachOpHandler_timerPart | exact H].
  - exact H.
  - exact H.
  - eapply timersConsistent_frame; [apply connect_timerPart | exact H].
  - eapply timersConsistent_frame; [apply flush_timerPart | exact H].
  - apply timersConsistent_stopped, submit_stops, H.
  - apply timersConsistent_stopped, close_timerPart, H.
  - apply processMessage_timersConsistent, H.
  - apply schedule_timersConsistent, H.
  - eapply timersConsistent_stopped, fireTimer_timerPart; eassumption.
  - unfold attemptSucceeds in *.
    destruct (nth_error _ _) as [[] |]; try discriminate.
    match goal with E : Some _ = Some _ |- _ => injection E as <- end.
    eapply timersConsistent_frame; [apply onConnected_timerPart | exact H].
  - unfold attemptFails in *.
    destruct (nth_error _ _) as [[] |]; try discriminate.
    match goal with E : Some _ = Some _ |- _ => injection E as <- end.
    apply onConnectFailed_timersConsistent, H.
  - unfold waitElapses in *.
    destruct (nth_error _ _) as [[] |]; try discriminate.
    match goal with E : Some _ = Some _ |- _ => injection E as <- end.
    eapply timersConsistent_frame; [apply connectCore_timerPart | exact H].
  - eapply timersConsistent_frame; [apply enqueueMessages_timerPart | exact H].
  - exact H.
  - apply reconnectOnError_timersConsistent, H.
  - apply reconnectOnError_timersConsistent, H.
  - apply reconnectOnError_timersConsistent, H.
  - unfold onGetDeltasResolved. cbv zeta.
    eapply timersConsistent_frame; [apply catchUp_timerPart | exact H].
  - apply getDeltasIteration_timersConsistent, H.
  - rewrite getDeltasLoop_closed by assumption.
    eapply timersConsistent_frame; [| exact H].
    cbn [snd]. rewrite emitDelayInfo_timerPart. reflexivity.
Qed.

Lemma reachable_timersConsistent (s : DeltaManager) :
  Reachable s -> timersConsistent s.
Proof.
  induction 1 as [| s s' _ IH Hstep]; [reflexivity |].
  exact (step_timersConsistent s s' Hstep IH).
Qed.

Lemma stop_submitted (s : DeltaManager) :
  submitted (stopSequenceNumberUpdate s) = submitted s
  /\ baseSequenceNumber (stopSequenceNumberUpdate s) = baseSequenceNumber s
  /\ active (stopSequenceNumberUpdate s) = active s.
Proof.
  unfold stopSequenceNumberUpdate.
  destruct (updateSequenceNumberTimer s); repeat split.
Qed.

Lemma flush_fields (s : DeltaManager) :
  clientSequenceNumber (flush s) = clientSequenceNumber s
  /\ messageBuffer (flush s) = []
  /\ items (outbound (flush s)) =
       items (outbound s)
       ++ match messageBuffer s with [] => [] | _ :: _ => [messageBuffer s] end.
Proof.
  unfold flush. destruct (messageBuffer s) eqn:E.
  - rewrite E, app_nil_r. repeat split.
  - cbn [clientSequenceNumber messageBuffer outbound items push emit set_rt_emitted
         set_outbound set_messageBuffer].
    rewrite E. repeat split.
Qed.

Lemma schedule_inactive (m : Seq.t) (immediateNoOp : bool) (s : DeltaManager) :
  active s = false ->
  submitted (scheduleSequenceNumberUpdate m immediateNoOp s) = submitted s.
Proof.
  intros H. unfold scheduleSequenceNumberUpdate. rewrite H. cbn [negb].
  apply stop_submitted.
Qed.

Lemma ackTimerCallback_inactive (s : DeltaManager) :
  active s = false -> submitted (ackTimerCallback s) = submitted s.
Proof.
  intros H. cbv beta delta [ackTimerCallback]. cbv zeta.
  change (active (set_updateSequenceNumberTimer None s)) with (active s).
  rewrite H. reflexivity.
Qed.

(** What a non-batched [submit] of a no-op leaves on the outbound queue. *)
Lemma submit_noOp_outbound (contents : JsAny) (s : DeltaManager) :
  submitted (snd (submit NoOp contents false s)) =
    (clientSequenceNumber s + 1, [],
     items (outbound s)
     ++ match messageBuffer s with [] => [] | _ :: _ => [messageBuffer s] end
     ++ [[noOpMessage (clientSequenceNumber s + 1) (baseSequenceNumber s) contents]]).
Proof.
  cbv beta delta [submit].
  name_let st1. name_let msg. name_let out. name_let st2. name_let st3.
  assert (Eout : out = noOpMessage (clientSequenceNumber s + 1) (baseSequenceNumber s)
                         contents) by reflexivity.
  assert (E3 : submitted st3 = (clientSequenceNumber s + 1, messageBuffer s,
                                items (outbound s))).
  { subst st3. change (submitted (emit ?e ?x)) with (submitted x).
    subst st2. rewrite (proj1 (stop_submitted st1)). reflexivity. }
  rewrite Eout. clearbody st3. clear Eout out msg st2 st1.
  unfold submitted in E3. injection E3 as E1 E2 E3.
  cbv zeta. cbn [snd negb].
  destruct (flush_fields st3) as (F1 & F2 & F3).
  set (st4 := flush st3) in *. clearbody st4.
  set (n := noOpMessage _ _ _) in *. clearbody n.
  set (st5 := set_messageBuffer (messageBuffer st4 ++ [n]) st4).
  assert (G1 : clientSequenceNumber st5 = clientSequenceNumber st4) by reflexivity.
  assert (G2 : messageBuffer st5 = [n]) by (subst st5; cbn; rewrite F2; reflexivity).
  assert (G3 : items (outbound st5) = items (outbound st4)) by reflexivity.
  clearbody st5.
  destruct (flush_fields st5) as (H1 & H2 & H3).
  unfold submitted.
  rewrite H1, H2, H3, G1, G2, G3, F1, F3, E1, E2, E3.
  rewrite <- app_assoc. reflexivity.
Qed.

(** C5. The acknowledgement scheduler keeps at most one timer armed, the one
    whose handle the manager holds, in every state the manager can reach. It
    submits nothing while [active] is false, neither when a message has been
    processed nor when the timer fires. Every [submit] leaves no timer armed.
    After a message that is not a no-op has been processed by an active client
    with no timer armed and no immediate no-op requested, a timer of 100 ms is
    armed and nothing is submitted yet; when an armed timer fires, a no-op
    with payload [null] is submitted if the client is active at that time, and
    nothing is submitted otherwise. *)
Theorem ack_discipline :
  (forall s, Reachable s ->
     (List.length (rt_timers s) <= 1)%nat /\ timersConsistent s)
  /\ (forall s m immediateNoOp,
        active s = false ->
        submitted (scheduleSequenceNumberUpdate m immediateNoOp s) = submitted s)
  /\ (forall s type contents batch,
        Reachable s ->
        rt_timers (snd (submit type contents batch s)) = []
        /\ updateSequenceNumberTimer (snd (submit type contents batch s)) = None)
  /\ (forall s m,
        active s = true -> MessageType_isNoOp (Seq.type m) = false ->
        updateSequenceNumberTimer s = None ->
        let s' := scheduleSequenceNumberUpdate m false s in
        updateSequenceNumberTimer s' = Some (rt_nextId s)
        /\ rt_timers s' = rt_timers s ++ [(rt_nextId s, 100)]
        /\ submitted s' = submitted s)
  /\ (forall s h s',
        fireTimer h s = Some s' ->
        (active s = true ->
           clientSequenceNumber s' = clientSequenceNumber s + 1
           /\ last (items (outbound s')) [] =
                [noOpMessage (clientSequenceNumber s + 1) (baseSequenceNumber s) AnyNull])
        /\ (active s = false -> submitted s' = submitted s)).
Proof.
  split; [| split; [| split; [| split]]].
  - intros s Hr. assert (H := reachable_timersConsistent s Hr). split; [| exact H].
    unfold timersConsistent in H. rewrite H.
    destruct (updateSequenceNumberTimer s); cbn; lia.
  - intros s m immediateNoOp. apply schedule_inactive.
  - intros s type contents batch Hr.
    assert (H := submit_stops type contents batch s (reachable_timersConsistent s Hr)).
    unfold timerPart in H. injection H as H1 H2. split; assumption.
  - intros s m Ha Hn Ht. unfold scheduleSequenceNumberUpdate.
    rewrite Ha, Hn, Ht. cbn. repeat split.
  - intros s h s'. unfold fireTimer. destruct (armed h s); [| discriminate].
    intros E. injection E as <-. split.
    + intros Ha. cbv beta delta [ackTimerCallback]. cbv zeta.
      change (active (set_updateSequenceNumberTimer None (clearTimeout h s)))
        with (active s).
      rewrite Ha.
      assert (H := submit_noOp_outbound AnyNull
                     (set_updateSequenceNumberTimer None (clearTimeout h s))).
      set (s' := snd (submit NoOp AnyNull false _)) in *. clearbody s'.
      unfold submitted in H. injection H as H1 _ H3.
      split; [exact H1 |].
      rewrite H3. rewrite app_assoc. apply last_last.
    + intros Ha. cbv beta delta [ackTimerCallback]. cbv zeta.
      change (active (set_updateSequenceNumberTimer None (clearTimeout h s)))
        with (active s).
      rewrite Ha. reflexivity.
Qed.

(** The theorem on a connected browser client in the quorum: after an
    operation has been processed a timer is armed, and its firing puts a
    no-op with payload [null] on the outbound queue. *)
Lemma ack_discipline_witness :
  active Scenarios.writer = true
  /\ rt_timers (scheduleSequenceNumberUpdate (Scenarios.op 1) false Scenarios.writer)
     = [(3%positive, 100)]
  /\ match fireTimer 3
            (scheduleSequenceNumberUpdate (Scenarios.op 1) false Scenarios.writer)
     with
     | Some s' => last (items (outbound s')) [] = [noOpMessage 1 0 AnyNull]
     | None => False
     end.
Proof.
  destruct ack_discipline as (_ & _ & _ & Harm & Hfire).
  split; [reflexivity |]. split.
  - exact (proj1 (proj2 (Harm Scenarios.writer (Scenarios.op 1)
                           eq_refl eq_refl eq_refl))).
  - destruct (fireTimer 3
                (scheduleSequenceNumberUpdate (Scenarios.op 1) false Scenarios.writer))
      as [s' |] eqn:E.
    + exact (proj2 (proj1 (Hfire _ 3%positive s' E) eq_refl)).
    + vm_compute in E. discriminate E.
Defined.

End DeltaManagerFacts.


(** ** Properties of the epoch tracker *)

Module EpochTrackerFacts.
Import EpochTracker.

Lemma epoch_eqb_eq (a b : option string) : epoch_eqb a b = true <-> a = b.
Proof.
  destruct a as [x |], b as [y |]; cbn; split; intros H;
    try discriminate; try reflexivity.
  - apply String.eqb_eq in H. now subst.
  - injection H as ->. apply String.eqb_refl.
Qed.

Lemma epoch_eqb_neq (a b : option string) : a <> b -> epoch_eqb a b = false.
Proof.
  intros H. destruct (epoch_eqb a b) eqn:E; [| reflexivity].
  apply epoch_eqb_eq in E. contradiction.
Qed.

Lemma checkForEpochErrorCore_absent (message : option string) (t : EpochTracker)
    (epochFromResponse : option string) :
  present epochFromResponse = false ->
  checkForEpochErrorCore epochFromResponse message t = Normal tt.
Proof.
  intros H. unfold checkForEpochErrorCore. rewrite H, andb_false_r. reflexivity.
Qed.

(** C6. On a response (or a cached value) whose epoch is present while the
    tracker has none, the tracker adopts it and logs [EpochLearnedFirstTime];
    when both are present and differ, validation throws the epoch mismatch
    error and leaves the tracker as it was; when the response has no epoch,
    nothing changes and nothing is thrown. Present is what the source tests:
    a string that is truthy. *)
Theorem validateEpochFromResponse_cases (epochFromResponse : option string)
    (fetchType : FetchType) (fromCache : bool) (t : EpochTracker) :
  (fluidEpoch t = None -> present epochFromResponse = true ->
     exists epoch,
       epochFromResponse = Some epoch
       /\ validateEpochFromResponse epochFromResponse fetchType fromCache t =
            (Normal tt,
             set_fluidEpoch (Some epoch)
               (log (EpochLearnedFirstTime epoch fetchType fromCache) t)))
  /\ (present (fluidEpoch t) = true -> present epochFromResponse = true ->
      fluidEpoch t <> epochFromResponse ->
      validateEpochFromResponse epochFromResponse fetchType fromCache t =
        (Throw (EpochMismatchError "Epoch Mismatch"), t)
      /\ errorTypeOf (EpochMismatchError "Epoch Mismatch") = Some epochVersionMismatch)
  /\ (present epochFromResponse = false ->
      validateEpochFromResponse epochFromResponse fetchType fromCache t =
        (Normal tt, t)).
Proof.
  split; [| split].
  - intros Hl Hp. destruct epochFromResponse as [epoch |]; [| discriminate].
    exists epoch. split; [reflexivity |].
    unfold validateEpochFromResponse, checkForEpochErrorCore.
    rewrite Hl, Hp. reflexivity.
  - intros Hl Hp Hd.
    unfold validateEpochFromResponse, checkForEpochErrorCore.
    rewrite Hl, Hp, (epoch_eqb_neq _ _ Hd). cbn. split; reflexivity.
  - intros Hp. unfold validateEpochFromResponse.
    rewrite (checkForEpochErrorCore_absent None t _ Hp).
    destruct epochFromResponse; [| reflexivity]. now rewrite Hp.
Qed.

(** The theorem on a tracker that learns epoch A from its first response, and
    on one that knows A and meets B. *)
Lemma validateEpochFromResponse_cases_witness :
  fluidEpoch (snd (validateEpochFromResponse (Some "A") treesLatest false
                     Scenarios.fresh)) = Some "A"
  /\ logger (snd (validateEpochFromResponse (Some "A") treesLatest false
                    Scenarios.fresh)) = [EpochLearnedFirstTime "A" treesLatest false]
  /\ validateEpochFromResponse (Some "B") ops false Scenarios.learned =
       (Throw (EpochMismatchError "Epoch Mismatch"), Scenarios.learned).
Proof.
  destruct (validateEpochFromResponse_cases (Some "A") treesLatest false Scenarios.fresh)
    as (H1 & _ & _).
  destruct (H1 eq_refl eq_refl) as (epoch & He & Hv).
  injection He as <-. rewrite Hv.
  split; [reflexivity |]. split; [reflexivity |].
  destruct (validateEpochFromResponse_cases (Some "B") ops false Scenarios.learned)
    as (_ & H2 & _).
  destruct (H2 eq_refl eq_refl ltac:(discriminate)) as (Hv2 & _).
  exact Hv2.
Defined.

(** The same validation is what a response and a cached value go through. *)
Lemma fetch_paths_validate {R} (fetchType : FetchType) (epoch : option string)
    (response : R) (v : CachedValue) (t : EpochTracker) :
  (forall t', validateEpochFromResponse epoch fetchType false t = (Normal tt, t') ->
     baseFetchAndParseAsJSON fetchType (ReplyResponse epoch response) t
       = (Normal response, t'))
  /\ (forall t', validateEpochFromResponse (valueFluidEpoch v) fetchType true t
                 = (Normal tt, t') ->
        baseFetchFromCache fetchType (Some v) t = (Normal (Some (value v)), t')).
Proof.
  split; intros t' H.
  - unfold baseFetchAndParseAsJSON, fetchAndParseAsJSON. now rewrite H.
  - unfold baseFetchFromCache, fetchFromCache. now rewrite H.
Qed.

Lemma removeEntries_spec (f : IFileEntry) (t : EpochTracker) :
  (forall e, In e (persistedCache (removeEntries f t)) ->
     IFileEntry_eqb (file (fst e)) f = false)
  /\ (forall e, In e (persistedCache t) -> IFileEntry_eqb (file (fst e)) f = false ->
        In e (persistedCache (removeEntries f t)))
  /\ fluidEpoch (removeEntries f t) = fluidEpoch t.
Proof.
  unfold removeEntries. cbn. repeat split.
  - intros e H. apply filter_In in H. destruct H as [_ H].
    now apply negb_true_iff in H.
  - intros e H1 H2. apply filter_In. split; [exact H1 |]. now rewrite H2.
Qed.

(** C7, as the code has it. On a caught error whose [errorType] is
    [epochVersionMismatch], the tracker compares the stored epoch with the
    epoch of the response again. Unless both are present and differ (so also
    when either of them is missing, as for an error thrown before any
    response was read, and when they are equal) the tracker throws a
    throttling error with retry-after 1000 and status 429 and leaves the
    cache alone. When both are present and differ it removes the cache
    entries of the configured file entry and throws the epoch mismatch error;
    without a file entry the assertion fails and nothing is removed. An error
    of any other type makes the check return without effect. *)
Theorem checkForEpochError_cases (error : TrackerError)
    (epochFromResponse : option string) (fetchType : FetchType) (fromCache : bool)
    (t : EpochTracker) :
  let differ :=
    present (fluidEpoch t) && present epochFromResponse
    && negb (epoch_eqb (fluidEpoch t) epochFromResponse) in
  let r := checkForEpochError error epochFromResponse fetchType fromCache t in
  (errorTypeOf error = Some epochVersionMismatch -> differ = false ->
     fst r = Throw (ThrottlingError (errorMessageOf error) 1000 429)
     /\ persistedCache (snd r) = persistedCache t
     /\ fluidEpoch (snd r) = fluidEpoch t)
  /\ (forall f,
        errorTypeOf error = Some epochVersionMismatch -> differ = true ->
        fileEntry t = Some f ->
        (exists message, fst r = Throw (EpochMismatchError message))
        /\ persistedCache (snd r) =
             filter (fun e => negb (IFileEntry_eqb (file (fst e)) f)) (persistedCache t)
        /\ (forall e, In e (persistedCache (snd r)) ->
              IFileEntry_eqb (file (fst e)) f = false)
        /\ fluidEpoch (snd r) = fluidEpoch t)
  /\ (errorTypeOf error = Some epochVersionMismatch -> differ = true ->
      fileEntry t = None ->
      (exists message, fst r = Throw (AssertionError message))
      /\ persistedCache (snd r) = persistedCache t)
  /\ (errorTypeOf error <> Some epochVersionMismatch -> r = (Normal tt, t))
  /\ (fluidEpoch t = epochFromResponse -> differ = false).
Proof.
  intros differ r. subst r.
  unfold checkForEpochError, checkForEpochErrorCore. fold differ.
  split; [| split; [| split; [| split]]].
  - intros He Hd. rewrite He, Hd. cbn. repeat split.
  - intros f He Hd Hf. rewrite He, Hd. cbn. rewrite Hf. cbn.
    split; [eexists; reflexivity |]. split; [reflexivity |].
    split; [| reflexivity].
    intros e H. apply filter_In in H. destruct H as [_ H].
    now apply negb_true_iff in H.
  - intros He Hd Hf. rewrite He, Hd. cbn. rewrite Hf. cbn.
    split; [eexists; reflexivity | reflexivity].
  - intros He. destruct (errorTypeOf error) as [[| |] |]; try reflexivity.
    now elim He.
  - intros E. subst differ.
    rewrite (proj2 (epoch_eqb_eq _ _) E). cbn. apply andb_false_r.
Qed.

(** The theorem on a tracker that knows epoch A: a response with epoch B
    purges the cache of the file, the server's own epoch error (no response
    epoch) is turned into a throttling error. *)
Lemma checkForEpochError_cases_witness :
  checkForEpochError (EpochMismatchError "Epoch Mismatch") (Some "B") ops false
    Scenarios.learned
  = (Throw (EpochMismatchError "Epoch Mismatch"),
     {| fluidEpoch := Some "A"; fileEntry := Some Scenarios.someFile;
        persistedCache := [];
        logger := [EpochVersionMismatch (Some "A") ops false] |})
  /\ fst (checkForEpochError Scenarios.serverEpochError (Some "A") ops false
            Scenarios.learned)
     = Throw (ThrottlingError (Some "epoch changed") 1000 429).
Proof.
  split; [reflexivity |].
  destruct (checkForEpochError_cases Scenarios.serverEpochError (Some "A") ops false
              Scenarios.learned) as (H & _).
  exact (proj1 (H eq_refl eq_refl)).
Defined.

(** C7 as stated fails. The tracker knows epoch A; a fetch is rejected by the
    helper with the server's epoch error, before any response epoch was read,
    so the stored epoch and the (missing) response epoch do not agree. The
    tracker purges nothing and throws the throttling error. *)
Lemma server_epoch_error_without_response_epoch_is_throttled :
  errorTypeOf Scenarios.serverEpochError = Some epochVersionMismatch
  /\ fluidEpoch Scenarios.learned = Some "A"
  /\ epoch_eqb (fluidEpoch Scenarios.learned) None = false
  /\ @baseFetchAndParseAsJSON unit ops (ReplyRejects Scenarios.serverEpochError)
       Scenarios.learned
     = (Throw (ThrottlingError (Some "epoch changed") 1000 429),
        log Coherency409 Scenarios.learned)
  /\ persistedCache (log Coherency409 Scenarios.learned) = Scenarios.someCache
  /\ Scenarios.someCache <> [].
Proof. repeat split. discriminate. Qed.


(** *** The redemption variant *)

Lemma runCall_settled {R} (fetchType : FetchType) (result : Completion R TrackerError)
    (events : list ((EpochTrackerWithRedemption -> EpochTrackerWithRedemption)
                    * CallEvent R)) :
  forall t, exists t', runCall fetchType (Settled result) events t
                       = (Settled result, t', 0%nat).
Proof.
  induction events as [| [others e] rest IH]; intros t.
  - exists t. reflexivity.
  - cbn [runCall]. destruct e; cbn [callStep];
      destruct (IH (others t)) as [t' ->]; exists t'; reflexivity.
Qed.

Lemma runCall_repeated {R} (fetchType : FetchType)
    (events : list ((EpochTrackerWithRedemption -> EpochTrackerWithRedemption)
                    * CallEvent R)) :
  forall t, exists c t', runCall fetchType AwaitingRepeatedReply events t
                         = (c, t', 0%nat).
Proof.
  induction events as [| [others e] rest IH]; intros t.
  - do 2 eexists. reflexivity.
  - cbn [runCall]. destruct e as [reply |]; cbn [callStep].
    + unfold onRepeatedReply.
      destruct (superFetchAndParseAsJSON fetchType reply (others t)) as [result t1].
      destruct (runCall_settled fetchType result rest t1) as [t' ->].
      do 2 eexists. reflexivity.
    + destruct (IH (others t)) as (c & t' & ->). do 2 eexists. reflexivity.
Qed.

(** A call suspended on the deferred sends at most one more request. *)
Lemma runCall_awaiting_deferral {R} (fetchType : FetchType)
    (events : list ((EpochTrackerWithRedemption -> EpochTrackerWithRedemption)
                    * CallEvent R)) :
  forall t, exists c t' n, runCall fetchType AwaitingDeferral events t = (c, t', n)
                           /\ (n <= 1)%nat.
Proof.
  induction events as [| [others e] rest IH]; intros t.
  - do 3 eexists. split; [reflexivity | lia].
  - cbn [runCall]. destruct e as [reply |]; cbn [callStep].
    + destruct (IH (others t)) as (c & t' & n & -> & Hn).
      do 3 eexists. split; [reflexivity | exact Hn].
    + unfold awaitDeferral.
      destruct (treesLatestDeferral (others t)) as [| | error]; cbn [requestOutstanding].
      * destruct (IH (others t)) as (c & t' & n & -> & Hn).
        do 3 eexists. split; [reflexivity | exact Hn].
      * destruct (runCall_repeated fetchType rest (others t)) as (c & t' & ->).
        do 3 eexists. split; [reflexivity | lia].
      * destruct (runCall_settled fetchType (Throw error) rest (others t)) as [t' ->].
        do 3 eexists. split; [reflexivity | lia].
Qed.

(** A request that fails leaves the deferred as it was: only a validated
    response resolves it. *)
Lemma failed_request_keeps_deferral {R} (fetchType : FetchType) (reply : FetchReply R)
    (t t1 : EpochTrackerWithRedemption) (error : TrackerError) :
  superFetchAndParseAsJSON fetchType reply t = (Throw error, t1) ->
  treesLatestDeferral t1 = treesLatestDeferral t.
Proof.
  unfold superFetchAndParseAsJSON, fetchAndParseAsJSON, catchClause.
  destruct reply as [e | epoch content].
  - destruct (checkForEpochError e None fetchType false (tracker t)) as [[u | e1] b];
      intros H; injection H as _ <-; reflexivity.
  - unfold validateEpochFromResponseR.
    destruct (validateEpochFromResponse epoch fetchType false (tracker t))
      as [[u | e] b]; [discriminate |].
    cbn [tracker withTracker].
    destruct (checkForEpochError e epoch fetchType false b) as [[u | e1] b1];
      intros H; injection H as _ <-; reflexivity.
Qed.

Lemma runCall_cons {R} (fetchType : FetchType) (c : CallState R)
    (o : EpochTrackerWithRedemption -> EpochTrackerWithRedemption) (e : CallEvent R)
    (rest : list ((EpochTrackerWithRedemption -> EpochTrackerWithRedemption)
                  * CallEvent R))
    (t : EpochTrackerWithRedemption) :
  runCall fetchType c ((o, e) :: rest) t
  = let '(c1, t1, n) := callStep fetchType c e (o t) in
    let '(c2, t2, m) := runCall fetchType c1 rest t1 in
    (c2, t2, (n + m)%nat).
Proof. reflexivity. Qed.

(** The repeated request: its outcome is the outcome of the call, and no
    further request is sent. *)
Lemma runCall_repeated_reply {R} (fetchType : FetchType) (reply2 : FetchReply R)
    (o3 : EpochTrackerWithRedemption -> EpochTrackerWithRedemption)
    (rest : list ((EpochTrackerWithRedemption -> EpochTrackerWithRedemption)
                  * CallEvent R))
    (t : EpochTrackerWithRedemption) :
  exists t',
    runCall fetchType AwaitingRepeatedReply ((o3, Reply reply2) :: rest) t
    = (Settled (fst (superFetchAndParseAsJSON fetchType reply2 (o3 t))), t', 0%nat).
Proof.
  cbn [runCall callStep]. unfold onRepeatedReply.
  destruct (superFetchAndParseAsJSON fetchType reply2 (o3 t)) as [result t2].
  destruct (runCall_settled fetchType result rest t2) as [t' ->].
  exists t'. reflexivity.
Qed.

(** C8, as the code has it. Let the first request of a call on a redemption
    tracker fail with [error]; the call was entered on [t0], and [o1] is what
    other code did to the tracker while the request was in flight. The
    failed request leaves the deferred as it is. For [treesLatest] the call
    then rejects the deferred with that same error: a pending deferred ends
    rejected with it, a deferred already completed stays as it is. For
    [joinSession] with status 404, when the deferred was not completed when
    the call was entered, the call awaits the deferred. While the deferred is
    pending no request is sent. Once it is resolved (at once when it was
    resolved while the first request was in flight) the request is sent
    again, exactly once whatever follows, and the outcome of that request is
    the outcome of the call. A deferred that is rejected instead ends the
    call with its error and no request. In every other case (another fetch
    type, another status code, a deferred already completed at entry) the
    error goes to the caller as it is and no request follows. *)
Theorem redemption_fetch_failure {R} (fetchType : FetchType) (reply : FetchReply R)
    (o1 : EpochTrackerWithRedemption -> EpochTrackerWithRedemption)
    (t0 t1 : EpochTrackerWithRedemption) (error : TrackerError) :
  superFetchAndParseAsJSON fetchType reply (o1 t0) = (Throw error, t1) ->
  treesLatestDeferral t1 = treesLatestDeferral (o1 t0)
  /\ (fetchType = treesLatest ->
      callStep fetchType (enter t0) (Reply reply) (o1 t0)
      = (Settled (Throw error),
         set_treesLatestDeferral (reject error (treesLatestDeferral (o1 t0))) t1,
         0%nat)
      /\ (treesLatestDeferral (o1 t0) = DeferredPending ->
          treesLatestDeferral
            (snd (fst (callStep fetchType (enter t0) (Reply reply) (o1 t0))))
          = DeferredRejected error)
      /\ (isCompleted (treesLatestDeferral (o1 t0)) = true ->
          treesLatestDeferral
            (snd (fst (callStep fetchType (enter t0) (Reply reply) (o1 t0))))
          = treesLatestDeferral (o1 t0)))
  /\ (fetchType = joinSession -> statusCodeOf error = Some 404 ->
      isCompleted (treesLatestDeferral t0) = false ->
      (treesLatestDeferral t1 = DeferredResolved ->
       forall o3 (reply2 : FetchReply R) rest,
       exists t',
         runCall fetchType (enter t0)
           ((o1, Reply reply) :: (o3, Reply reply2) :: rest) t0
         = (Settled (fst (superFetchAndParseAsJSON fetchType reply2 (o3 t1))),
            t', 1%nat))
      /\ (treesLatestDeferral t1 = DeferredPending ->
          forall o2,
            (treesLatestDeferral (o2 t1) = DeferredPending ->
             runCall fetchType (enter t0)
               [(o1, Reply reply); (o2, @DeferralSettled R)] t0
             = (AwaitingDeferral, o2 t1, 0%nat))
            /\ (treesLatestDeferral (o2 t1) = DeferredResolved ->
                forall o3 (reply2 : FetchReply R) rest,
                exists t',
                  runCall fetchType (enter t0)
                    ((o1, Reply reply) :: (o2, DeferralSettled)
                     :: (o3, Reply reply2) :: rest) t0
                  = (Settled
                       (fst (superFetchAndParseAsJSON fetchType reply2 (o3 (o2 t1)))),
                     t', 1%nat))
            /\ (forall e2,
                  treesLatestDeferral (o2 t1) = DeferredRejected e2 ->
                  forall rest,
                  exists t',
                    runCall fetchType (enter t0)
                      ((o1, Reply reply) :: (o2, @DeferralSettled R) :: rest) t0
                    = (Settled (Throw e2), t', 0%nat)))
      /\ (forall e2,
            treesLatestDeferral t1 = DeferredRejected e2 ->
            forall rest,
            exists t',
              runCall fetchType (enter t0) ((o1, Reply reply) :: rest) t0
              = (Settled (Throw e2), t', 0%nat))
      /\ (forall rest,
          exists c t' n,
            runCall fetchType (enter t0) ((o1, Reply reply) :: rest) t0 = (c, t', n)
            /\ (n <= 1)%nat))
  /\ (fetchType <> joinSession \/ statusCodeOf error <> Some 404
      \/ isCompleted (treesLatestDeferral t0) = true ->
      forall rest,
      exists t',
        runCall fetchType (enter t0) ((o1, Reply reply) :: rest) t0
        = (Settled (Throw error), t', 0%nat)).
Proof.
  intros Hs.
  assert (Hl := failed_request_keeps_deferral fetchType reply (o1 t0) t1 error Hs).
  split; [exact Hl |]. split; [| split].
  - intros ->.
    assert (Hstep : callStep treesLatest (enter t0) (Reply reply) (o1 t0)
                    = (Settled (Throw error),
                       set_treesLatestDeferral
                         (reject error (treesLatestDeferral (o1 t0))) t1, 0%nat)).
    { unfold enter. cbn [callStep]. unfold onReply. rewrite Hs. cbn. rewrite Hl.
      reflexivity. }
    split; [exact Hstep |]. rewrite Hstep. cbn [fst snd treesLatestDeferral
                                                  set_treesLatestDeferral].
    split.
    + intros ->. reflexivity.
    + intros Hc. destruct (treesLatestDeferral (o1 t0)); [discriminate | |]; reflexivity.
  - intros -> Hc He.
    assert (Hstep : callStep joinSession (enter t0) (Reply reply) (o1 t0)
                    = (awaitDeferral t1, t1,
                       if requestOutstanding (@awaitDeferral R t1)
                       then 1%nat else 0%nat)).
    { unfold enter. rewrite He. cbn [callStep]. unfold onReply. rewrite Hs, Hc.
      reflexivity. }
    split; [| split; [| split]].
    + intros Hr o3 reply2 rest. rewrite runCall_cons, Hstep.
      unfold awaitDeferral. rewrite Hr. cbn [requestOutstanding].
      destruct (runCall_repeated_reply joinSession reply2 o3 rest t1) as [t' ->].
      exists t'. reflexivity.
    + intros Hp o2.
      assert (Hwait : forall rest,
                 runCall joinSession (enter t0)
                   ((o1, Reply reply) :: (o2, @DeferralSettled R) :: rest) t0
                 = let '(c2, t2, m) :=
                     runCall joinSession (@awaitDeferral R (o2 t1)) rest (o2 t1) in
                   (c2, t2,
                    (0 + ((if requestOutstanding (@awaitDeferral R (o2 t1))
                           then 1 else 0) + m))%nat)).
      { intros rest. rewrite runCall_cons, Hstep.
        unfold awaitDeferral at 1 2. rewrite Hp. cbn [requestOutstanding].
        rewrite runCall_cons. cbn [callStep].
        destruct (runCall joinSession (awaitDeferral (o2 t1)) rest (o2 t1))
          as [[c2 t2] m]. reflexivity. }
      split; [| split].
      * intros Hp2. rewrite Hwait. unfold awaitDeferral. rewrite Hp2. reflexivity.
      * intros Hr o3 reply2 rest. rewrite Hwait. unfold awaitDeferral. rewrite Hr.
        cbn [requestOutstanding].
        destruct (runCall_repeated_reply joinSession reply2 o3 rest (o2 t1)) as [t' ->].
        exists t'. reflexivity.
      * intros e2 Hr rest. rewrite Hwait. unfold awaitDeferral. rewrite Hr.
        cbn [requestOutstanding].
        destruct (runCall_settled joinSession (@Throw R _ e2) rest (o2 t1)) as [t' ->].
        exists t'. reflexivity.
    + intros e2 Hr rest. rewrite runCall_cons, Hstep.
      unfold awaitDeferral. rewrite Hr. cbn [requestOutstanding].
      destruct (runCall_settled joinSession (@Throw R _ e2) rest t1) as [t' ->].
      exists t'. reflexivity.
    + intros rest. rewrite runCall_cons, Hstep.
      unfold awaitDeferral. destruct (treesLatestDeferral t1) as [| | e2];
        cbn [requestOutstanding].
      * destruct (runCall_awaiting_deferral joinSession rest t1) as (c & t' & n & -> & Hn).
        do 3 eexists. split; [reflexivity | exact Hn].
      * destruct (runCall_repeated joinSession rest t1) as (c & t' & ->).
        do 3 eexists. split; [reflexivity | lia].
      * destruct (runCall_settled joinSession (@Throw R _ e2) rest t1) as [t' ->].
        do 3 eexists. split; [reflexivity | lia].
  - intros Hother rest.
    assert (Ho : exists t2, onReply (isCompleted (treesLatestDeferral t0)) fetchType
                              reply (o1 t0) = (Settled (Throw error), t2)).
    { unfold onReply. rewrite Hs. cbv zeta.
      match goal with
      | |- exists t2, (if ?b then _ else _) = _ =>
          assert (Hb : b = true)
      end.
      { destruct Hother as [H | [H | H]].
        - assert (FetchType_eqb fetchType joinSession = false) as ->
            by (destruct fetchType; try reflexivity; now elim H).
          reflexivity.
        - destruct (statusCodeOf error) as [c |].
          + destruct (Z.eqb_spec c 404) as [-> | Hc]; [now elim H |].
            cbn. rewrite orb_true_r. reflexivity.
          + cbn. rewrite orb_true_r. reflexivity.
        - rewrite H. rewrite orb_true_r. reflexivity. }
      rewrite Hb. eexists. reflexivity. }
    destruct Ho as [t2 Ho].
    rewrite runCall_cons. unfold enter. cbn [callStep]. rewrite Ho.
    cbn [requestOutstanding].
    destruct (runCall_settled fetchType (@Throw R _ error) rest t2) as [t' ->].
    exists t'. reflexivity.
Qed.

(** The theorem on a [joinSession] call that meets a 404 while [treesLatest]
    is in flight: it waits; after a [treesLatest] response resolved the
    deferred, the request is sent again, once, and a second 404 ends the
    call. *)
Lemma redemption_fetch_failure_witness :
  exists t',
    @runCall unit joinSession (enter Scenarios.redeeming)
      [(fun t => t, Reply (ReplyRejects Scenarios.notFound));
       (fun t => snd (onReply false treesLatest (ReplyResponse (Some "A") tt) t),
        DeferralSettled);
       (fun t => t, Reply (ReplyRejects Scenarios.notFound))]
      Scenarios.redeeming
    = (Settled
         (fst (superFetchAndParseAsJSON joinSession (ReplyRejects Scenarios.notFound)
                 ((fun t => t)
                    ((fun t => snd (onReply false treesLatest
                                      (ReplyResponse (Some "A") tt) t))
                       Scenarios.redeeming)))),
       t', 1%nat).
Proof.
  destruct (@redemption_fetch_failure unit joinSession
              (ReplyRejects Scenarios.notFound) (fun t => t) Scenarios.redeeming
              Scenarios.redeeming Scenarios.notFound eq_refl) as (_ & _ & H & _).
  destruct (H eq_refl eq_refl eq_refl) as (_ & H2 & _).
  destruct (H2 eq_refl
              (fun t => snd (onReply false treesLatest (ReplyResponse (Some "A") tt) t)))
    as (_ & H3 & _).
  exact (H3 eq_refl (fun t => t) (ReplyRejects Scenarios.notFound) []).
Defined.

(** C8 as stated fails: on a tracker whose deferred a validated response has
    resolved, a [treesLatest] request that fails does not leave the deferred
    rejected with the error: the deferred stays resolved. The error goes to
    the caller all the same. *)
Lemma treesLatest_failure_leaves_resolved_latch :
  treesLatestDeferral
    (snd (onReply false versions (ReplyResponse (Some "A") tt) Scenarios.redeeming))
  = DeferredResolved
  /\ fst (fst (@runCall unit treesLatest
                 (enter (snd (onReply false versions (ReplyResponse (Some "A") tt)
                                Scenarios.redeeming)))
                 [(fun t => t, Reply (ReplyRejects Scenarios.notFound))]
                 (snd (onReply false versions (ReplyResponse (Some "A") tt)
                         Scenarios.redeeming))))
     = Settled (Throw Scenarios.notFound)
  /\ treesLatestDeferral
       (snd (fst (@runCall unit treesLatest
                    (enter (snd (onReply false versions (ReplyResponse (Some "A") tt)
                                   Scenarios.redeeming)))
                    [(fun t => t, Reply (ReplyRejects Scenarios.notFound))]
                    (snd (onReply false versions (ReplyResponse (Some "A") tt)
                            Scenarios.redeeming)))))
     = DeferredResolved
  /\ DeferredResolved <> DeferredRejected Scenarios.notFound.
Proof. repeat split. discriminate. Qed.

End EpochTrackerFacts.


(** ** Further properties of the delta manager *)

Module DeltaManagerMore.
Import DeltaManager DeltaManagerFacts.

(** *** In-order delivery *)

Lemma fetchMissingDeltas_order (suffix : string) (from : Z) (to : option Z)
    (s : DeltaManager) :
  pending (fetchMissingDeltas suffix from to s) = pending s
  /\ lastQueuedSequenceNumber (fetchMissingDeltas suffix from to s)
     = lastQueuedSequenceNumber s
  /\ inbound (fetchMissingDeltas suffix from to s) = inbound s.
Proof.
  unfold fetchMissingDeltas. destruct (fetching s); [repeat split |].
  destruct (closed s); repeat split.
Qed.

(** What the loop body of [enqueueMessages] does to the pending list, the
    last queued number and the inbound queue. *)
Lemma enqueueMessage_effect (m : Seq.t) (s : DeltaManager) :
  (Seq.sequenceNumber m = lastQueuedSequenceNumber s + 1
   /\ pending (enqueueMessage m s) = pending s
   /\ lastQueuedSequenceNumber (enqueueMessage m s) = Seq.sequenceNumber m
   /\ items (inbound (enqueueMessage m s)) = items (inbound s) ++ [m])
  \/ (Seq.sequenceNumber m > lastQueuedSequenceNumber s + 1
      /\ pending (enqueueMessage m s) = pending s ++ [m]
      /\ lastQueuedSequenceNumber (enqueueMessage m s) = lastQueuedSequenceNumber s
      /\ items (inbound (enqueueMessage m s)) = items (inbound s))
  \/ (Seq.sequenceNumber m <= lastQueuedSequenceNumber s
      /\ pending (enqueueMessage m s) = pending s
      /\ lastQueuedSequenceNumber (enqueueMessage m s) = lastQueuedSequenceNumber s
      /\ items (inbound (enqueueMessage m s)) = items (inbound s)).
Proof.
  destruct (Z.lt_trichotomy (Seq.sequenceNumber m) (lastQueuedSequenceNumber s + 1))
    as [H | [H | H]].
  - right. right. assert (H' : Seq.sequenceNumber m <= lastQueuedSequenceNumber s) by lia.
    rewrite (enqueueMessage_duplicate m s H'). repeat split. exact H'.
  - left. rewrite (enqueueMessage_in_order m s H). repeat split. exact H.
  - right. left.
    assert (H' : Seq.sequenceNumber m > lastQueuedSequenceNumber s + 1) by lia.
    rewrite (enqueueMessage_gap m s H').
    destruct (fetchMissingDeltas_order "OutOfOrderMessage" (lastQueuedSequenceNumber s)
                (Some (Seq.sequenceNumber m)) (set_pending (pending s ++ [m]) s))
      as (E1 & E2 & E3).
    rewrite E1, E2, E3. repeat split. exact H'.
Qed.

Lemma consecutive_app (start : Z) (l1 l2 : list Seq.t) :
  consecutive start l1 -> consecutive (start + Z.of_nat (List.length l1)) l2 ->
  consecutive start (l1 ++ l2).
Proof.
  revert start. induction l1 as [| m rest IH]; intros start H1 H2.
  - cbn in *. now rewrite Z.add_0_r in H2.
  - cbn [app consecutive]. destruct H1 as [E H1]. split; [exact E |].
    apply IH; [exact H1 |].
    cbn [List.length] in H2. now replace (start + 1 + Z.of_nat (List.length rest))
      with (start + Z.of_nat (S (List.length rest))) by lia.
Qed.

Lemma fold_enqueueMessage_in_order (messages : list Seq.t) :
  forall s,
  exists added,
    items (inbound (fold_left (fun s m => enqueueMessage m s) messages s))
      = items (inbound s) ++ added
    /\ consecutive (lastQueuedSequenceNumber s + 1) added
    /\ lastQueuedSequenceNumber (fold_left (fun s m => enqueueMessage m s) messages s)
       = lastQueuedSequenceNumber s + Z.of_nat (List.length added)
    /\ incl added messages.
Proof.
  induction messages as [| m rest IH]; intros s.
  - exists []. cbn. rewrite app_nil_r, Z.add_0_r. repeat split. apply incl_refl.
  - cbn [fold_left].
    destruct (IH (enqueueMessage m s)) as (added & E1 & E2 & E3 & E4).
    destruct (enqueueMessage_effect m s)
      as [(H & _ & L & I) | [(H & _ & L & I) | (H & _ & L & I)]].
    + exists (m :: added). rewrite E1, E3, I, L, <- app_assoc.
      split; [reflexivity |]. split; [| split].
      * cbn [consecutive]. split; [exact H |]. rewrite L, H in E2. exact E2.
      * cbn [List.length]. lia.
      * intros x [<- | Hx]; [left; reflexivity | right; apply E4, Hx].
    + exists added. rewrite E1, E3, I, L. rewrite L in E2.
      repeat split; [exact E2 |]. apply incl_tl, E4.
    + exists added. rewrite E1, E3, I, L. rewrite L in E2.
      repeat split; [exact E2 |]. apply incl_tl, E4.
Qed.

(** Whatever the order in which messages reach [enqueueMessages], the inbound
    queue only grows by messages of the batch whose sequence numbers are the
    next ones after [lastQueuedSequenceNumber], in order and without gap or
    repetition, and [lastQueuedSequenceNumber] ends on the last one queued. *)
Theorem enqueueMessages_in_order (messages : list Seq.t) (s : DeltaManager) :
  exists added,
    items (inbound (enqueueMessages messages s)) = items (inbound s) ++ added
    /\ consecutive (lastQueuedSequenceNumber s + 1) added
    /\ lastQueuedSequenceNumber (enqueueMessages messages s)
       = lastQueuedSequenceNumber s + Z.of_nat (List.length added)
    /\ incl added messages.
Proof.
  unfold enqueueMessages. destruct (handler s).
  - apply fold_enqueueMessage_in_order.
  - exists []. cbn. rewrite app_nil_r, Z.add_0_r. repeat split. apply incl_nil_l.
Qed.

(** *** Catching up *)

Lemma insertBySequenceNumber_In (m x : Seq.t) (l : list Seq.t) :
  In x (insertBySequenceNumber m l) <-> x = m \/ In x l.
Proof.
  induction l as [| y rest IH]; cbn.
  - intuition.
  - destruct (_ <=? _); cbn; [intuition |]. rewrite IH. intuition.
Qed.

Lemma insertBySequenceNumber_ascending (m : Seq.t) (l : list Seq.t) :
  ascending l -> ascending (insertBySequenceNumber m l).
Proof.
  induction l as [| y rest IH]; intros H.
  - cbn. split; [constructor | exact I].
  - cbn [insertBySequenceNumber].
    destruct (Z.leb_spec (Seq.sequenceNumber m) (Seq.sequenceNumber y)) as [Hle | Hgt].
    + cbn [ascending]. split; [| exact H].
      destruct H as [Hy _]. constructor; [lia |].
      eapply Forall_impl; [| exact Hy]. cbn. intros a Ha. lia.
    + destruct H as [Hy Hrest]. cbn [ascending]. split; [| apply IH, Hrest].
      apply Forall_forall. intros x Hx.
      apply insertBySequenceNumber_In in Hx. destruct Hx as [-> | Hx]; [lia |].
      rewrite Forall_forall in Hy. apply Hy, Hx.
Qed.

(** The sort is stable: the messages of one sequence number come out in the
    order they went in. *)
Lemma insertBySequenceNumber_stable (k : Z) (m : Seq.t) (l : list Seq.t) :
  filter (fun x => Seq.sequenceNumber x =? k) (insertBySequenceNumber m l)
  = filter (fun x => Seq.sequenceNumber x =? k) (m :: l).
Proof.
  induction l as [| y rest IH]; [reflexivity |].
  cbn [insertBySequenceNumber].
  destruct (Z.leb_spec (Seq.sequenceNumber m) (Seq.sequenceNumber y)) as [Hle | Hgt];
    [reflexivity |].
  cbn [filter] in *. rewrite IH.
  destruct (Z.eqb_spec (Seq.sequenceNumber y) k) as [Ey | Ey];
    destruct (Z.eqb_spec (Seq.sequenceNumber m) k) as [Em | Em];
    first [reflexivity | lia].
Qed.

Lemma sortBySequenceNumber_stable (k : Z) (l : list Seq.t) :
  filter (fun x => Seq.sequenceNumber x =? k) (sortBySequenceNumber l)
  = filter (fun x => Seq.sequenceNumber x =? k) l.
Proof.
  unfold sortBySequenceNumber. induction l as [| m rest IH]; [reflexivity |].
  cbn [fold_right]. rewrite insertBySequenceNumber_stable. cbn [filter].
  rewrite IH. reflexivity.
Qed.

Lemma sortBySequenceNumber_ascending (l : list Seq.t) :
  ascending (sortBySequenceNumber l).
Proof.
  unfold sortBySequenceNumber. induction l as [| m rest IH]; [exact I |].
  cbn [fold_right]. apply insertBySequenceNumber_ascending, IH.
Qed.

Lemma sortBySequenceNumber_In (x : Seq.t) (l : list Seq.t) :
  In x (sortBySequenceNumber l) <-> In x l.
Proof.
  unfold sortBySequenceNumber. induction l as [| m rest IH]; [reflexivity |].
  cbn [fold_right]. rewrite insertBySequenceNumber_In, IH. cbn. intuition.
Qed.

(** Replaying an ascending list: what stays pending is beyond the next
    sequence number. *)
Lemma fold_enqueueMessage_ascending (l : list Seq.t) :
  forall s,
    ascending l ->
    onlyGapsPending s ->
    (forall p x, In p (pending s) -> In x l ->
                 Seq.sequenceNumber p <= Seq.sequenceNumber x) ->
    onlyGapsPending (fold_left (fun s m => enqueueMessage m s) l s).
Proof.
  induction l as [| x rest IH]; intros s Hasc Hp Hle; [exact Hp |].
  cbn [fold_left]. destruct Hasc as [Hx Hrest].
  unfold onlyGapsPending in Hp.
  rewrite Forall_forall in Hx, Hp.
  apply IH; [exact Hrest | |].
  - unfold onlyGapsPending. apply Forall_forall. intros p Hin.
    destruct (enqueueMessage_effect x s)
      as [(H & P & L & _) | [(H & P & L & _) | (H & P & L & _)]];
      rewrite P in Hin; rewrite L.
    + specialize (Hp p Hin). specialize (Hle p x Hin (or_introl eq_refl)). lia.
    + apply in_app_or in Hin. destruct Hin as [Hin | [<- | []]].
      * apply Hp, Hin.
      * exact H.
    + apply Hp, Hin.
  - intros p y Hin Hy.
    destruct (enqueueMessage_effect x s)
      as [(H & P & L & _) | [(H & P & L & _) | (H & P & L & _)]];
      rewrite P in Hin.
    + apply (Hle p y Hin). right. exact Hy.
    + apply in_app_or in Hin. destruct Hin as [Hin | [<- | []]].
      * apply (Hle p y Hin). right. exact Hy.
      * apply Hx, Hy.
    + apply (Hle p y Hin). right. exact Hy.
Qed.

Lemma enqueueMessages_handler (messages : list Seq.t) (s : DeltaManager) :
  handler (enqueueMessages messages s) = handler s.
Proof.
  unfold enqueueMessages. destruct (handler s) eqn:E; [| exact E].
  rewrite <- E. clear E. revert s.
  induction messages as [| m rest IH]; intros s; [reflexivity |].
  cbn [fold_left]. rewrite IH. apply enqueueMessage_handler.
Qed.

(** With a handler attached, [catchUp] leaves no message pending that could
    be queued: every message still pending has a sequence number beyond
    [lastQueuedSequenceNumber + 1], whatever was pending before and whatever
    messages are passed in. The same holds when a [getDeltas] promise
    resolves, which runs [catchUp]. *)
Theorem catchUp_leaves_only_gaps (suffix : string) (messages : list Seq.t)
    (s : DeltaManager) (h : string) :
  handler s = Some h ->
  onlyGapsPending (catchUp suffix messages s)
  /\ onlyGapsPending (onGetDeltasResolved suffix messages s).
Proof.
  assert (Hcatch : forall s0, handler s0 = Some h ->
                              onlyGapsPending (catchUp suffix messages s0)).
  { intros s0 Hh. cbv beta delta [catchUp].
    name_let st1.
    assert (H1 : handler st1 = Some h) by (subst st1; exact Hh).
    clearbody st1.
    name_let st2.
    assert (H2 : handler st2 = Some h)
      by (subst st2; rewrite enqueueMessages_handler; exact H1).
    clearbody st2. rewrite H2. cbv zeta.
    unfold enqueueMessages.
    change (handler (set_pending [] st2)) with (handler st2). rewrite H2.
    apply fold_enqueueMessage_ascending.
    - apply sortBySequenceNumber_ascending.
    - constructor.
    - intros p x []. }
  intros Hh. split; [apply Hcatch, Hh |].
  cbv beta delta [onGetDeltasResolved]. cbv zeta. apply Hcatch. exact Hh.
Qed.

(** The theorem on an attached manager that holds message 3 (a gap) when the
    fetch resolves with message 1 only: 1 is queued, 3 stays pending. *)
Lemma catchUp_leaves_only_gaps_witness :
  onlyGapsPending
    (catchUp "DocumentOpen" [Scenarios.op 1]
       (enqueueMessages [Scenarios.op 3] Scenarios.attached)).
Proof.
  assert (H : handler (enqueueMessages [Scenarios.op 3] Scenarios.attached)
              = Some "handler") by (vm_compute; reflexivity).
  exact (proj1 (catchUp_leaves_only_gaps "DocumentOpen" [Scenarios.op 1] _ "handler" H)).
Defined.

(** *** The outbound stream *)

Lemma outboundStream_submitted (a b : DeltaManager) :
  submitted a = submitted b ->
  outboundStream a = outboundStream b
  /\ clientSequenceNumber a = clientSequenceNumber b.
Proof.
  unfold submitted, outboundStream. intros H. injection H as -> -> ->. split; reflexivity.
Qed.

Lemma flush_stream (s : DeltaManager) :
  outboundStream (flush s) = outboundStream s
  /\ clientSequenceNumber (flush s) = clientSequenceNumber s
  /\ baseSequenceNumber (flush s) = baseSequenceNumber s
  /\ messageBuffer (flush s) = [].
Proof.
  destruct (flush_fields s) as (F1 & F2 & F3).
  unfold outboundStream. rewrite F1, F2, F3.
  split; [| split; [reflexivity | split; [| reflexivity]]].
  - rewrite concat_app, app_nil_r. destruct (messageBuffer s); cbn.
    + rewrite app_nil_r. reflexivity.
    + rewrite app_nil_r. reflexivity.
  - unfold flush. destruct (messageBuffer s); reflexivity.
Qed.

(** What one [submit] does to the outbound stream and the counters. *)
Lemma submit_stream (type : MessageType) (contents : JsAny) (batch : bool)
    (s : DeltaManager) :
  exists m s',
    submit type contents batch s = (clientSequenceNumber s + 1, s')
    /\ outboundStream s' = outboundStream s ++ [m]
    /\ Doc.clientSequenceNumber m = clientSequenceNumber s + 1
    /\ Doc.referenceSequenceNumber m = baseSequenceNumber s
    /\ Doc.type m = type
    /\ clientSequenceNumber s' = clientSequenceNumber s + 1
    /\ baseSequenceNumber s' = baseSequenceNumber s
    /\ (batch = false -> messageBuffer s' = []).
Proof.
  cbv beta delta [submit].
  name_let st1. name_let msg. name_let out. name_let st2. name_let st3.
  exists out.
  assert (O1 : Doc.clientSequenceNumber out = clientSequenceNumber s + 1)
    by (subst out msg st1; unfold createOutboundMessage; destruct (isSystemType type);
        reflexivity).
  assert (O2 : Doc.referenceSequenceNumber out = baseSequenceNumber s)
    by (subst out msg st1; unfold createOutboundMessage; destruct (isSystemType type);
        reflexivity).
  assert (O3 : Doc.type out = type)
    by (subst out msg st1; unfold createOutboundMessage; destruct (isSystemType type);
        reflexivity).
  assert (E3 : submitted st3 = (clientSequenceNumber s + 1, messageBuffer s,
                                items (outbound s))).
  { subst st3. change (submitted (emit ?e ?x)) with (submitted x).
    subst st2. rewrite (proj1 (stop_submitted st1)). reflexivity. }
  assert (B3 : baseSequenceNumber st3 = baseSequenceNumber s).
  { subst st3. change (baseSequenceNumber (emit ?e ?x)) with (baseSequenceNumber x).
    subst st2. rewrite (proj1 (proj2 (stop_submitted st1))). reflexivity. }
  clearbody st3 out. clear msg st2 st1.
  assert (S3 : outboundStream st3 = outboundStream s
               /\ clientSequenceNumber st3 = clientSequenceNumber s + 1).
  { unfold submitted in E3. injection E3 as E1 E2 E3.
    unfold outboundStream. rewrite E1, E2, E3. split; reflexivity. }
  destruct S3 as [S3 C3]. clear E3.
  rewrite O1.
  destruct batch; cbn [negb]; cbv zeta.
  - eexists. split; [reflexivity |].
    unfold outboundStream in *. cbn [messageBuffer outbound set_messageBuffer].
    rewrite app_assoc, S3.
    cbn [clientSequenceNumber baseSequenceNumber set_messageBuffer].
    rewrite C3, O2, O3, B3.
    repeat split. discriminate.
  - eexists. split; [reflexivity |].
    destruct (flush_stream st3) as (F1 & F2 & F3 & F4).
    set (st4 := flush st3) in *. clearbody st4.
    set (st5 := set_messageBuffer (messageBuffer st4 ++ [out]) st4).
    assert (G1 : outboundStream st5 = outboundStream st4 ++ [out]).
    { subst st5. unfold outboundStream. cbn [messageBuffer outbound set_messageBuffer].
      rewrite app_assoc. reflexivity. }
    assert (G2 : clientSequenceNumber st5 = clientSequenceNumber st4) by reflexivity.
    assert (G3 : baseSequenceNumber st5 = baseSequenceNumber st4) by reflexivity.
    clearbody st5.
    destruct (flush_stream st5) as (H1 & H2 & H3 & H4).
    rewrite H1, H2, H3, H4, G1, G2, G3, F1, F2, F3, S3, C3, B3, O2, O3.
    repeat split.
Qed.

Lemma numbered_app (start : Z) (l1 l2 : list Doc.t) :
  numbered start l1 -> numbered (start + Z.of_nat (List.length l1)) l2 ->
  numbered start (l1 ++ l2).
Proof.
  revert start. induction l1 as [| m rest IH]; intros start H1 H2.
  - cbn in *. now rewrite Z.add_0_r in H2.
  - cbn [app numbered]. destruct H1 as [E H1]. split; [exact E |].
    apply IH; [exact H1 |].
    cbn [List.length] in H2. now replace (start + 1 + Z.of_nat (List.length rest))
      with (start + Z.of_nat (S (List.length rest))) by lia.
Qed.

(** Over any sequence of [submit] and [flush] calls, batched or not, nothing
    is lost or reordered: the batches on the outbound queue followed by the
    message buffer are what they were, followed by one message per [submit],
    in call order. The new messages carry the next client sequence numbers,
    one after the other, and the reference sequence number of the manager;
    the counter has advanced by the number of [submit] calls. *)
Theorem runOutbound_keeps_order (calls : list OutboundCall) (s : DeltaManager) :
  exists new,
    outboundStream (runOutbound calls s) = outboundStream s ++ new
    /\ List.length new = List.length (filter isSubmit calls)
    /\ numbered (clientSequenceNumber s + 1) new
    /\ Forall (fun m => Doc.referenceSequenceNumber m = baseSequenceNumber s) new
    /\ clientSequenceNumber (runOutbound calls s)
       = clientSequenceNumber s + Z.of_nat (List.length new).
Proof.
  unfold runOutbound.
  enough (H : exists new,
            outboundStream (fold_left (fun s c => outboundCall c s) calls s)
              = outboundStream s ++ new
            /\ List.length new = List.length (filter isSubmit calls)
            /\ numbered (clientSequenceNumber s + 1) new
            /\ Forall (fun m => Doc.referenceSequenceNumber m = baseSequenceNumber s) new
            /\ clientSequenceNumber (fold_left (fun s c => outboundCall c s) calls s)
               = clientSequenceNumber s + Z.of_nat (List.length new)
            /\ baseSequenceNumber (fold_left (fun s c => outboundCall c s) calls s)
               = baseSequenceNumber s).
  { destruct H as (new & H1 & H2 & H3 & H4 & H5 & _). exists new. repeat split; assumption. }
  revert s. induction calls as [| c rest IH]; intros s.
  - exists []. cbn. rewrite app_nil_r, Z.add_0_r. repeat split. constructor.
  - cbn [fold_left].
    destruct (IH (outboundCall c s)) as (new & H1 & H2 & H3 & H4 & H5 & H6).
    destruct c as [type contents batch |]; cbn [outboundCall filter isSubmit] in *.
    + destruct (submit_stream type contents batch s)
        as (m & s' & E & M1 & M2 & M3 & _ & M6 & M7 & _).
      rewrite E in *. cbn [snd] in *.
      exists (m :: new). rewrite H1, H5, H6, M1, M6, M7, <- app_assoc.
      rewrite M6 in H3. rewrite M7 in H4.
      split; [reflexivity |]. split; [cbn; now rewrite H2 |].
      split; [cbn [numbered]; split; assumption |].
      split; [constructor; assumption |].
      split; [cbn [List.length]; lia | reflexivity].
    + destruct (flush_stream s) as (F1 & F2 & F3 & _).
      exists new. rewrite H1, H5, H6, F1, F2, F3.
      rewrite F2 in H3. rewrite F3 in H4. repeat split; assumption.
Qed.

(** A [submit] that is not batched returns the next client sequence number,
    leaves the message buffer empty, and its message is the last one of the
    batches on the outbound queue, whatever was buffered before. *)
Theorem submit_unbatched_flushes (type : MessageType) (contents : JsAny)
    (s : DeltaManager) :
  exists m,
    fst (submit type contents false s) = clientSequenceNumber s + 1
    /\ messageBuffer (snd (submit type contents false s)) = []
    /\ List.concat (items (outbound (snd (submit type contents false s))))
       = List.concat (items (outbound s)) ++ messageBuffer s ++ [m]
    /\ Doc.clientSequenceNumber m = clientSequenceNumber s + 1
    /\ Doc.type m = type.
Proof.
  destruct (submit_stream type contents false s)
    as (m & s' & E & M1 & M2 & _ & M4 & _ & _ & H).
  exists m. rewrite E. cbn [fst snd].
  unfold outboundStream in M1. rewrite (H eq_refl), app_nil_r in M1.
  rewrite M1, app_assoc. repeat split; [apply H; reflexivity | exact M2 | exact M4].
Qed.

(** *** The reconnect ladder *)

Lemma emitDelayInfo_control (e : retryFor) (delay : Z) (s : DeltaManager) :
  closed (emitDelayInfo e delay s) = closed s
  /\ rt_attempts (emitDelayInfo e delay s) = rt_attempts s
  /\ rt_getDeltas (emitDelayInfo e delay s) = rt_getDeltas s.
Proof.
  unfold emitDelayInfo. destruct e; cbn.
  - destruct (deltaStorageDelay s) as [b |]; [| repeat split].
    destruct (negb (delay =? 0) && negb (b =? 0)); [| repeat split].
    destruct (0 <=? Z.max b delay); repeat split.
  - destruct (deltaStreamDelay s) as [a |]; [| repeat split].
    destruct (negb (a =? 0) && negb (delay =? 0)); [| repeat split].
    destruct (0 <=? Z.max delay a); repeat split.
Qed.

(** The delay after a failed attempt: what the error asks for, or twice the
    last delay, capped. *)
Lemma failedRound_next (error : JsError) (reason : string) (delay : Z)
    (mode : ConnectionMode) (s : DeltaManager) :
  rt_attempts s = [Connecting reason delay mode] ->
  closed s = false ->
  canRetryOnError error = true ->
  exists s',
    failedRound error s = Some s'
    /\ rt_attempts s' =
         [Connecting reason
            (match error with
             | ErrObject _ (Some retryAfterSeconds) => retryAfterSeconds
             | _ => Z.min (delay * 2) MaxReconnectDelay
             end) mode]
    /\ closed s' = false.
Proof.
  intros Ha Hc Hr. unfold failedRound, attemptFails. rewrite Ha. cbn [nth_error removeNth].
  cbv beta delta [onConnectFailed]. rewrite Hr. cbv beta iota delta [negb].
  name_let st1.
  assert (A1 : rt_attempts st1 = [] /\ closed st1 = false).
  { subst st1. destruct (_ =? 1); split; first [reflexivity | exact Hc]. }
  clearbody st1. destruct A1 as [A1 C1].
  name_let delayNext. name_let st2.
  destruct (emitDelayInfo_control DELTASTREAM delayNext st1) as (E1 & E2 & _).
  fold st2 in E1, E2. rewrite C1 in E1. rewrite A1 in E2. clearbody st2.
  rewrite E2. cbn [app].
  unfold waitElapses. cbn [rt_attempts set_rt_attempts nth_error removeNth].
  unfold connectCore. cbn [closed set_rt_attempts]. rewrite E1.
  eexists. split; [reflexivity |]. cbn [rt_attempts closed set_rt_attempts
                                          set_connectRepeatCount app].
  split; [reflexivity | exact E1].
Qed.

Lemma ladder_arithmetic (d : Z) (k : nat) :
  0 <= d ->
  Z.min (Z.min (d * 2) 8000 * 2 ^ Z.of_nat k) 8000
  = Z.min (d * 2 ^ Z.of_nat (S k)) 8000.
Proof.
  intros Hd.
  assert (Hp : 1 <= 2 ^ Z.of_nat k) by (apply (Z.pow_le_mono_r 2 0); lia).
  replace (2 ^ Z.of_nat (S k)) with (2 * 2 ^ Z.of_nat k)
    by (rewrite Nat2Z.inj_succ, Z.pow_succ_r; lia).
  destruct (Z.le_gt_cases (d * 2) 8000) as [H | H].
  - rewrite (Z.min_l (d * 2) 8000 H). f_equal. lia.
  - rewrite (Z.min_r (d * 2) 8000) by lia.
    rewrite Z.min_r by nia. rewrite Z.min_r by nia. reflexivity.
Qed.

(** The reconnect ladder. When the pending attempt fails [n] times in a row
    with an error that can be retried and carries no [retryAfterSeconds], the
    manager stays open and has one attempt pending again, with the same
    reason and mode, whose delay is the first delay doubled [n] times and
    capped at [MaxReconnectDelay]. *)
Theorem reconnect_ladder (n : nat) (error : JsError) (reason : string) (delay : Z)
    (mode : ConnectionMode) (s : DeltaManager) :
  rt_attempts s = [Connecting reason delay mode] ->
  closed s = false ->
  canRetryOnError error = true ->
  match error with ErrObject _ (Some _) => False | _ => True end ->
  0 <= delay <= MaxReconnectDelay ->
  exists s',
    failedRounds n error s = Some s'
    /\ rt_attempts s' =
         [Connecting reason (Z.min (delay * 2 ^ Z.of_nat n) MaxReconnectDelay) mode]
    /\ closed s' = false.
Proof.
  intros Ha Hc Hr He Hd. revert s delay Ha Hc Hd.
  induction n as [| k IH]; intros s delay Ha Hc Hd.
  - exists s. cbn [failedRounds]. split; [reflexivity |]. split; [| exact Hc].
    rewrite Ha. cbn. rewrite Z.mul_1_r, Z.min_l by lia. reflexivity.
  - cbn [failedRounds].
    destruct (failedRound_next error reason delay mode s Ha Hc Hr) as (s1 & -> & A1 & C1).
    assert (Hnext : match error with
                    | ErrObject _ (Some retryAfterSeconds) => retryAfterSeconds
                    | _ => Z.min (delay * 2) MaxReconnectDelay
                    end = Z.min (delay * 2) MaxReconnectDelay)
      by (destruct error as [| | | c [r |]]; first [reflexivity | contradiction]).
    rewrite Hnext in A1.
    destruct (IH s1 (Z.min (delay * 2) MaxReconnectDelay) A1 C1) as (s' & E & A & C).
    { unfold MaxReconnectDelay in *. lia. }
    exists s'. split; [exact E |]. split; [| exact C].
    rewrite A. unfold MaxReconnectDelay. rewrite ladder_arithmetic by lia. reflexivity.
Qed.

(** The ladder after [connect] on a new manager: 1000, 2000, 4000, 8000, 8000. *)
Lemma reconnect_ladder_witness :
  exists s',
    failedRounds 5 (ErrObject None None)
      (snd (connect "DocumentOpen" (new Browser ModeWrite true))) = Some s'
    /\ rt_attempts s' =
         [Connecting "DocumentOpen"
            (Z.min (InitialReconnectDelay * 2 ^ Z.of_nat 5) MaxReconnectDelay)
            ModeWrite]
    /\ closed s' = false.
Proof.
  apply reconnect_ladder.
  - vm_compute. reflexivity.
  - vm_compute. reflexivity.
  - reflexivity.
  - exact I.
  - unfold InitialReconnectDelay, MaxReconnectDelay. lia.
Defined.

(** A failure that comes with [retryAfterSeconds] sets the next delay to that
    value, whatever the rung. *)
Lemma failedRound_retryAfter_example :
  exists s',
    failedRound (ErrObject None (Some 30))
      (snd (connect "DocumentOpen" (new Browser ModeWrite true))) = Some s'
    /\ rt_attempts s' = [Connecting "DocumentOpen" 30 ModeWrite]
    /\ closed s' = false.
Proof.
  apply (failedRound_next (ErrObject None (Some 30)) "DocumentOpen"
           InitialReconnectDelay ModeWrite).
  - vm_compute. reflexivity.
  - vm_compute. reflexivity.
  - reflexivity.
Defined.

(** *** Closing *)

(** [close()] is idempotent: a second call changes nothing (the timer is
    already cleared, the connection closed, the pending [connect] rejected,
    and clearing or pausing a queue twice is clearing or pausing it once). *)
Theorem close_idempotent (s : DeltaManager) : close (close s) = close s.
Proof.
  destruct s as [f1 f2 f3 f4 f5 f6 f7 timer f9 f10 f11 f12 qIn qOut qSig
                 deferred conn f18 f19 f20 f21 f22 f23 f24 f25 f26 f27 f28 f29
                 f30 f31 f32 f33 f34 f35].
  destruct timer, deferred, conn; vm_compute; reflexivity.
Qed.

(** *** What [getDeltas] returns *)

Lemma getDeltasIteration_quiet (to : option Z) (l : GetDeltasLocals) (r : Round)
    (s : DeltaManager) :
  quietRound r = true ->
  closed (snd (getDeltasIteration to l (outcome r) s)) = closed s
  /\ if endsCall to (from l) r
     then fst (getDeltasIteration to l (outcome r) s)
          = Normal (Returns (allDeltas l ++ batchOf r))
     else exists delay l',
            fst (getDeltasIteration to l (outcome r) s) = Normal (Sleeps delay l')
            /\ from l' = fromAfter (from l) r
            /\ allDeltas l' = allDeltas l ++ batchOf r.
Proof.
  unfold quietRound, batchOf, endsCall, fromAfter. intros H.
  apply andb_prop in H. destruct H as [_ H].
  destruct (outcome r) as [error | error | deltas]; [discriminate | |].
  - unfold getDeltasIteration, tryBlock, afterTry. cbn [negb orb]. rewrite H.
    cbn [negb fst snd]. split.
    + etransitivity; [apply emitDelayInfo_control | reflexivity].
    + do 2 eexists. split; [reflexivity |]. cbn. now rewrite app_nil_r.
  - unfold getDeltasIteration, tryBlock, afterTry, maxFetchTo.
    destruct (match to with None => _ | Some t => _ end); cbn [fst snd].
    + split; [| reflexivity].
      etransitivity; [apply emitDelayInfo_control | reflexivity].
    + split; [| do 2 eexists; repeat split; reflexivity].
      etransitivity; [apply emitDelayInfo_control | reflexivity].
Qed.

Lemma getDeltasLoop_quiet (to : option Z) (script : list Round) :
  forall (l : GetDeltasLocals) (s : DeltaManager),
    closed s = false ->
    forallb quietRound script = true ->
    fst (getDeltasLoop to script l s)
    = match roundsUsed to (from l) script with
      | Some used => Fulfilled (allDeltas l ++ List.concat (map batchOf used))
      | None => Pending
      end.
Proof.
  induction script as [| r rest IH]; intros l s Hc Hq.
  - cbn. rewrite Hc. reflexivity.
  - cbn [forallb] in Hq. apply andb_prop in Hq. destruct Hq as [Hr Hq].
    assert (Hflags : closedWhileFetching r = false /\ closedWhileSleeping r = false).
    { unfold quietRound in Hr. destruct (closedWhileFetching r), (closedWhileSleeping r);
        try discriminate. split; reflexivity. }
    destruct Hflags as [Hf Hs].
    cbn [getDeltasLoop roundsUsed]. rewrite Hc, Hf, Hs.
    destruct (getDeltasIteration_quiet to l r s Hr) as [Hclosed Hit].
    destruct (getDeltasIteration to l (outcome r) s) as [c s1].
    cbn [fst snd] in Hclosed, Hit.
    destruct (endsCall to (from l) r).
    + subst c. cbn. now rewrite app_nil_r.
    + destruct Hit as (delay & l' & -> & Hfrom & Hall).
      rewrite (IH l' s1) by (first [now rewrite Hclosed | exact Hq]).
      rewrite Hfrom, Hall.
      destruct (roundsUsed to (fromAfter (from l) r) rest) as [used |];
        [| reflexivity].
      cbn [map List.concat]. now rewrite <- app_assoc.
Qed.

Lemma roundsUsed_prefix (to : option Z) (script : list Round) :
  forall from used,
    roundsUsed to from script = Some used ->
    used <> [] /\ exists rest, script = used ++ rest.
Proof.
  induction script as [| r rest IH]; intros from used H; [discriminate |].
  cbn [roundsUsed] in H. destruct (endsCall to from r).
  - injection H as <-. split; [discriminate |]. exists rest. reflexivity.
  - destruct (roundsUsed to (fromAfter from r) rest) as [u |] eqn:E; [| discriminate].
    injection H as <-. destruct (IH _ _ E) as [_ [rest' ->]].
    split; [discriminate |]. exists rest'. reflexivity.
Qed.

(** As long as nobody closes the manager and every failure can be retried,
    [getDeltas] loses nothing and waits for nothing it has: its promise is
    fulfilled exactly when a round of the script ends the call, with the
    deltas of all the batches fetched up to that round, in the order they
    were fetched; it is pending when no round ends the call. The rounds used
    are a beginning of the script, and not an empty one. *)
Theorem getDeltas_returns_all_batches (suffix : string) (fromInitial : Z)
    (to : option Z) (script : list Round) (s : DeltaManager) :
  closed s = false ->
  forallb quietRound script = true ->
  fst (getDeltas suffix fromInitial to script s)
  = match roundsUsed to fromInitial script with
    | Some used => Fulfilled (List.concat (map batchOf used))
    | None => Pending
    end
  /\ forall used,
       roundsUsed to fromInitial script = Some used ->
       used <> [] /\ exists rest, script = used ++ rest.
Proof.
  intros Hc Hq. split; [| apply roundsUsed_prefix].
  unfold getDeltas. cbv zeta. rewrite getDeltasLoop_quiet; [reflexivity | exact Hc | exact Hq].
Qed.

(** The theorem on a fetch of (0, 4) that gets 1 and 2, then a retryable
    failure, then 3: the third round ends the call. *)
Lemma getDeltas_returns_all_batches_witness :
  fst (getDeltas "DocumentOpen" 0 (Some 4)
         [{| closedWhileFetching := false;
             outcome := GetReturns [Scenarios.op 1; Scenarios.op 2];
             closedWhileSleeping := false |};
          {| closedWhileFetching := false;
             outcome := GetRejects (ErrObject None None);
             closedWhileSleeping := false |};
          {| closedWhileFetching := false;
             outcome := GetReturns [Scenarios.op 3];
             closedWhileSleeping := false |}]
         Scenarios.attached)
  = Fulfilled [Scenarios.op 1; Scenarios.op 2; Scenarios.op 3].
Proof.
  assert (Hc : closed Scenarios.attached = false) by (vm_compute; reflexivity).
  destruct (getDeltas_returns_all_batches "DocumentOpen" 0 (Some 4)
              [{| closedWhileFetching := false;
                  outcome := GetReturns [Scenarios.op 1; Scenarios.op 2];
                  closedWhileSleeping := false |};
               {| closedWhileFetching := false;
                  outcome := GetRejects (ErrObject None None);
                  closedWhileSleeping := false |};
               {| closedWhileFetching := false;
                  outcome := GetReturns [Scenarios.op 3];
                  closedWhileSleeping := false |}]
              Scenarios.attached Hc) as [H _].
  - vm_compute. reflexivity.
  - rewrite H. vm_compute. reflexivity.
Defined.

(** *** When [getDeltas] rejects *)

Lemma getDeltasIteration_throws (to : option Z) (l : GetDeltasLocals)
    (o : StorageOutcome) (s : DeltaManager) (e : JsError) :
  fst (getDeltasIteration to l o s) = Throw e ->
  truthy_error e = true /\ closed s = true
  /\ (o = ConnectToStorageRejects e
      \/ (o = GetRejects e /\ canRetryOnError e = false)).
Proof.
  unfold getDeltasIteration, tryBlock.
  destruct o as [error | error | deltas].
  - cbn [negb orb]. rewrite closeOnConnectionError_cases.
    destruct (truthy_error error) eqn:Et; cbn [andb]; [| discriminate].
    change (hasListeners (sendTelemetryEvent _ _ s)) with (hasListeners s).
    destruct (hasListeners s) eqn:Ec; cbn [negb]; [discriminate |].
    apply hasListeners_closed in Ec.
    cbn [fst]. intros H. injection H as <-. repeat split; [exact Et | exact Ec | now left].
  - cbn [negb orb]. destruct (canRetryOnError error) eqn:Er; cbn [negb].
    + unfold afterTry. cbn [fst]. discriminate.
    + rewrite closeOnConnectionError_cases.
      destruct (truthy_error error) eqn:Et; cbn [andb]; [| discriminate].
      change (hasListeners (sendTelemetryEvent _ _ s)) with (hasListeners s).
      destruct (hasListeners s) eqn:Ec; cbn [negb]; [discriminate |].
      apply hasListeners_closed in Ec.
      cbn [fst]. intros H. injection H as <-.
      repeat split; [exact Et | exact Ec |]. right. split; [reflexivity | exact Er].
  - destruct (match to with None => _ | Some t => _ end); unfold afterTry; discriminate.
Qed.

Lemma getDeltasLoop_rejects (to : option Z) (script : list Round) :
  forall (l : GetDeltasLocals) (s : DeltaManager) (e : JsError),
    fst (getDeltasLoop to script l s) = RejectedWith e ->
    truthy_error e = true
    /\ exists used r rest,
         script = used ++ r :: rest
         /\ closedWhileFetching r = true
         /\ (outcome r = ConnectToStorageRejects e
             \/ (outcome r = GetRejects e /\ canRetryOnError e = false)).
Proof.
  induction script as [| r rest IH]; intros l s e.
  - cbn. destruct (closed s); discriminate.
  - cbn [getDeltasLoop]. destruct (closed s) eqn:Hc; [discriminate |].
    assert (Hit := getDeltasIteration_throws to l (outcome r)
                     (if closedWhileFetching r then close s else s)).
    destruct (getDeltasIteration to l (outcome r)
                (if closedWhileFetching r then close s else s)) as [[ie | e1] s1].
    + destruct ie as [result | delay l1]; [discriminate |].
      intros H. destruct (IH _ _ _ H) as (Ht & used & r' & rest' & -> & Hf & Ho).
      split; [exact Ht |]. exists (r :: used), r', rest'. repeat split; assumption.
    + cbn [fst]. intros H. injection H as ->.
      destruct (Hit e eq_refl) as (Ht & Hclosed & Ho).
      split; [exact Ht |]. exists [], r, rest. split; [reflexivity |].
      split; [| exact Ho].
      destruct (closedWhileFetching r); [reflexivity | congruence].
Qed.

(** When [getDeltas] rejects. Its promise is rejected only with an error of
    a request that failed for good (the storage connection failed, or
    [canRetryOnError] is false) while the manager had been closed during
    that request; the error is then one [emit("error")] was called with. A
    manager closed at entry resolves the call with the empty array at once,
    and a call without any answer yet is pending. When the first request
    fails for good, the manager is closed afterwards in any case, and the
    promise is rejected if the manager was closed during the request and the
    error is truthy, and resolved with the empty array otherwise. *)
Theorem getDeltas_rejects_only_after_close (suffix : string) (fromInitial : Z)
    (to : option Z) (script : list Round) (s : DeltaManager) :
  (forall e,
     fst (getDeltas suffix fromInitial to script s) = RejectedWith e ->
     truthy_error e = true
     /\ exists used r rest,
          script = used ++ r :: rest
          /\ closedWhileFetching r = true
          /\ (outcome r = ConnectToStorageRejects e
              \/ (outcome r = GetRejects e /\ canRetryOnError e = false)))
  /\ (closed s = true ->
      fst (getDeltas suffix fromInitial to script s) = Fulfilled [])
  /\ (closed s = false ->
      fst (getDeltas suffix fromInitial to [] s) = Pending)
  /\ (forall r rest e,
        closed s = false ->
        outcome r = ConnectToStorageRejects e
        \/ (outcome r = GetRejects e /\ canRetryOnError e = false) ->
        fst (getDeltas suffix fromInitial to (r :: rest) s)
        = (if closedWhileFetching r && truthy_error e
           then RejectedWith e else Fulfilled [])
        /\ closed (snd (getDeltas suffix fromInitial to (r :: rest) s)) = true).
Proof.
  split; [| split; [| split]].
  - intros e. unfold getDeltas. cbv zeta. apply getDeltasLoop_rejects.
  - intros Hc. unfold getDeltas. cbv zeta.
    rewrite getDeltasLoop_closed; [reflexivity | exact Hc].
  - intros Hc. unfold getDeltas. cbv zeta. cbn [getDeltasLoop].
    change (closed (sendTelemetryEvent _ _ s)) with (closed s). rewrite Hc. reflexivity.
  - intros r rest e Hc Ho. unfold getDeltas. cbv zeta. cbn [getDeltasLoop].
    change (closed (sendTelemetryEvent _ _ s)) with (closed s). rewrite Hc.
    set (s0 := sendTelemetryEvent _ _ s).
    assert (H0 : closed s0 = false) by exact Hc. clearbody s0.
    set (s1 := if closedWhileFetching r then close s0 else s0).
    assert (H1 : hasListeners s1 = negb (closedWhileFetching r)).
    { subst s1. destruct (closedWhileFetching r);
        [apply close_removes_listeners | apply hasListeners_open, H0]. }
    clearbody s1.
    assert (Hit : getDeltasIteration to {| retry := 0; from := fromInitial; allDeltas := [] |}
                    (outcome r) s1
                  = match closeOnConnectionError e
                            (sendTelemetryEvent "GetDeltas_Error"
                               [("fetchTo",
                                 fetchTo to {| retry := 0; from := fromInitial;
                                               allDeltas := [] |});
                                ("from", fromInitial); ("retry", 0 + 1)] s1) with
                    | (Normal _, s2) => (Normal (Returns []), s2)
                    | (Throw e2, s2) => (Throw e2, s2)
                    end).
    { unfold getDeltasIteration, tryBlock.
      destruct Ho as [-> | [-> Hr]]; cbn [negb orb]; [reflexivity |].
      rewrite Hr. reflexivity. }
    rewrite Hit.
    assert (Hclosed := closeOnConnectionError_closed e
                         (sendTelemetryEvent "GetDeltas_Error"
                            [("fetchTo",
                              fetchTo to {| retry := 0; from := fromInitial;
                                            allDeltas := [] |});
                             ("from", fromInitial); ("retry", 0 + 1)] s1)).
    rewrite closeOnConnectionError_cases in Hclosed |- *.
    change (hasListeners (sendTelemetryEvent _ _ s1)) with (hasListeners s1)
      in Hclosed |- *.
    rewrite H1 in Hclosed |- *.
    destruct (closedWhileFetching r), (truthy_error e); cbn [negb andb fst snd] in *;
      split; first [reflexivity | exact Hclosed].
Qed.

(** *** A closed manager *)

Lemma quietPart_closed (s s' : DeltaManager) :
  quietPart s' = quietPart s -> closed s = true -> closed s' = true.
Proof.
  unfold quietPart. intros H Hc. injection H as H1 _ _ _ _. rewrite H1. exact Hc.
Qed.

Lemma quietPart_runPart (s s' : DeltaManager) :
  quietPart s' = quietPart s -> runPart s' = runPart s.
Proof.
  unfold quietPart, runPart. intros H. injection H as H1 H2 H3 _ _.
  rewrite H1, H2, H3. reflexivity.
Qed.

Lemma runPart_closed (s s' : DeltaManager) :
  runPart s' = runPart s -> closed s = true -> closed s' = true.
Proof.
  unfold runPart. intros H Hc. injection H as H1 _ _. rewrite H1. exact Hc.
Qed.

Lemma runPart_fields (s : DeltaManager) (c : bool) (g : list GetDeltasCall)
    (a : list PendingConnect) :
  runPart s = (c, g, a) -> closed s = c /\ rt_getDeltas s = g /\ rt_attempts s = a.
Proof. unfold runPart. intros H. injection H as -> -> ->. repeat split. Qed.

Lemma startedPart_fields (s : DeltaManager) (c : bool) (g : list GetDeltasCall)
    (n : nat) :
  startedPart s = (c, g, n) ->
  closed s = c /\ rt_getDeltas s = g /\ connectsPending s = n.
Proof. unfold startedPart. intros H. injection H as -> -> ->. repeat split. Qed.

Lemma quietPart_fields (s : DeltaManager) (c : bool) (g : list GetDeltasCall)
    (a : list PendingConnect) (k : option DeltaConnection) (e : list Event) :
  quietPart s = (c, g, a, k, e) ->
  closed s = c /\ rt_getDeltas s = g /\ rt_attempts s = a /\ connection s = k
  /\ rt_emitted s = e.
Proof. unfold quietPart. intros H. injection H as -> -> -> -> ->. repeat split. Qed.

Lemma fetchMissingDeltas_quietPart (suffix : string) (from : Z) (to : option Z)
    (s : DeltaManager) :
  closed s = true -> quietPart (fetchMissingDeltas suffix from to s) = quietPart s.
Proof.
  intros H. unfold fetchMissingDeltas. destruct (fetching s); [reflexivity |].
  rewrite H. reflexivity.
Qed.

Lemma enqueueMessage_quietPart (s : DeltaManager) (m : Seq.t) :
  closed s = true -> quietPart (enqueueMessage m s) = quietPart s.
Proof.
  intros H. unfold enqueueMessage, handleOutOfOrderMessage.
  destruct (negb _); [| reflexivity].
  destruct (_ <=? _); [reflexivity |].
  cbv zeta. rewrite fetchMissingDeltas_quietPart; [reflexivity | exact H].
Qed.

Lemma fold_left_quietPart {A} (f : DeltaManager -> A -> DeltaManager) (l : list A) :
  (forall s x, closed s = true -> quietPart (f s x) = quietPart s) ->
  forall s, closed s = true -> quietPart (fold_left f l s) = quietPart s.
Proof.
  intros Hf. induction l as [| x rest IH]; intros s H; [reflexivity |].
  cbn [fold_left]. rewrite IH.
  - apply Hf, H.
  - eapply quietPart_closed; [apply Hf, H | exact H].
Qed.

Lemma enqueueMessages_quietPart (messages : list Seq.t) (s : DeltaManager) :
  closed s = true -> quietPart (enqueueMessages messages s) = quietPart s.
Proof.
  intros H. unfold enqueueMessages. destruct (handler s); [| reflexivity].
  apply fold_left_quietPart; [| exact H]. intros s1 m. apply enqueueMessage_quietPart.
Qed.

Lemma catchUp_quietPart (suffix : string) (messages : list Seq.t) (s : DeltaManager) :
  closed s = true -> quietPart (catchUp suffix messages s) = quietPart s.
Proof.
  intros H. unfold catchUp. cbv zeta.
  match goal with
  | |- context [enqueueMessages messages ?x] =>
      assert (E1 : quietPart (enqueueMessages messages x) = quietPart s)
        by (rewrite enqueueMessages_quietPart; [reflexivity | exact H]);
      set (s2 := enqueueMessages messages x) in *
  end.
  assert (C2 : closed s2 = true) by (eapply quietPart_closed; [exact E1 | exact H]).
  clearbody s2.
  destruct (handler s2); [| exact E1].
  rewrite enqueueMessages_quietPart; [exact E1 | exact C2].
Qed.

Lemma enqueInitalSignals_quietPart (signals : list ISignalMessage) (s : DeltaManager) :
  quietPart (enqueInitalSignals signals s) = quietPart s.
Proof.
  unfold enqueInitalSignals. revert s.
  induction signals as [| x rest IH]; intros s; [reflexivity |].
  cbn [fold_left]. rewrite IH. reflexivity.
Qed.

Lemma processInitialMessages_quietPart (messages : list Seq.t)
    (signals : list ISignalMessage) (s : DeltaManager) :
  closed s = true ->
  quietPart (processInitialMessages messages signals s) = quietPart s.
Proof.
  intros H. unfold processInitialMessages, enqueInitalOps.
  rewrite enqueInitalSignals_quietPart.
  destruct messages; [reflexivity |]. apply catchUp_quietPart, H.
Qed.

Lemma emitDelayInfo_runPart (e : retryFor) (delay : Z) (s : DeltaManager) :
  runPart (emitDelayInfo e delay s) = runPart s.
Proof.
  unfold runPart.
  destruct (emitDelayInfo_control e delay s) as (-> & -> & ->). reflexivity.
Qed.

Lemma emitDelayInfo_connection (e : retryFor) (delay : Z) (s : DeltaManager) :
  connection (emitDelayInfo e delay s) = connection s.
Proof.
  unfold emitDelayInfo. destruct e; cbn.
  - destruct (deltaStorageDelay s) as [b |]; [| reflexivity].
    destruct (negb (delay =? 0) && negb (b =? 0)); [| reflexivity].
    destruct (0 <=? Z.max b delay); reflexivity.
  - destruct (deltaStreamDelay s) as [a |]; [| reflexivity].
    destruct (negb (a =? 0) && negb (delay =? 0)); [| reflexivity].
    destruct (0 <=? Z.max delay a); reflexivity.
Qed.

Lemma flush_runPart (s : DeltaManager) : runPart (flush s) = runPart s.
Proof. unfold flush. destruct (messageBuffer s); reflexivity. Qed.

Lemma stop_runPart (s : DeltaManager) :
  runPart (stopSequenceNumberUpdate s) = runPart s.
Proof.
  unfold stopSequenceNumberUpdate. destruct (updateSequenceNumberTimer s); reflexivity.
Qed.

Lemma submit_runPart (type : MessageType) (contents : JsAny) (batch : bool)
    (s : DeltaManager) :
  runPart (snd (submit type contents batch s)) = runPart s.
Proof.
  unfold submit. cbv zeta. cbn [snd].
  transitivity
    (runPart (stopSequenceNumberUpdate
                (set_clientSequenceNumber (clientSequenceNumber s + 1) s))).
  - destruct batch; cbn [negb].
    + reflexivity.
    + rewrite flush_runPart.
      change (runPart (set_messageBuffer ?b ?x)) with (runPart x).
      rewrite flush_runPart. reflexivity.
  - rewrite stop_runPart. reflexivity.
Qed.

Lemma schedule_runPart (m : Seq.t) (immediateNoOp : bool) (s : DeltaManager) :
  runPart (scheduleSequenceNumberUpdate m immediateNoOp s) = runPart s.
Proof.
  unfold scheduleSequenceNumberUpdate.
  destruct (negb (active s)); [apply stop_runPart |].
  destruct immediateNoOp.
  { cbv zeta. rewrite submit_runPart. apply stop_runPart. }
  destruct (MessageType_isNoOp (Seq.type m)); [reflexivity |].
  destruct (updateSequenceNumberTimer s); reflexivity.
Qed.

Lemma processMessage_runPart (jsonParses : string -> bool) (m : Seq.t)
    (result : IProcessMessageResult) (s : DeltaManager) :
  runPart (snd (processMessage jsonParses m result s)) = runPart s.
Proof.
  unfold processMessage. cbv zeta.
  set (s1 := match connection s with Some _ => _ | None => _ end).
  assert (H1 : runPart s1 = runPart s).
  { subst s1. destruct (connection s); [| reflexivity].
    destruct (String.eqb _ _); [| reflexivity].
    destruct (_ =? _); reflexivity. }
  clearbody s1.
  destruct (contentsFailToParse jsonParses m); [exact H1 |].
  destruct (negb (minSequenceNumber s1 <=? _)); [exact H1 |].
  destruct (negb (_ =? _)); [exact H1 |].
  match goal with
  | |- context [scheduleSequenceNumberUpdate m ?b ?x] =>
      assert (H2 : runPart x = runPart s)
  end.
  { destruct (_ <? _); exact H1. }
  destruct (resultError result) as [error |].
  - destruct (truthy_error error); [exact H2 |].
    cbn [snd]. change (runPart (emit ?e ?x)) with (runPart x).
    rewrite schedule_runPart. exact H2.
  - cbn [snd]. change (runPart (emit ?e ?x)) with (runPart x).
    rewrite schedule_runPart. exact H2.
Qed.

Lemma fireTimer_runPart (h : positive) (s s' : DeltaManager) :
  fireTimer h s = Some s' -> runPart s' = runPart s.
Proof.
  unfold fireTimer. destruct (armed h s); [| discriminate].
  intros E. injection E as <-.
  unfold ackTimerCallback. cbv zeta.
  destruct (active _); [rewrite submit_runPart |]; reflexivity.
Qed.

Lemma close_runPart (s : DeltaManager) :
  runPart (close s) = (true, rt_getDeltas s, rt_attempts s).
Proof.
  unfold close. cbv zeta.
  assert (Hs := stop_runPart (set_closed true s)).
  set (s1 := stopSequenceNumberUpdate (set_closed true s)) in *.
  destruct (connection s1), (connecting _); exact Hs.
Qed.

Lemma close_nextId (s : DeltaManager) : rt_nextId (close s) = rt_nextId s.
Proof.
  unfold close, stopSequenceNumberUpdate. cbn.
  destruct (updateSequenceNumberTimer s); cbn;
    destruct (connection s); cbn; destruct (connecting s); reflexivity.
Qed.

Lemma closeOnConnectionError_runPart (error : JsError) (s : DeltaManager) :
  runPart (snd (closeOnConnectionError error s))
  = (true, rt_getDeltas s, rt_attempts s).
Proof.
  rewrite closeOnConnectionError_cases.
  destruct (truthy_error error) eqn:Et; cbn [andb].
  - destruct (hasListeners s) eqn:Ec; cbn [negb snd].
    + rewrite close_runPart. destruct (connecting s); reflexivity.
    + apply hasListeners_closed in Ec.
      unfold runPart. destruct (connecting s); cbn; rewrite Ec; reflexivity.
  - cbn [snd]. rewrite close_runPart. destruct (connecting s); reflexivity.
Qed.

Lemma runPart_after_close (s s' : DeltaManager) :
  runPart s' = (true, rt_getDeltas s, rt_attempts s) ->
  closed s = true -> runPart s' = runPart s.
Proof. intros H Hc. rewrite H. unfold runPart. rewrite Hc. reflexivity. Qed.

Lemma connectCore_closed (reason : string) (delay : Z) (mode : ConnectionMode)
    (s : DeltaManager) :
  closed s = true -> connectCore reason delay mode s = s.
Proof. intros H. unfold connectCore. rewrite H. reflexivity. Qed.

(** The success callback on a closed manager: the connection is installed
    and announced all the same. *)
Lemma onConnected_closed (c : DeltaConnection) (s : DeltaManager) :
  closed s = true ->
  exists before,
    quietPart (onConnected c s)
    = (true, rt_getDeltas s, rt_attempts s, Some c, before ++ [EvConnect (details c)]).
Proof.
  intros H. cbv beta delta [onConnected].
  name_let s1. name_let s2. name_let s3.
  assert (H3 : runPart s3 = runPart s /\ connection s3 = Some c)
    by (split; reflexivity).
  clearbody s3. clear s1 s2.
  name_let s4.
  assert (H4 : runPart s4 = runPart s /\ connection s4 = Some c).
  { destruct H3 as [R3 C3]. split.
    - subst s4. rewrite emitDelayInfo_runPart. exact R3.
    - subst s4. rewrite emitDelayInfo_connection. exact C3. }
  clearbody s4. clear H3 s3.
  name_let s5. name_let s6. name_let s7.
  assert (H7 : runPart s7 = runPart s /\ connection s7 = Some c).
  { subst s7 s6 s5. destruct H4 as [R4 C4].
    destruct (1 <? _); split; first [exact R4 | exact C4]. }
  clearbody s7. clear H4 s5 s6.
  name_let s8. name_let s9.
  assert (H9 : runPart s9 = runPart s /\ connection s9 = Some c).
  { subst s9 s8. destruct H7 as [R7 C7].
    destruct (connecting _); split; first [exact R7 | exact C7]. }
  clearbody s9. clear H7 s8.
  name_let s10.
  destruct H9 as [R9 C9].
  assert (C10 : closed s10 = true).
  { subst s10. eapply runPart_closed; [exact R9 | exact H]. }
  exists (rt_emitted s9).
  rewrite processInitialMessages_quietPart by exact C10.
  subst s10. unfold quietPart.
  destruct (runPart_fields _ _ _ _ R9) as (E1 & E2 & E3).
  cbn [closed rt_getDeltas rt_attempts connection rt_emitted emit set_rt_emitted].
  rewrite E1, E2, E3, C9, H. reflexivity.
Qed.

Lemma removeNth_filter_le {A} (f : A -> bool) (i : nat) (l : list A) :
  (List.length (filter f (removeNth i l)) <= List.length (filter f l))%nat.
Proof.
  revert i. induction l as [| x rest IH]; intros i; [destruct i; apply Nat.le_refl |].
  destruct i as [| j]; cbn [removeNth filter].
  - destruct (f x); cbn [List.length]; lia.
  - specialize (IH j). destruct (f x); cbn [List.length]; lia.
Qed.

Lemma startedPart_le_of_runPart (s s' : DeltaManager) :
  runPart s' = runPart s -> closed s = true ->
  closed s' = true /\ rt_getDeltas s' = rt_getDeltas s
  /\ (connectsPending s' <= connectsPending s)%nat.
Proof.
  unfold runPart, connectsPending. intros H Hc. injection H as H1 H2 H3.
  rewrite H1, H2, H3. repeat split; [exact Hc | apply Nat.le_refl].
Qed.

Lemma onConnectFailed_closed (reason : string) (delay : Z) (mode : ConnectionMode)
    (error : JsError) (s : DeltaManager) :
  closed s = true ->
  startedPart (onConnectFailed reason delay mode error s) = startedPart s.
Proof.
  intros H. cbv beta delta [onConnectFailed].
  destruct (negb (canRetryOnError error)).
  - destruct (runPart_fields _ _ _ _ (closeOnConnectionError_runPart error s))
      as (E1 & E2 & E3).
    unfold startedPart, connectsPending. rewrite E1, E2, E3, H. reflexivity.
  - name_let s1.
    assert (R1 : runPart s1 = runPart s)
      by (subst s1; destruct (_ =? 1); reflexivity).
    clearbody s1.
    name_let delayNext. clearbody delayNext.
    name_let s2.
    assert (R2 : runPart s2 = runPart s)
      by (subst s2; rewrite emitDelayInfo_runPart; exact R1).
    clearbody s2. destruct (runPart_fields _ _ _ _ R2) as (E1 & E2 & E3).
    unfold startedPart, connectsPending.
    cbn [closed rt_getDeltas rt_attempts set_rt_attempts].
    rewrite E1, E2, E3, filter_app. cbn [filter]. rewrite app_nil_r. reflexivity.
Qed.

Lemma reconnectOnError_closed (reason : string) (c : DeltaConnection)
    (mode : ConnectionMode) (error : JsError) (s : DeltaManager) :
  closed s = true -> runPart (reconnectOnError reason c mode error s) = runPart s.
Proof.
  intros H. unfold reconnectOnError.
  destruct (connection s) as [current |]; [| reflexivity].
  destruct (Pos.eqb _ _); [| reflexivity].
  cbv zeta.
  match goal with |- runPart (if ?b then _ else _) = _ => destruct b end.
  - rewrite closeOnConnectionError_runPart.
    unfold runPart. rewrite H. reflexivity.
  - rewrite connectCore_closed by exact H. reflexivity.
Qed.

Lemma getDeltasIteration_closed (to : option Z) (l : GetDeltasLocals)
    (o : StorageOutcome) (s : DeltaManager) :
  closed s = true -> runPart (snd (getDeltasIteration to l o s)) = runPart s.
Proof.
  intros H. unfold getDeltasIteration, tryBlock, afterTry.
  destruct o as [error | error | deltas].
  - cbn [negb orb fst snd]. rewrite catch_close_state, closeOnConnectionError_runPart.
    unfold runPart. rewrite H. reflexivity.
  - cbn [negb orb]. destruct (negb (canRetryOnError error)); cbn [snd].
    + rewrite catch_close_state, closeOnConnectionError_runPart.
      unfold runPart. rewrite H. reflexivity.
    + rewrite emitDelayInfo_runPart. reflexivity.
  - destruct (match to with None => _ | Some t => _ end); cbn [snd];
      rewrite emitDelayInfo_runPart; reflexivity.
Qed.

Lemma attachOpHandler_closed (minSeq seq : Z) (h : string) (resume : bool)
    (s : DeltaManager) :
  closed s = true ->
  runPart (snd (attachOpHandler minSeq seq h resume s)) = runPart s.
Proof.
  intros H. unfold attachOpHandler. cbv zeta.
  change (handler (set_lastQueuedSequenceNumber _ _)) with (handler s).
  destruct (handler s); [reflexivity |].
  destruct resume; [| reflexivity].
  change (pending (set_inboundSignal _ _)) with (pending s).
  destruct (pending s); cbn [snd]; apply quietPart_runPart.
  - rewrite fetchMissingDeltas_quietPart; [reflexivity | exact H].
  - rewrite catchUp_quietPart; [reflexivity | exact H].
Qed.

(** Once closed, always closed, and nothing is started any more: no step of
    a closed manager opens it again, starts a [getDeltas] call, or starts a
    connection attempt. *)
Theorem closed_is_final (s s' : DeltaManager) :
  Step s s' ->
  closed s = true ->
  closed s' = true
  /\ rt_getDeltas s' = rt_getDeltas s
  /\ (connectsPending s' <= connectsPending s)%nat.
Proof.
  intros Hstep H. destruct Hstep.
  - apply startedPart_le_of_runPart; [apply attachOpHandler_closed, H | exact H].
  - apply startedPart_le_of_runPart; [reflexivity | exact H].
  - apply startedPart_le_of_runPart; [reflexivity | exact H].
  - apply startedPart_le_of_runPart; [| exact H].
    unfold connect. rewrite H. reflexivity.
  - apply startedPart_le_of_runPart; [apply flush_runPart | exact H].
  - apply startedPart_le_of_runPart; [apply submit_runPart | exact H].
  - apply startedPart_le_of_runPart; [| exact H].
    apply runPart_after_close; [apply close_runPart | exact H].
  - apply startedPart_le_of_runPart; [apply processMessage_runPart | exact H].
  - apply startedPart_le_of_runPart; [apply schedule_runPart | exact H].
  - apply startedPart_le_of_runPart; [eapply fireTimer_runPart; eassumption | exact H].
  - unfold attemptSucceeds in *.
    destruct (nth_error _ _) as [[] |]; try discriminate.
    match goal with E : Some _ = Some _ |- _ => cbv zeta in E; injection E as <- end.
    match goal with
    | |- context [onConnected ?c ?x] =>
        destruct (onConnected_closed c x H) as (before & Q)
    end.
    destruct (quietPart_fields _ _ _ _ _ _ Q) as (E1 & E2 & E3 & _ & _).
    unfold connectsPending. rewrite E1, E2, E3.
    cbn [rt_getDeltas rt_attempts set_rt_attempts set_rt_nextId].
    repeat split. apply removeNth_filter_le.
  - unfold attemptFails in *.
    destruct (nth_error _ _) as [[] |]; try discriminate.
    match goal with E : Some _ = Some _ |- _ => cbv zeta in E; injection E as <- end.
    match goal with
    | |- context [onConnectFailed ?r ?d ?m ?e ?x] =>
        assert (Q := onConnectFailed_closed r d m e x H)
    end.
    destruct (startedPart_fields _ _ _ _ Q) as (E1 & E2 & E3).
    rewrite E1, E2, E3. unfold connectsPending.
    cbn [closed rt_getDeltas rt_attempts set_rt_attempts].
    repeat split; [exact H | apply removeNth_filter_le].
  - unfold waitElapses in *.
    destruct (nth_error _ _) as [[] |]; try discriminate.
    match goal with E : Some _ = Some _ |- _ => cbv zeta in E; injection E as <- end.
    rewrite connectCore_closed by exact H. unfold connectsPending.
    cbn [closed rt_getDeltas rt_attempts set_rt_attempts].
    repeat split; [exact H | apply removeNth_filter_le].
  - apply startedPart_le_of_runPart; [| exact H].
    apply quietPart_runPart, enqueueMessages_quietPart, H.
  - apply startedPart_le_of_runPart; [reflexivity | exact H].
  - apply startedPart_le_of_runPart; [apply reconnectOnError_closed, H | exact H].
  - apply startedPart_le_of_runPart; [apply reconnectOnError_closed, H | exact H].
  - apply startedPart_le_of_runPart; [| exact H].
    unfold onError. cbv zeta. rewrite reconnectOnError_closed by exact H. reflexivity.
  - apply startedPart_le_of_runPart; [| exact H].
    unfold onGetDeltasResolved. cbv zeta.
    transitivity (runPart (emit EvCaughtUp (set_fetching false s))); [| reflexivity].
    apply quietPart_runPart, catchUp_quietPart, H.
  - apply startedPart_le_of_runPart; [apply getDeltasIteration_closed, H | exact H].
  - apply startedPart_le_of_runPart; [| exact H].
    rewrite getDeltasLoop_closed by assumption.
    cbn [snd]. rewrite emitDelayInfo_runPart. reflexivity.
Qed.

(** The theorem on a manager closed while it was connecting, when a batch of
    fetched deltas arrives. *)
Lemma closed_is_final_witness :
  closed (onGetDeltasResolved "DocumentOpen" [Scenarios.op 1]
            (close (snd (connect "DocumentOpen" (new Browser ModeWrite true))))) = true
  /\ rt_getDeltas (onGetDeltasResolved "DocumentOpen" [Scenarios.op 1]
                     (close (snd (connect "DocumentOpen" (new Browser ModeWrite true)))))
     = rt_getDeltas (close (snd (connect "DocumentOpen" (new Browser ModeWrite true))))
  /\ (connectsPending
        (onGetDeltasResolved "DocumentOpen" [Scenarios.op 1]
           (close (snd (connect "DocumentOpen" (new Browser ModeWrite true)))))
      <= connectsPending
           (close (snd (connect "DocumentOpen" (new Browser ModeWrite true)))))%nat.
Proof.
  apply closed_is_final.
  - apply StepDeltas.
  - apply close_closed.
Defined.

Lemma attemptSucceeds_closed (i : nat) (d : IConnectionDetails)
    (reason : string) (delay : Z) (mode : ConnectionMode) (s : DeltaManager) :
  closed s = true ->
  nth_error (rt_attempts s) i = Some (Connecting reason delay mode) ->
  exists s' before,
    attemptSucceeds i d s = Some s'
    /\ closed s' = true
    /\ connection s' = Some {| connId := rt_nextId s; details := d |}
    /\ rt_emitted s' = before ++ [EvConnect d].
Proof.
  intros H Hn. unfold attemptSucceeds. rewrite Hn. cbv zeta.
  match goal with
  | |- context [onConnected ?c ?x] =>
      destruct (onConnected_closed c x H) as (before & Q);
      set (s' := onConnected c x) in *
  end.
  clearbody s'. exists s', before.
  destruct (quietPart_fields _ _ _ _ _ _ Q) as (E1 & _ & _ & E4 & E5).
  cbn [details] in E5. repeat split; assumption.
Qed.

(** [close()] does not cancel a connection attempt that is pending: when the
    attempt then succeeds, the closed manager takes the connection and emits
    [connect] for it. *)
Theorem close_keeps_pending_attempt (i : nat) (d : IConnectionDetails)
    (reason : string) (delay : Z) (mode : ConnectionMode) (s : DeltaManager) :
  nth_error (rt_attempts s) i = Some (Connecting reason delay mode) ->
  exists s' before,
    attemptSucceeds i d (close s) = Some s'
    /\ closed s' = true
    /\ connection s' = Some {| connId := rt_nextId s; details := d |}
    /\ rt_emitted s' = before ++ [EvConnect d].
Proof.
  intros Hn.
  destruct (runPart_fields _ _ _ _ (close_runPart s)) as (_ & _ & E3).
  rewrite <- E3 in Hn. rewrite <- (close_nextId s).
  exact (attemptSucceeds_closed i d reason delay mode (close s) (close_closed s) Hn).
Qed.

(** The theorem on a manager closed right after [connect]. *)
Lemma close_keeps_pending_attempt_witness :
  exists s' before,
    attemptSucceeds 0 Scenarios.someDetails
      (close (snd (connect "DocumentOpen" (new Browser ModeWrite true)))) = Some s'
    /\ closed s' = true
    /\ connection s' =
         Some {| connId := rt_nextId (snd (connect "DocumentOpen" (new Browser ModeWrite true)));
                 details := Scenarios.someDetails |}
    /\ rt_emitted s' = before ++ [EvConnect Scenarios.someDetails].
Proof.
  apply (close_keeps_pending_attempt 0 Scenarios.someDetails "DocumentOpen"
           InitialReconnectDelay ModeWrite).
  vm_compute. reflexivity.
Defined.

(** *** The sequence numbers the manager tracks *)

Lemma trackPart_fields (s : DeltaManager) (a b : Z) :
  trackPart s = (a, b) -> minSequenceNumber s = a /\ baseSequenceNumber s = b.
Proof. unfold trackPart. intros H. injection H as -> ->. split; reflexivity. Qed.

Lemma flush_trackPart (s : DeltaManager) : trackPart (flush s) = trackPart s.
Proof. unfold flush. destruct (messageBuffer s); reflexivity. Qed.

Lemma stop_trackPart (s : DeltaManager) :
  trackPart (stopSequenceNumberUpdate s) = trackPart s.
Proof.
  unfold stopSequenceNumberUpdate. destruct (updateSequenceNumberTimer s); reflexivity.
Qed.

Lemma submit_trackPart (type : MessageType) (contents : JsAny) (batch : bool)
    (s : DeltaManager) :
  trackPart (snd (submit type contents batch s)) = trackPart s.
Proof.
  unfold submit. cbv zeta. cbn [snd].
  transitivity
    (trackPart (stopSequenceNumberUpdate
                  (set_clientSequenceNumber (clientSequenceNumber s + 1) s))).
  - destruct batch; cbn [negb].
    + reflexivity.
    + rewrite flush_trackPart.
      change (trackPart (set_messageBuffer ?b ?x)) with (trackPart x).
      rewrite flush_trackPart. reflexivity.
  - rewrite stop_trackPart. reflexivity.
Qed.

Lemma schedule_trackPart (m : Seq.t) (immediateNoOp : bool) (s : DeltaManager) :
  trackPart (scheduleSequenceNumberUpdate m immediateNoOp s) = trackPart s.
Proof.
  unfold scheduleSequenceNumberUpdate.
  destruct (negb (active s)); [apply stop_trackPart |].
  destruct immediateNoOp.
  { cbv zeta. rewrite submit_trackPart. apply stop_trackPart. }
  destruct (MessageType_isNoOp (Seq.type m)); [reflexivity |].
  destruct (updateSequenceNumberTimer s); reflexivity.
Qed.

(** [processMessage] and the two numbers it tracks. The minimum sequence
    number never goes back and the base sequence number moves by at most one.
    The callback is reached without an error only for a message whose
    contents parse and that follows the base, and then both numbers are the
    message's. A message whose string contents [JSON.parse] rejects fails
    before either number is touched; so does a message whose minimum is
    behind the manager's; a message with an acceptable minimum and the wrong
    sequence number fails too, but the minimum is the message's by then. *)
Theorem processMessage_tracking (jsonParses : string -> bool) (m : Seq.t)
    (result : IProcessMessageResult) (s : DeltaManager) :
  exists c s',
    processMessage jsonParses m result s = (c, s')
    /\ minSequenceNumber s <= minSequenceNumber s'
    /\ (baseSequenceNumber s' = baseSequenceNumber s
        \/ baseSequenceNumber s' = baseSequenceNumber s + 1)
    /\ (c = Normal tt ->
        contentsFailToParse jsonParses m = false
        /\ Seq.sequenceNumber m = baseSequenceNumber s + 1
        /\ trackPart s' = (Seq.minimumSequenceNumber m, Seq.sequenceNumber m))
    /\ (contentsFailToParse jsonParses m = true ->
        c = Throw (ErrObject None None) /\ trackPart s' = trackPart s)
    /\ (contentsFailToParse jsonParses m = false ->
        Seq.minimumSequenceNumber m < minSequenceNumber s ->
        c = Throw (ErrObject None None) /\ trackPart s' = trackPart s)
    /\ (contentsFailToParse jsonParses m = false ->
        minSequenceNumber s <= Seq.minimumSequenceNumber m ->
        Seq.sequenceNumber m <> baseSequenceNumber s + 1 ->
        c = Throw (ErrObject None None)
        /\ trackPart s' = (Seq.minimumSequenceNumber m, baseSequenceNumber s)).
Proof.
  cbv beta delta [processMessage].
  name_let s1.
  assert (H1 : trackPart s1 = trackPart s).
  { subst s1. destruct (connection s); [| reflexivity].
    destruct (String.eqb _ _); [| reflexivity].
    cbv zeta. destruct (_ =? _); reflexivity. }
  clearbody s1.
  destruct (trackPart_fields _ _ _ H1) as [M1 B1].
  destruct (contentsFailToParse jsonParses m) eqn:Ep; cbv beta iota.
  { do 2 eexists. split; [reflexivity |].
    rewrite M1, B1, H1.
    repeat split; intros;
      first [lia | discriminate | contradiction | (left; reflexivity)]. }
  destruct (minSequenceNumber s1 <=? Seq.minimumSequenceNumber m) eqn:E1;
    cbv beta iota delta [negb].
  - apply Z.leb_le in E1. rewrite M1 in E1.
    name_let s2.
    assert (M2 : minSequenceNumber s2 = Seq.minimumSequenceNumber m) by reflexivity.
    assert (B2 : baseSequenceNumber s2 = baseSequenceNumber s) by exact B1.
    clearbody s2.
    destruct (Seq.sequenceNumber m =? baseSequenceNumber s2 + 1) eqn:E2;
      cbv beta iota delta [negb].
    + apply Z.eqb_eq in E2. rewrite B2 in E2.
      name_let s3. name_let msnDistance. name_let s4.
      assert (T4 : trackPart s4 = (Seq.minimumSequenceNumber m, Seq.sequenceNumber m)).
      { subst s4. destruct (_ <? _); unfold trackPart; cbn; rewrite M2; reflexivity. }
      clearbody s4. clear s3 msnDistance.
      assert (final : forall c s',
                 trackPart s' = (Seq.minimumSequenceNumber m, Seq.sequenceNumber m) ->
                 minSequenceNumber s <= minSequenceNumber s'
                 /\ (baseSequenceNumber s' = baseSequenceNumber s
                     \/ baseSequenceNumber s' = baseSequenceNumber s + 1)
                 /\ (c = Normal tt ->
                     false = false
                     /\ Seq.sequenceNumber m = baseSequenceNumber s + 1
                     /\ trackPart s'
                        = (Seq.minimumSequenceNumber m, Seq.sequenceNumber m))
                 /\ (false = true ->
                     c = Throw (ErrObject None None) /\ trackPart s' = trackPart s)
                 /\ (false = false ->
                     Seq.minimumSequenceNumber m < minSequenceNumber s ->
                     c = Throw (ErrObject None None) /\ trackPart s' = trackPart s)
                 /\ (false = false ->
                     minSequenceNumber s <= Seq.minimumSequenceNumber m ->
                     Seq.sequenceNumber m <> baseSequenceNumber s + 1 ->
                     c = Throw (ErrObject None None)
                     /\ trackPart s'
                        = (Seq.minimumSequenceNumber m, baseSequenceNumber s))).
      { intros c s' T. destruct (trackPart_fields _ _ _ T) as [Ma Ba].
        rewrite Ma, Ba.
        repeat split; intros;
          first [lia | assumption | discriminate | contradiction | (right; assumption)]. }
      destruct (resultError result) as [error |];
        [destruct (truthy_error error) |].
      * do 2 eexists. split; [reflexivity |]. apply final, T4.
      * name_let s5.
        assert (T5 : trackPart (emit EvProcessTime s5)
                     = (Seq.minimumSequenceNumber m, Seq.sequenceNumber m))
          by (subst s5; change (trackPart (emit ?e ?x)) with (trackPart x);
              rewrite schedule_trackPart; exact T4).
        clearbody s5. do 2 eexists. split; [reflexivity |]. apply final, T5.
      * name_let s5.
        assert (T5 : trackPart (emit EvProcessTime s5)
                     = (Seq.minimumSequenceNumber m, Seq.sequenceNumber m))
          by (subst s5; change (trackPart (emit ?e ?x)) with (trackPart x);
              rewrite schedule_trackPart; exact T4).
        clearbody s5. do 2 eexists. split; [reflexivity |]. apply final, T5.
    + apply Z.eqb_neq in E2. rewrite B2 in E2.
      do 2 eexists. split; [reflexivity |].
      rewrite M2, B2. unfold trackPart. rewrite M2, B2.
      repeat split; intros;
        first [lia | discriminate | contradiction | (left; reflexivity)].
  - apply Z.leb_gt in E1. rewrite M1 in E1.
    do 2 eexists. split; [reflexivity |].
    rewrite M1, B1, H1.
    repeat split; intros;
      first [lia | discriminate | contradiction | (left; reflexivity)].
Qed.

End DeltaManagerMore.

(** ** More on the epoch tracker *)

Module EpochTrackerMore.
Import Ascii EpochTracker EpochTrackerCalls EpochTrackerFacts.

(** What every call of a tracker preserves, from what its three building
    blocks preserve. *)
Section Preserved.
Variable R : EpochTracker -> EpochTracker -> Prop.
Hypothesis R_refl : forall t, R t t.
Hypothesis R_trans : forall a b c, R a b -> R b c -> R a c.
Hypothesis R_validate :
  forall epoch fetchType fromCache t,
    R t (snd (validateEpochFromResponse epoch fetchType fromCache t)).
Hypothesis R_check :
  forall error epoch fetchType fromCache t,
    R t (snd (checkForEpochError error epoch fetchType fromCache t)).
Hypothesis R_set : forall f t, R t (snd (setFileEntry f t)).

Lemma catchClause_preserved (error : TrackerError) (epoch : option string)
    (fetchType : FetchType) (fromCache : bool) (t : EpochTracker) :
  R t (snd (catchClause (fun t => t) (fun b _ => b) error epoch fetchType fromCache t)).
Proof.
  unfold catchClause.
  assert (H := R_check error epoch fetchType fromCache t).
  destruct (checkForEpochError error epoch fetchType fromCache t) as [[u | e] b];
    exact H.
Qed.

Lemma validated_preserved {A} (epoch : option string) (fetchType : FetchType)
    (fromCache : bool) (result : A) (t : EpochTracker) :
  R t (snd (match validateEpochFromResponse epoch fetchType fromCache t with
            | (Normal _, t) => (Normal result, t)
            | (Throw error, t) =>
                let '(e, t) :=
                  catchClause (fun t => t) (fun b _ => b) error epoch fetchType
                    fromCache t in
                (@Throw A TrackerError e, t)
            end)).
Proof.
  assert (H := R_validate epoch fetchType fromCache t).
  destruct (validateEpochFromResponse epoch fetchType fromCache t) as [[u | error] t1].
  - exact H.
  - cbn [snd] in H.
    assert (H1 := catchClause_preserved error epoch fetchType fromCache t1).
    destruct (catchClause _ _ error epoch fetchType fromCache t1) as [e t2].
    exact (R_trans _ _ _ H H1).
Qed.

Lemma trackerCall_preserved (c : TrackerCall) (t : EpochTracker) :
  R t (trackerCall c t).
Proof.
  destruct c as [f | epoch | fetchType cached | fetchType reply]; cbn [trackerCall].
  - apply R_set.
  - unfold baseValidateEpochFromPush, validateEpochFromPush.
    destruct epoch as [e |]; [| apply R_refl].
    apply (validated_preserved (Some e) pushFetch false tt).
  - unfold baseFetchFromCache, fetchFromCache.
    destruct cached as [v |]; [| apply R_refl].
    apply (validated_preserved (valueFluidEpoch v) fetchType true (Some (value v))).
  - unfold baseFetchAndParseAsJSON, fetchAndParseAsJSON.
    destruct reply as [error | epoch content].
    + assert (H1 := catchClause_preserved error None fetchType false t).
      destruct (catchClause _ _ error None fetchType false t) as [e t2]. exact H1.
    + apply (validated_preserved epoch fetchType false content).
Qed.

Lemma runTracker_preserved (calls : list TrackerCall) :
  forall t, R t (runTracker calls t).
Proof.
  unfold runTracker. induction calls as [| c rest IH]; intros t; [apply R_refl |].
  cbn [fold_left]. exact (R_trans _ _ _ (trackerCall_preserved c t) (IH _)).
Qed.
End Preserved.

Lemma validate_fields (epoch : option string) (fetchType : FetchType)
    (fromCache : bool) (t : EpochTracker) :
  fileEntry (snd (validateEpochFromResponse epoch fetchType fromCache t)) = fileEntry t
  /\ persistedCache (snd (validateEpochFromResponse epoch fetchType fromCache t))
     = persistedCache t.
Proof.
  unfold validateEpochFromResponse.
  destruct (checkForEpochErrorCore epoch None t); [| split; reflexivity].
  destruct epoch as [e |]; [| split; reflexivity].
  destruct (present (Some e)); [| split; reflexivity].
  destruct (fluidEpoch t); split; reflexivity.
Qed.

Lemma checkForEpochError_fields (error : TrackerError) (epoch : option string)
    (fetchType : FetchType) (fromCache : bool) (t : EpochTracker) :
  fluidEpoch (snd (checkForEpochError error epoch fetchType fromCache t)) = fluidEpoch t
  /\ fileEntry (snd (checkForEpochError error epoch fetchType fromCache t)) = fileEntry t
  /\ learnedCount (snd (checkForEpochError error epoch fetchType fromCache t))
     = learnedCount t
  /\ incl (persistedCache (snd (checkForEpochError error epoch fetchType fromCache t)))
       (persistedCache t).
Proof.
  unfold checkForEpochError.
  destruct (OdspErrorType_isEpochVersionMismatch _);
    [| repeat split; apply incl_refl].
  assert (L : forall e, isEpochLearned e = false ->
                        learnedCount (log e t) = learnedCount t).
  { intros e He. unfold learnedCount, log. cbn [logger]. rewrite filter_app.
    cbn [filter]. rewrite He. apply f_equal, app_nil_r. }
  destruct (checkForEpochErrorCore _ _ t).
  - cbn [snd]. repeat split; [apply L; reflexivity | apply incl_refl].
  - cbv zeta. cbn [fileEntry log].
    destruct (fileEntry t) as [f |] eqn:Ef; cbn [snd];
      cbn [removeEntries set_persistedCache persistedCache fluidEpoch fileEntry log];
      repeat split;
      first [ exact Ef
            | exact (L (EpochVersionMismatch (fluidEpoch t) fetchType fromCache) eq_refl)
            | apply incl_filter
            | apply incl_refl
            | reflexivity ].
Qed.

Lemma setFileEntry_fields (f : option IFileEntry) (t : EpochTracker) :
  fluidEpoch (snd (setFileEntry f t)) = fluidEpoch t
  /\ logger (snd (setFileEntry f t)) = logger t
  /\ persistedCache (snd (setFileEntry f t)) = persistedCache t
  /\ (fileEntry t = None \/ fileEntry (snd (setFileEntry f t)) = fileEntry t).
Proof.
  unfold setFileEntry. destruct (fileEntry t) as [g |] eqn:E.
  - cbn [snd]. rewrite E. repeat split. right. reflexivity.
  - destruct f; cbn; repeat split; left; reflexivity.
Qed.

Lemma validate_keeps_learned (epoch : option string) (fetchType : FetchType)
    (fromCache : bool) (t : EpochTracker) :
  present (fluidEpoch t) = true ->
  snd (validateEpochFromResponse epoch fetchType fromCache t) = t.
Proof.
  intros H. unfold validateEpochFromResponse, checkForEpochErrorCore.
  rewrite H. cbn [andb].
  destruct (present epoch) eqn:P; cbn [andb].
  - destruct (epoch_eqb (fluidEpoch t) epoch) eqn:E; cbn [negb]; [| reflexivity].
    apply epoch_eqb_eq in E. destruct epoch as [e |]; [| discriminate P].
    destruct t as [ep fe pc lg]. cbn in *. subst ep. reflexivity.
  - destruct epoch as [e |]; reflexivity.
Qed.

(** The stored epoch never changes once it is learned: whatever the
    responses, cached values and connection details that follow, and whether
    the calls fail or not, [fluidEpoch] stays what it was. *)
Theorem epoch_fixed_once_learned (calls : list TrackerCall) (t : EpochTracker) :
  present (fluidEpoch t) = true ->
  fluidEpoch (runTracker calls t) = fluidEpoch t.
Proof.
  intros H.
  apply (runTracker_preserved
           (fun a b => present (fluidEpoch a) = true -> fluidEpoch b = fluidEpoch a));
    try exact H.
  - reflexivity.
  - intros a b c Hab Hbc Ha. rewrite <- (Hab Ha). apply Hbc. rewrite (Hab Ha). exact Ha.
  - intros epoch fetchType fromCache a Ha.
    rewrite validate_keeps_learned by exact Ha. reflexivity.
  - intros error epoch fetchType fromCache a _. apply checkForEpochError_fields.
  - intros f a _. apply setFileEntry_fields.
Qed.

(** The theorem on a tracker that knows epoch A and then meets a response
    with epoch B, a cached value with epoch B, a response without epoch and
    the server's own epoch error. *)
Lemma epoch_fixed_once_learned_witness :
  fluidEpoch
    (runTracker
       [CallFetch treesLatest (ReplyResponse (Some "B") "{}");
        CallFetchFromCache snapshotTree
          (Some {| valueFluidEpoch := Some "B"; value := "tree" |});
        CallFetch ops (ReplyResponse None "[]");
        CallValidateEpochFromPush (Some "A");
        CallFetch joinSession (ReplyRejects Scenarios.serverEpochError)]
       Scenarios.learned)
  = fluidEpoch Scenarios.learned.
Proof. apply epoch_fixed_once_learned. reflexivity. Defined.

Lemma validate_learned_bound (epoch : option string) (fetchType : FetchType)
    (fromCache : bool) (t : EpochTracker) :
  (learnedCount (snd (validateEpochFromResponse epoch fetchType fromCache t))
   + match fluidEpoch (snd (validateEpochFromResponse epoch fetchType fromCache t)) with
     | None => 1
     | Some _ => 0
     end
   <= learnedCount t + match fluidEpoch t with None => 1 | Some _ => 0 end)%nat.
Proof.
  unfold validateEpochFromResponse.
  destruct (checkForEpochErrorCore epoch None t); [| apply Nat.le_refl].
  destruct epoch as [e |]; [| apply Nat.le_refl].
  destruct (present (Some e)); [| apply Nat.le_refl].
  cbv zeta. cbn [snd fluidEpoch set_fluidEpoch].
  destruct (fluidEpoch t).
  - unfold learnedCount. cbn [logger set_fluidEpoch]. lia.
  - unfold learnedCount, log. cbn [logger set_fluidEpoch].
    rewrite filter_app, length_app. cbn. lia.
Qed.

(** [EpochLearnedFirstTime] is logged at most once in the life of a tracker,
    and never by a tracker that has an epoch already. *)
Theorem epoch_learned_logged_once (calls : list TrackerCall) (t : EpochTracker) :
  (learnedCount (runTracker calls t)
   <= learnedCount t + match fluidEpoch t with None => 1 | Some _ => 0 end)%nat.
Proof.
  assert (H : (learnedCount (runTracker calls t)
               + match fluidEpoch (runTracker calls t) with None => 1 | Some _ => 0 end
               <= learnedCount t + match fluidEpoch t with None => 1 | Some _ => 0 end)%nat).
  { apply (runTracker_preserved
             (fun a b =>
                (learnedCount b + match fluidEpoch b with None => 1 | Some _ => 0 end
                 <= learnedCount a + match fluidEpoch a with None => 1 | Some _ => 0 end)%nat)).
    - intros a. apply Nat.le_refl.
    - intros a b c Hab Hbc. exact (Nat.le_trans _ _ _ Hbc Hab).
    - intros epoch fetchType fromCache a. apply validate_learned_bound.
    - intros error epoch fetchType fromCache a.
      destruct (checkForEpochError_fields error epoch fetchType fromCache a)
        as (E1 & _ & E3 & _).
      rewrite E1, E3. apply Nat.le_refl.
    - intros f a. destruct (setFileEntry_fields f a) as (E1 & E2 & _).
      unfold learnedCount. rewrite E1, E2. apply Nat.le_refl. }
  lia.
Qed.

(** The file entry is assigned at most once, and the tracker only ever
    removes entries from the persistent cache. *)
Theorem fileEntry_once_cache_shrinks (calls : list TrackerCall) (t : EpochTracker) :
  (fileEntry t = None \/ fileEntry (runTracker calls t) = fileEntry t)
  /\ incl (persistedCache (runTracker calls t)) (persistedCache t).
Proof.
  split.
  - apply (runTracker_preserved
             (fun a b => fileEntry a = None \/ fileEntry b = fileEntry a)).
    + intros a. right. reflexivity.
    + intros a b c [Ha | Hab] Hbc; [left; exact Ha |].
      destruct Hbc as [Hb | Hbc]; [left; rewrite <- Hab; exact Hb |].
      right. rewrite Hbc. exact Hab.
    + intros epoch fetchType fromCache a. right. apply validate_fields.
    + intros error epoch fetchType fromCache a. right. apply checkForEpochError_fields.
    + intros f a. apply setFileEntry_fields.
  - apply (runTracker_preserved
             (fun a b => incl (persistedCache b) (persistedCache a))).
    + intros a. apply incl_refl.
    + intros a b c Hab Hbc. exact (incl_tran Hbc Hab).
    + intros epoch fetchType fromCache a.
      rewrite (proj2 (validate_fields epoch fetchType fromCache a)). apply incl_refl.
    + intros error epoch fetchType fromCache a. apply checkForEpochError_fields.
    + intros f a. destruct (setFileEntry_fields f a) as (_ & _ & E & _).
      rewrite E. apply incl_refl.
Qed.

(** A response or a cached value from another epoch, end to end: the call
    fails with the epoch mismatch error, the mismatch is logged with the
    tracker's epoch, no cache entry of the file is left, the entries of other
    files are all kept, and the tracker keeps its epoch. *)
Theorem stale_epoch_end_to_end (fetchType : FetchType) (epoch : option string)
    (content : string) (v : CachedValue) (f : IFileEntry) (t : EpochTracker) :
  present (fluidEpoch t) = true ->
  fileEntry t = Some f ->
  (present epoch = true -> epoch <> fluidEpoch t ->
   exists t',
     baseFetchAndParseAsJSON fetchType (ReplyResponse epoch content) t
     = (Throw (EpochMismatchError "Epoch Mismatch"), t')
     /\ t' = removeEntries f (log (EpochVersionMismatch (fluidEpoch t) fetchType false) t))
  /\ (present (valueFluidEpoch v) = true -> valueFluidEpoch v <> fluidEpoch t ->
      exists t',
        baseFetchFromCache fetchType (Some v) t
        = (Throw (EpochMismatchError "Epoch Mismatch"), t')
        /\ t' = removeEntries f (log (EpochVersionMismatch (fluidEpoch t) fetchType true) t))
  /\ (forall e logged,
        fluidEpoch (removeEntries f (log logged t)) = fluidEpoch t
        /\ (In e (persistedCache (removeEntries f (log logged t))) <->
            In e (persistedCache t) /\ IFileEntry_eqb (file (fst e)) f = false)).
Proof.
  intros Hp Hf.
  assert (core : forall ep fromCache,
             present ep = true -> ep <> fluidEpoch t ->
             validateEpochFromResponse ep fetchType fromCache t
             = (Throw (EpochMismatchError "Epoch Mismatch"), t)
             /\ checkForEpochError (EpochMismatchError "Epoch Mismatch") ep fetchType
                  fromCache t
                = (Throw (EpochMismatchError "Epoch Mismatch"),
                   removeEntries f
                     (log (EpochVersionMismatch (fluidEpoch t) fetchType fromCache) t))).
  { intros ep fromCache P Hne.
    assert (E : epoch_eqb (fluidEpoch t) ep = false)
      by (apply epoch_eqb_neq; congruence).
    split.
    - unfold validateEpochFromResponse, checkForEpochErrorCore.
      rewrite Hp, P, E. reflexivity.
    - unfold checkForEpochError, checkForEpochErrorCore.
      cbn [errorTypeOf OdspErrorType_isEpochVersionMismatch errorMessageOf].
      rewrite Hp, P, E. cbn [andb negb]. cbv zeta. cbn [fileEntry log].
      rewrite Hf. reflexivity. }
  split; [| split].
  - intros P Hne. destruct (core epoch false P Hne) as [V C].
    eexists. split; [| reflexivity].
    unfold baseFetchAndParseAsJSON, fetchAndParseAsJSON, catchClause.
    rewrite V, C. reflexivity.
  - intros P Hne. destruct (core (valueFluidEpoch v) true P Hne) as [V C].
    eexists. split; [| reflexivity].
    unfold baseFetchFromCache, fetchFromCache, catchClause.
    rewrite V, C. reflexivity.
  - intros e logged. split; [reflexivity |].
    unfold removeEntries. cbn [persistedCache set_persistedCache log].
    rewrite filter_In, negb_true_iff. reflexivity.
Qed.

(** The theorem on the tracker that knows epoch A, for a response and a
    cached value of epoch B. *)
Lemma stale_epoch_end_to_end_witness :
  (present (Some "B") = true -> Some "B" <> fluidEpoch Scenarios.learned ->
   exists t',
     baseFetchAndParseAsJSON treesLatest (ReplyResponse (Some "B") "{}") Scenarios.learned
     = (Throw (EpochMismatchError "Epoch Mismatch"), t')
     /\ t' = removeEntries Scenarios.someFile
               (log (EpochVersionMismatch (fluidEpoch Scenarios.learned) treesLatest false)
                  Scenarios.learned))
  /\ (present (valueFluidEpoch {| valueFluidEpoch := Some "B"; value := "tree" |}) = true ->
      valueFluidEpoch {| valueFluidEpoch := Some "B"; value := "tree" |}
      <> fluidEpoch Scenarios.learned ->
      exists t',
        baseFetchFromCache treesLatest
          (Some {| valueFluidEpoch := Some "B"; value := "tree" |}) Scenarios.learned
        = (Throw (EpochMismatchError "Epoch Mismatch"), t')
        /\ t' = removeEntries Scenarios.someFile
                  (log (EpochVersionMismatch (fluidEpoch Scenarios.learned) treesLatest true)
                     Scenarios.learned))
  /\ (forall e logged,
        fluidEpoch (removeEntries Scenarios.someFile (log logged Scenarios.learned))
        = fluidEpoch Scenarios.learned
        /\ (In e (persistedCache
                    (removeEntries Scenarios.someFile (log logged Scenarios.learned))) <->
            In e (persistedCache Scenarios.learned)
            /\ IFileEntry_eqb (file (fst e)) Scenarios.someFile = false)).
Proof.
  apply (stale_epoch_end_to_end treesLatest (Some "B") "{}"
           {| valueFluidEpoch := Some "B"; value := "tree" |} Scenarios.someFile
           Scenarios.learned); reflexivity.
Defined.


(** *** The epoch in the request *)

Lemma string_app_assoc (a b c : string) :
  ((a ++ b) ++ c = a ++ (b ++ c))%string.
Proof. induction a as [| x a IH]; cbn; [reflexivity | now rewrite IH]. Qed.

Lemma substring_all (s : string) : String.substring 0 (String.length s) s = s.
Proof. induction s as [| x s IH]; cbn; [reflexivity | now rewrite IH]. Qed.

(** The first piece of [split("\r\n")] is the first line. *)
Lemma split_first_line (line rest : string) :
  noCarriageReturn line = true ->
  forall piece,
    hd EmptyString (splitFrom crlf 0 piece (line ++ crlf ++ rest)%string)
    = (piece ++ line)%string.
Proof.
  induction line as [| c line IH]; intros H piece.
  - change ((EmptyString ++ crlf ++ rest)%string)
      with (String "013"%char (String "010"%char rest)).
    assert (P : String.prefix crlf (String "013"%char (String "010"%char rest)) = true)
      by (unfold crlf; cbn; destruct rest; reflexivity).
    cbn [splitFrom]. rewrite P. cbn [hd].
    clear. induction piece as [| x p IHp]; cbn; [reflexivity | now rewrite <- IHp].
  - cbn [noCarriageReturn] in H. apply andb_prop in H. destruct H as [Hc Hl].
    apply negb_true_iff in Hc.
    change ((String c line ++ crlf ++ rest)%string)
      with (String c (line ++ crlf ++ rest)%string).
    cbn [splitFrom].
    assert (P : String.prefix crlf (String c (line ++ crlf ++ rest)%string) = false).
    { unfold crlf. cbn [String.prefix].
      destruct (Ascii.ascii_dec "013"%char c) as [E | E]; [| reflexivity].
      subst c. discriminate Hc. }
    rewrite P, (IH Hl). rewrite string_app_assoc. reflexivity.
Qed.

(** With [addInBody], the epoch goes to the end of the multipart body as one
    more part, closed with the boundary read off the first line of the body;
    the url and the headers are unchanged. *)
Theorem addEpochInRequest_body (searchParamsWithEpoch : option string -> string -> string)
    (url boundary rest epoch : string) (hs : list (string * string))
    (t : EpochTracker) :
  fluidEpoch t = Some epoch ->
  noCarriageReturn boundary = true ->
  addEpochInRequest searchParamsWithEpoch url
    {| body := Some ("--" ++ boundary ++ crlf ++ rest)%string; headers := hs |} true t
  = Normal
      (url,
       {| body :=
            Some ((("--" ++ boundary ++ crlf ++ rest)
                   ++ crlf ++ "epoch=" ++ epoch ++ crlf)
                  ++ crlf ++ "--" ++ boundary ++ "--")%string;
          headers := hs |}).
Proof.
  intros He Hb. unfold addEpochInRequest. rewrite He. cbn [body headers].
  unfold split.
  assert (F := split_first_line ("--" ++ boundary) rest Hb EmptyString).
  cbn [append] in F |- *. rewrite F.
  unfold substringFrom.
  assert (B : String.substring 2
                (String.length (String "-" (String "-" boundary)) - 2)
                (String "-" (String "-" boundary)) = boundary)
    by (cbn; now rewrite Nat.sub_0_r, substring_all).
  rewrite B. reflexivity.
Qed.

(** The theorem on a form with boundary [form-1] and one part. *)
Lemma addEpochInRequest_body_witness :
  addEpochInRequest (fun _ e => ("epoch=" ++ e)%string) "https://host/snapshot"
    {| body := Some ("--" ++ "form-1" ++ crlf ++ "part")%string; headers := [] |}
    true Scenarios.learned
  = Normal
      ("https://host/snapshot",
       {| body :=
            Some ((("--" ++ "form-1" ++ crlf ++ "part")
                   ++ crlf ++ "epoch=" ++ "A" ++ crlf)
                  ++ crlf ++ "--" ++ "form-1" ++ "--")%string;
          headers := [] |}).
Proof. apply addEpochInRequest_body; reflexivity. Defined.

End EpochTrackerMore.

(** ** Properties of the distributed set *)

Module DistributedSetFacts.
Import DistributedSet.

Section Values.
Context {T : Type}.
Variable eqb : T -> T -> bool.
Hypothesis eqb_spec : forall x y, eqb x y = true <-> x = y.

Lemma has_In (v : T) (l : list T) : has eqb v l = true <-> In v l.
Proof.
  unfold has. rewrite existsb_exists. split.
  - intros (x & Hx & E). apply eqb_spec in E. now subst.
  - intros H. exists v. split; [exact H | now apply eqb_spec].
Qed.

Lemma has_not_In (v : T) (l : list T) : has eqb v l = false <-> ~ In v l.
Proof.
  rewrite <- has_In. destruct (has eqb v l); split; intros H;
    first [discriminate | reflexivity | congruence | (exfalso; now apply H)].
Qed.

Lemma NoDup_snoc (v : T) (l : list T) : NoDup l -> ~ In v l -> NoDup (l ++ [v]).
Proof.
  induction 1 as [| x l Hx Hl IH]; intros Hv.
  - cbn. constructor; [intros [] | constructor].
  - cbn. constructor.
    + rewrite in_app_iff. intros [H | [H | []]]; [contradiction |].
      subst. apply Hv. now left.
    + apply IH. intros H. apply Hv. now right.
Qed.

Lemma in_removed (v x : T) (l : list T) :
  In x (filter (fun y => negb (eqb v y)) l) <-> x <> v /\ In x l.
Proof.
  rewrite filter_In, negb_true_iff. split.
  - intros [H E]. split; [| exact H]. intros ->.
    rewrite (proj2 (eqb_spec v v) eq_refl) in E. discriminate.
  - intros [Hne H]. split; [exact H |].
    destruct (eqb v x) eqn:E; [| reflexivity].
    apply eqb_spec in E. congruence.
Qed.

Lemma newSet_from (value : list T) :
  forall acc,
    NoDup acc ->
    NoDup (fold_left (fun acc v => if has eqb v acc then acc else acc ++ [v]) value acc)
    /\ (forall x,
          In x (fold_left (fun acc v => if has eqb v acc then acc else acc ++ [v])
                  value acc)
          <-> In x acc \/ In x value).
Proof.
  induction value as [| v rest IH]; intros acc Hacc.
  - cbn. split; [exact Hacc |]. intros x. tauto.
  - cbn [fold_left]. destruct (has eqb v acc) eqn:E.
    + destruct (IH acc Hacc) as [N I]. split; [exact N |].
      intros x. rewrite I. cbn [In]. apply has_In in E.
      split; [tauto |]. intros [H | [<- | H]]; tauto.
    + apply has_not_In in E.
      destruct (IH (acc ++ [v]) (NoDup_snoc v acc Hacc E)) as [N I].
      split; [exact N |].
      intros x. rewrite I, in_app_iff. cbn [In]. tauto.
Qed.

Lemma newSet_fixed (value : list T) :
  forall acc,
    NoDup (acc ++ value) ->
    fold_left (fun acc v => if has eqb v acc then acc else acc ++ [v]) value acc
    = acc ++ value.
Proof.
  induction value as [| v rest IH]; intros acc H.
  - cbn. now rewrite app_nil_r.
  - cbn [fold_left].
    assert (E : has eqb v acc = false).
    { apply has_not_In. intros Hin. apply NoDup_remove_2 in H.
      apply H. rewrite in_app_iff. now left. }
    rewrite E, IH; rewrite <- app_assoc; [reflexivity | exact H].
Qed.

Lemma add_NoDup (v : T) (b : bool) (s : DistributedSet T) :
  NoDup (entries s) -> NoDup (entries (add eqb v b s)).
Proof.
  unfold add, entries. intros H. destruct (has eqb v (internalSet s)) eqn:E; cbn.
  - exact H.
  - apply NoDup_snoc; [exact H | now apply has_not_In].
Qed.

Lemma delete_NoDup (v : T) (b : bool) (s : DistributedSet T) :
  NoDup (entries s) -> NoDup (entries (delete eqb v b s)).
Proof.
  unfold delete, entries. intros H. destruct (has eqb v (internalSet s)); cbn.
  - now apply NoDup_filter.
  - exact H.
Qed.

Lemma setCall_NoDup (c : SetCall T) (s : DistributedSet T) :
  NoDup (entries s) -> NoDup (entries (setCall eqb c s)).
Proof.
  intros H. destruct c as [v b | v b | name v local]; cbn [setCall].
  - now apply add_NoDup.
  - now apply delete_NoDup.
  - unfold ops. destruct (String.eqb name "add").
    + destruct local; [exact H | now apply add_NoDup].
    + destruct (String.eqb name "delete"); [| exact H].
      destruct local; [exact H | now apply delete_NoDup].
Qed.

Lemma runSet_NoDup (calls : list (SetCall T)) :
  forall s, NoDup (entries s) -> NoDup (entries (runSet eqb calls s)).
Proof.
  unfold runSet. induction calls as [| c rest IH]; intros s H; [exact H |].
  cbn [fold_left]. apply IH, setCall_NoDup, H.
Qed.

Lemma load_NoDup (raw : option (list T)) : NoDup (entries (load eqb raw)).
Proof.
  unfold load, new, entries, newSet. cbn [internalSet].
  apply newSet_from. constructor.
Qed.

(** A set never holds a value twice: [entries()] has no duplicates, however
    the set was loaded and whatever calls and ops followed. *)
Theorem entries_never_repeat (calls : list (SetCall T)) (raw : option (list T)) :
  NoDup (entries (runSet eqb calls (load eqb raw))).
Proof. apply runSet_NoDup, load_NoDup. Qed.

(** Membership after the three ways to change a set: [add] adds its value
    and nothing else, [delete] removes its value and nothing else, and a set
    loaded from an array holds the values of the array. [submitEvent] plays
    no part in it. *)
Theorem set_membership (v x : T) (b : bool) (raw : list T) (s : DistributedSet T) :
  (In x (entries (add eqb v b s)) <-> x = v \/ In x (entries s))
  /\ (In x (entries (delete eqb v b s)) <-> x <> v /\ In x (entries s))
  /\ (In x (entries (load eqb (Some raw))) <-> In x raw).
Proof.
  split; [| split].
  - unfold add, entries. destruct (has eqb v (internalSet s)) eqn:E; cbn.
    + apply has_In in E. split; [tauto |]. intros [-> | H]; assumption.
    + rewrite in_app_iff. cbn [In]. intuition congruence.
  - unfold delete, entries. destruct (has eqb v (internalSet s)) eqn:E; cbn.
    + apply in_removed.
    + apply has_not_In in E. split; [| tauto].
      intros H. split; [| exact H]. intros ->. contradiction.
  - unfold load, new, entries, newSet. cbn [internalSet].
    destruct (newSet_from raw [] (NoDup_nil T)) as [_ I]. rewrite I. cbn [In]. tauto.
Qed.

(** Storing a set and loading what was stored gives the same entries, in the
    same order. *)
Theorem store_load_round_trip (calls : list (SetCall T)) (raw : option (list T)) :
  entries (load eqb (Some (store (runSet eqb calls (load eqb raw)))))
  = entries (runSet eqb calls (load eqb raw)).
Proof.
  assert (N := runSet_NoDup calls _ (load_NoDup raw)).
  unfold load at 1. unfold new, store, newSet. cbn [entries internalSet].
  rewrite newSet_fixed; [reflexivity | exact N].
Qed.

Lemma removed_length (v : T) (l : list T) :
  NoDup l -> In v l ->
  S (List.length (filter (fun y => negb (eqb v y)) l)) = List.length l.
Proof.
  induction 1 as [| x l Hx Hl IH]; intros Hin; [destruct Hin |].
  cbn [filter List.length]. destruct (eqb v x) eqn:E; cbn [negb].
  - apply eqb_spec in E. subst x. f_equal.
    clear IH Hin Hl. induction l as [| y l IHl]; [reflexivity |].
    cbn [filter]. destruct (eqb v y) eqn:Ey.
    + apply eqb_spec in Ey. subst y. exfalso. apply Hx. now left.
    + cbn [negb List.length]. f_equal. apply IHl. intros H. apply Hx. now right.
  - cbn [List.length]. f_equal. apply IH.
    destruct Hin as [-> | H]; [| exact H].
    rewrite (proj2 (eqb_spec v v) eq_refl) in E. discriminate.
Qed.

Lemma setCall_accounting (c : SetCall T) (s : DistributedSet T) :
  NoDup (entries s) ->
  exists new,
    listeners (setCall eqb c s) = listeners s ++ new
    /\ (List.length (entries (setCall eqb c s)) + List.length (filter isOnDelete new)
        = List.length (entries s) + List.length (filter isOnAdd new))%nat.
Proof.
  intros N.
  assert (A : forall v b,
             exists new,
               listeners (add eqb v b s) = listeners s ++ new
               /\ (List.length (entries (add eqb v b s))
                   + List.length (filter isOnDelete new)
                   = List.length (entries s) + List.length (filter isOnAdd new))%nat).
  { intros v b. unfold add, entries. destruct (has eqb v (internalSet s)); cbn.
    - exists []. split; [now rewrite app_nil_r | reflexivity].
    - exists [OnAdd v]. split; [reflexivity |]. rewrite length_app. cbn. lia. }
  assert (D : forall v b,
             exists new,
               listeners (delete eqb v b s) = listeners s ++ new
               /\ (List.length (entries (delete eqb v b s))
                   + List.length (filter isOnDelete new)
                   = List.length (entries s) + List.length (filter isOnAdd new))%nat).
  { intros v b. unfold delete, entries. destruct (has eqb v (internalSet s)) eqn:E; cbn.
    - exists [OnDelete v]. split; [reflexivity |]. cbn.
      apply has_In in E. assert (R := removed_length v _ N E).
      unfold entries in R. lia.
    - exists []. split; [now rewrite app_nil_r | reflexivity]. }
  assert (Z0 : exists new,
             listeners s = listeners s ++ new
             /\ (List.length (entries s) + List.length (filter isOnDelete new)
                 = List.length (entries s) + List.length (filter isOnAdd new))%nat)
    by (exists []; split; [now rewrite app_nil_r | reflexivity]).
  destruct c as [v b | v b | name v local]; cbn [setCall].
  - apply A.
  - apply D.
  - unfold ops. destruct (String.eqb name "add").
    + destruct local; [exact Z0 | apply A].
    + destruct (String.eqb name "delete"); [| exact Z0].
      destruct local; [exact Z0 | apply D].
Qed.

(** The listeners are told of every change and of nothing else: over any
    run of calls, the size of the set grows by the number of [onAdd] calls
    less the number of [onDelete] calls. *)
Theorem listeners_account_for_size (calls : list (SetCall T)) :
  forall s : DistributedSet T,
    NoDup (entries s) ->
    exists new,
      listeners (runSet eqb calls s) = listeners s ++ new
      /\ (List.length (entries (runSet eqb calls s))
          + List.length (filter isOnDelete new)
          = List.length (entries s) + List.length (filter isOnAdd new))%nat.
Proof.
  unfold runSet. induction calls as [| c rest IH]; intros s N.
  - exists []. split; [now rewrite app_nil_r | reflexivity].
  - cbn [fold_left].
    destruct (setCall_accounting c s N) as (new1 & L1 & S1).
    destruct (IH (setCall eqb c s) (setCall_NoDup c s N)) as (new2 & L2 & S2).
    exists (new1 ++ new2). split.
    + rewrite L2, L1. now rewrite app_assoc.
    + rewrite !filter_app, !length_app. lia.
Qed.

Lemma processRemote_add (v : T) (previous : option T) (s : DistributedSet T) :
  processRemote eqb {| opName := "add"; previousValue := previous; params := v |} s
  = add eqb v false s.
Proof. reflexivity. Qed.

Lemma processRemote_delete (v : T) (previous : option T) (s : DistributedSet T) :
  processRemote eqb {| opName := "delete"; previousValue := previous; params := v |} s
  = delete eqb v false s.
Proof. reflexivity. Qed.

Lemma local_call_replicated (c : SetCall T) (a b : DistributedSet T) :
  isLocalChange c = true ->
  sameValues a b ->
  exists new,
    emitter (setCall eqb c a) = emitter a ++ new
    /\ sameValues (setCall eqb c a) (replay eqb new b)
    /\ emitter (replay eqb new b) = emitter b.
Proof.
  intros Hc Hab.
  destruct c as [v submitEvent | v submitEvent | name v local]; cbn in Hc;
    [subst submitEvent | subst submitEvent | discriminate]; cbn [setCall].
  - unfold add at 1 2. destruct (has eqb v (internalSet a)) eqn:E; cbn [negb].
    + exists []. cbn. split; [now rewrite app_nil_r |]. split; [exact Hab | reflexivity].
    + eexists. cbn [emitter]. split; [reflexivity |].
      unfold replay. cbn [fold_left]. rewrite processRemote_add.
      assert (Eb : has eqb v (internalSet b) = false).
      { apply has_not_In. apply has_not_In in E. intros H. apply E. now apply Hab. }
      unfold add. rewrite Eb. cbn [negb]. split; [| reflexivity].
      intros x. unfold entries. cbn [internalSet]. rewrite !in_app_iff.
      specialize (Hab x). unfold entries in Hab. tauto.
  - unfold delete at 1 2. destruct (has eqb v (internalSet a)) eqn:E.
    + eexists. cbn [emitter]. split; [reflexivity |].
      unfold replay. cbn [fold_left]. rewrite processRemote_delete.
      assert (Eb : has eqb v (internalSet b) = true).
      { apply has_In. apply has_In in E. now apply Hab. }
      unfold delete. rewrite Eb. split; [| reflexivity].
      intros x. unfold entries. cbn [internalSet]. rewrite !in_removed.
      specialize (Hab x). unfold entries in Hab. tauto.
    + exists []. cbn. split; [now rewrite app_nil_r |]. split; [exact Hab | reflexivity].
Qed.

(** Replication. When one replica runs calls that submit their changes, and
    another replica that held the same values processes the ops the first
    one emitted, as remote ops and in order, the two hold the same values
    again; and processing them makes the second replica emit nothing. *)
Theorem replica_converges (calls : list (SetCall T)) :
  forall a b : DistributedSet T,
    forallb isLocalChange calls = true ->
    sameValues a b ->
    exists new,
      emitter (runSet eqb calls a) = emitter a ++ new
      /\ sameValues (runSet eqb calls a) (replay eqb new b)
      /\ emitter (replay eqb new b) = emitter b.
Proof.
  unfold runSet. induction calls as [| c rest IH]; intros a b Hl Hab.
  - exists []. cbn. split; [now rewrite app_nil_r |]. split; [exact Hab | reflexivity].
  - cbn [forallb] in Hl. apply andb_prop in Hl. destruct Hl as [Hc Hl].
    cbn [fold_left].
    destruct (local_call_replicated c a b Hc Hab) as (new1 & E1 & S1 & B1).
    destruct (IH (setCall eqb c a) (replay eqb new1 b) Hl S1) as (new2 & E2 & S2 & B2).
    exists (new1 ++ new2).
    assert (R : replay eqb (new1 ++ new2) b = replay eqb new2 (replay eqb new1 b))
      by (unfold replay; apply fold_left_app).
    rewrite R. split; [| split; [exact S2 | now rewrite B2]].
    rewrite E2, E1. now rewrite app_assoc.
Qed.
End Values.

(** The theorems on sets of integers. *)
Lemma entries_never_repeat_witness :
  NoDup (entries
           (runSet Z.eqb [CallAdd 3 true; CallAdd 3 false; CallDelete 1 true;
                          CallProcess "add" 1 false]
              (load Z.eqb (Some [1; 2; 1; 3])))).
Proof. apply (entries_never_repeat Z.eqb Z.eqb_eq). Defined.

Lemma set_membership_witness :
  (In 2 (entries (add Z.eqb 5 true (load Z.eqb (Some [1; 2])))) <->
   2 = 5 \/ In 2 (entries (load Z.eqb (Some [1; 2]))))
  /\ (In 2 (entries (delete Z.eqb 5 true (load Z.eqb (Some [1; 2])))) <->
      2 <> 5 /\ In 2 (entries (load Z.eqb (Some [1; 2]))))
  /\ (In 2 (entries (load Z.eqb (Some [1; 2; 1]))) <-> In 2 [1; 2; 1]).
Proof. apply (set_membership Z.eqb Z.eqb_eq 5 2 true [1; 2; 1]). Defined.

Lemma store_load_round_trip_witness :
  entries
    (load Z.eqb
       (Some (store (runSet Z.eqb [CallDelete 1 true; CallAdd 1 true]
                       (load Z.eqb (Some [1; 2; 1; 3]))))))
  = entries (runSet Z.eqb [CallDelete 1 true; CallAdd 1 true]
               (load Z.eqb (Some [1; 2; 1; 3]))).
Proof. apply (store_load_round_trip Z.eqb Z.eqb_eq). Defined.

Lemma listeners_account_for_size_witness :
  exists new,
    listeners (runSet Z.eqb [CallAdd 3 true; CallAdd 4 false; CallDelete 1 true;
                             CallDelete 9 true]
                 (load Z.eqb (Some [1; 2])))
    = listeners (load Z.eqb (Some [1; 2])) ++ new
    /\ (List.length
          (entries (runSet Z.eqb [CallAdd 3 true; CallAdd 4 false; CallDelete 1 true;
                                  CallDelete 9 true]
                      (load Z.eqb (Some [1; 2]))))%Z
        + List.length (filter isOnDelete new)
        = List.length (entries (load Z.eqb (Some [1; 2])))%Z
          + List.length (filter isOnAdd new))%nat.
Proof.
  apply (listeners_account_for_size Z.eqb Z.eqb_eq).
  vm_compute. repeat constructor; cbn; intuition discriminate.
Defined.

Lemma replica_converges_witness :
  exists new,
    emitter (runSet Z.eqb [CallAdd 3 true; CallDelete 1 true; CallAdd 3 true]
               (load Z.eqb (Some [1; 2])))
    = emitter (load Z.eqb (Some [1; 2])) ++ new
    /\ sameValues
         (runSet Z.eqb [CallAdd 3 true; CallDelete 1 true; CallAdd 3 true]
            (load Z.eqb (Some [1; 2])))
         (replay Z.eqb new (load Z.eqb (Some [2; 1])))
    /\ emitter (replay Z.eqb new (load Z.eqb (Some [2; 1])))
       = emitter (load Z.eqb (Some [2; 1])).
Proof.
  apply (replica_converges Z.eqb Z.eqb_eq).
  - reflexivity.
  - intros x. vm_compute. tauto.
Defined.

End DistributedSetFacts.

(** ** Properties of the in-memory database *)

Module DbFacts.
Import Db.

Lemma get_app_found (name : string) (c : positive) (m rest : list (string * positive)) :
  get name m = Some c -> get name (m ++ rest) = Some c.
Proof.
  induction m as [| [k v] m IH]; cbn; [discriminate |].
  destruct (String.eqb k name); [trivial | exact IH].
Qed.

Lemma get_app_new (name other : string) (c : positive) (m : list (string * positive)) :
  get name m = None ->
  get name (m ++ [(other, c)]) = if String.eqb other name then Some c else None.
Proof.
  induction m as [| [k v] m IH]; cbn; [reflexivity |].
  destruct (String.eqb k name); [discriminate | exact IH].
Qed.

Lemma collection_found (name : string) (db : DB) :
  get name (collections (snd (collection name db))) = Some (fst (collection name db)).
Proof.
  unfold collection. destruct (get name (collections db)) eqn:E; cbn.
  - exact E.
  - rewrite (get_app_new _ _ _ _ E), String.eqb_refl. reflexivity.
Qed.

Lemma collection_keeps (name other : string) (c : positive) (db : DB) :
  get name (collections db) = Some c ->
  get name (collections (snd (collection other db))) = Some c.
Proof.
  intros H. unfold collection. destruct (get other (collections db)); cbn.
  - exact H.
  - apply get_app_found, H.
Qed.

Lemma run_keeps (name : string) (c : positive) (names : list string) :
  forall db,
    get name (collections db) = Some c ->
    get name (collections (run names db)) = Some c.
Proof.
  unfold run. induction names as [| n rest IH]; intros db H; [exact H |].
  cbn [fold_left]. apply IH, collection_keeps, H.
Qed.

(** [collection(name)] always answers with the same collection for a name:
    the one it created on the first call, whatever other collections were
    asked for in between. *)
Theorem collection_stable (name : string) (names : list string) (db : DB) :
  fst (collection name (run names (snd (collection name db))))
  = fst (collection name db).
Proof.
  assert (H := run_keeps name _ names _ (collection_found name db)).
  unfold collection at 1. rewrite H. reflexivity.
Qed.

Lemma collection_wellFormed (name : string) (db : DB) :
  wellFormed db -> wellFormed (snd (collection name db)).
Proof.
  intros [Hlt Hinj]. unfold collection.
  destruct (get name (collections db)) as [c |] eqn:E; cbn [snd]; [split; assumption |].
  assert (G : forall n c,
             get n (collections db ++ [(name, created db)]) = Some c ->
             get n (collections db) = Some c
             \/ (get n (collections db) = None /\ n = name /\ c = created db)).
  { intros n c H. destruct (get n (collections db)) as [c0 |] eqn:En.
    - left. rewrite (get_app_found _ _ _ _ En) in H. exact H.
    - right. rewrite (get_app_new _ _ _ _ En) in H.
      destruct (String.eqb name n) eqn:Es; [| discriminate].
      apply String.eqb_eq in Es. injection H as <-. repeat split. now symmetry. }
  split; cbn [collections created].
  - intros n c H. destruct (G n c H) as [H1 | (_ & _ & ->)].
    + specialize (Hlt n c H1). lia.
    + lia.
  - intros n1 n2 c H1 H2.
    destruct (G n1 c H1) as [A1 | (_ & E1 & C1)];
      destruct (G n2 c H2) as [A2 | (_ & E2 & C2)].
    + exact (Hinj n1 n2 c A1 A2).
    + subst c. specialize (Hlt n1 _ A1). lia.
    + subst c. specialize (Hlt n2 _ A2). lia.
    + now subst.
Qed.

Lemma run_wellFormed (names : list string) :
  forall db, wellFormed db -> wellFormed (run names db).
Proof.
  unfold run. induction names as [| n rest IH]; intros db H; [exact H |].
  cbn [fold_left]. apply IH, collection_wellFormed, H.
Qed.

(** Two names never share a collection: in a database that has served any
    calls, asking for two names gives the same collection only when the names
    are the same. *)
Theorem collections_distinct (names : list string) (n1 n2 : string) :
  fst (collection n1 (run names new))
  = fst (collection n2 (snd (collection n1 (run names new))))
  <-> n1 = n2.
Proof.
  assert (W : wellFormed (run names new)).
  { apply run_wellFormed. split; intros; discriminate. }
  set (db := run names new) in *. clearbody db.
  assert (W1 := collection_wellFormed n1 db W).
  assert (F1 := collection_found n1 db).
  set (c1 := fst (collection n1 db)) in *.
  set (db1 := snd (collection n1 db)) in *. clearbody c1 db1.
  destruct W1 as [Hlt Hinj].
  unfold collection. destruct (get n2 (collections db1)) as [c2 |] eqn:E2; cbn [fst].
  - split.
    + intros ->. exact (Hinj n1 n2 c2 F1 E2).
    + intros <-. rewrite F1 in E2. now injection E2.
  - split.
    + intros ->. specialize (Hlt n1 _ F1). lia.
    + intros <-. rewrite F1 in E2. discriminate.
Qed.

End DbFacts.

(** ** Properties of the gateway route *)

Module GatewayFacts.
Import Ascii Gateway.

Lemma substring_prefix (pre post : string) :
  String.substring 0 (String.length pre) (pre ++ post) = pre.
Proof.
  induction pre as [| x pre IH]; cbn.
  - destruct post; reflexivity.
  - now rewrite IH.
Qed.

Lemma substring_suffix (pre post : string) :
  String.substring (String.length pre) (String.length post) (pre ++ post) = post.
Proof.
  induction pre as [| x pre IH]; cbn; [| exact IH].
  induction post as [| y post IHp]; cbn; [reflexivity | now rewrite IHp].
Qed.

Lemma length_append (a b : string) :
  String.length (a ++ b) = (String.length a + String.length b)%nat.
Proof. induction a as [| x a IH]; cbn; [reflexivity | now rewrite IH]. Qed.

Lemma occurrences_append (c : ascii) (a b : string) :
  occurrences c (a ++ b) = (occurrences c a + occurrences c b)%nat.
Proof. induction a as [| x a IH]; cbn; [reflexivity | rewrite IH; lia]. Qed.

Lemma append_empty (a : string) : (a ++ "")%string = a.
Proof. induction a as [| x a IH]; cbn; [reflexivity | now rewrite IH]. Qed.

Lemma indexOfFrom_cut (c : ascii) (s : string) :
  forall i,
    0 <= i ->
    (indexOfFrom c i s = -1 /\ occurrences c s = 0%nat)
    \/ exists pre post,
         s = (pre ++ String c post)%string
         /\ occurrences c pre = 0%nat
         /\ indexOfFrom c i s = i + Z.of_nat (String.length pre).
Proof.
  induction s as [| x s IH]; intros i Hi.
  - left. split; reflexivity.
  - cbn [indexOfFrom occurrences]. destruct (Ascii.eqb x c) eqn:E.
    + right. apply Ascii.eqb_eq in E. subst x. exists EmptyString, s.
      cbn. repeat split. lia.
    + destruct (IH (i + 1) ltac:(lia)) as [[H1 H2] | (pre & post & -> & O & H)].
      * left. split; [exact H1 | exact H2].
      * right. exists (String x pre), post. cbn [append occurrences String.length].
        rewrite E, O, H. repeat split. lia.
Qed.

Lemma rawPath_cut (rawPath : string) :
  exists pre post,
    rawPath = (pre ++ post)%string
    /\ documentIdOf rawPath = pre
    /\ pathOf rawPath = post
    /\ occurrences "/" pre = 0%nat
    /\ (post = EmptyString \/ exists rest, post = String "/" rest).
Proof.
  unfold documentIdOf, pathOf, indexOf, substring, length. cbv zeta.
  destruct (indexOfFrom_cut "/" rawPath 0 ltac:(lia))
    as [[H O] | (pre & post & E & O & H)].
  - exists rawPath, EmptyString. rewrite H, Z.eqb_refl. cbn [negb].
    rewrite Z.sub_0_r, Z.sub_diag, Nat2Z.id. cbn [Z.to_nat].
    assert (D : String.substring 0 (String.length rawPath) rawPath = rawPath)
      by (clear; induction rawPath as [| x r IH]; cbn; [reflexivity | now rewrite IH]).
    assert (P : String.substring (String.length rawPath) 0 rawPath = EmptyString)
      by (clear; induction rawPath as [| x r IH]; cbn; [reflexivity | exact IH]).
    rewrite D, P, append_empty.
    repeat split; [exact O | now left].
  - exists pre, (String "/" post). rewrite H. cbn [Z.add].
    assert (Hn : (Z.of_nat (String.length pre) =? -1) = false) by (apply Z.eqb_neq; lia).
    rewrite Hn. cbn [negb]. rewrite Z.sub_0_r, Nat2Z.id.
    assert (L : Z.to_nat (Z.of_nat (String.length rawPath) - Z.of_nat (String.length pre))
                = String.length (String "/" post)).
    { rewrite E, length_append. lia. }
    rewrite L. subst rawPath.
    rewrite substring_prefix, substring_suffix.
    repeat split; [exact O |]. right. exists post. reflexivity.
Qed.

(** [rawPath] is cut at its first slash and nothing is lost: the document id
    is what comes before it and has no slash, the path is the rest and
    starts with the slash; without a slash the document id is the whole
    string and the path is empty. *)
Theorem rawPath_split (rawPath : string) :
  (documentIdOf rawPath ++ pathOf rawPath)%string = rawPath
  /\ occurrences "/" (documentIdOf rawPath) = 0%nat
  /\ (occurrences "/" rawPath = 0%nat ->
      documentIdOf rawPath = rawPath /\ pathOf rawPath = EmptyString)
  /\ (occurrences "/" rawPath <> 0%nat ->
      exists rest, pathOf rawPath = String "/" rest).
Proof.
  destruct (rawPath_cut rawPath) as (pre & post & E & -> & -> & O & P).
  split; [now symmetry |]. split; [exact O |].
  assert (C : occurrences "/" rawPath = occurrences "/" post)
    by (rewrite E, occurrences_append, O; reflexivity).
  rewrite C. split.
  - intros O0. destruct P as [-> | (rest & ->)]; [| discriminate O0].
    rewrite E, append_empty. split; reflexivity.
  - intros O1. destruct P as [-> | (rest & ->)]; [contradiction |].
    exists rest. reflexivity.
Qed.



End GatewayFacts.
